(** * Kaleracle: the HTTP layer of the collaborative price-prediction DAO

    A shallow embedding of the Next.js API routes of the repository
    (resolution, transaction preparation, team creation and joining, user-team
    lookup, oracle price) together with a model of the on-chain team and
    prediction registry they call, and of the client in front of them: the
    prediction form and page, the team page, the price chart and the wallet
    session.

    Conventions.
    - A JavaScript [number] is modelled by an exact rational ([Q]); the
      comparisons and products of the routes are the exact ones. The module
      [Binary64] repeats the price arithmetic of the resolution endpoint on
      IEEE 754 doubles, to evaluate it at the constants of the source.
      [mockResolution] compares two computed prices that exact arithmetic
      makes equal on a line of draws: its prices are computed on doubles,
      every operation followed by the rounding of module [Double].
    - A [bigint] is a [Z]; [/] on bigints is [Z.quot] (truncation toward zero).
    - Everything a route obtains from outside (environment variables, the RPC
      server, the clock, [Math.random]) is a field of an environment record, so
      that every handler is a function that can be evaluated.
    - [await]ed calls that may reject and statements that may throw live in
      the error monad [Result]; [try ... catch] is [try_catch]. *)

From Stdlib Require Import ZArith QArith String Ascii List Lia Lqa.
From Stdlib Require Import DecimalString DecimalN Qround Qabs.
From Corelib Require Import PrimFloat.
From stdpp Require Import base gmap strings list.

Open Scope string_scope.

(** ** Exceptions *)

Inductive Result (A : Type) : Type :=
| Return (a : A)
| Throw (message : string).
Arguments Return {A} a.
Arguments Throw {A} message.

Definition bind {A B} (c : Result A) (k : A -> Result B) : Result B :=
  match c with
  | Return a => k a
  | Throw m => Throw m
  end.

Definition try_catch {A} (body : Result A) (handler : string -> Result A) : Result A :=
  match body with
  | Return a => Return a
  | Throw m => handler m
  end.

Declare Scope result_scope.
Delimit Scope result_scope with result.
Notation "x <- c ;; k" := (bind c (fun x => k))
  (at level 100, c at next level, right associativity) : result_scope.
Notation "c ;;; k" := (bind c (fun _ => k))
  (at level 100, right associativity) : result_scope.

(** ** JavaScript values *)

Module Js.

(** The values the handlers inspect with [typeof], [===], [!== undefined],
    [Buffer.isBuffer] and truthiness. *)
Inductive value : Type :=
| undefined
| null
| boolean (b : bool)
| number (q : Q)
| str (s : string)
| buffer (s : string).

Definition Qeqb (a b : Q) : bool := Qle_bool a b && Qle_bool b a.

(** [a > b] on numbers. *)
Definition gt (a b : Q) : bool := negb (Qle_bool a b).

(** [a < b] on numbers. *)
Definition lt (a b : Q) : bool := negb (Qle_bool b a).

(** [a <= b] on numbers. *)
Definition le (a b : Q) : bool := Qle_bool a b.

Definition truthy (v : value) : bool :=
  match v with
  | undefined | null => false
  | boolean b => b
  | number q => negb (Qeqb q 0)
  | str s => negb (String.eqb s EmptyString)
  | buffer _ => true
  end.

Definition is_undefined (v : value) : bool :=
  match v with undefined => true | _ => false end.

Definition isBuffer (v : value) : bool :=
  match v with buffer _ => true | _ => false end.

(** [v.toString()] for the two cases the handlers use it in. *)
Definition toString (v : value) : string :=
  match v with
  | buffer s | str s => s
  | _ => EmptyString
  end.

(** [v === b] for a boolean [b]. *)
Definition strict_eq_bool (v : value) (b : bool) : bool :=
  match v with
  | boolean b' => Bool.eqb b' b
  | _ => false
  end.

(** [s.includes(sub)] *)
Definition includes (s sub : string) : bool :=
  match String.index 0 sub s with
  | Some _ => true
  | None => false
  end.

(** A draw of [Math.random()] lies in [0, 1). *)
Definition is_random (r : Q) : Prop := (0 <= r)%Q /\ (r < 1)%Q.

(** [!s] for a string that may be absent ([null]). *)
Definition missing (s : option string) : bool :=
  match s with
  | None => true
  | Some s => String.eqb s EmptyString
  end.

End Js.

(** ** The Reflector client (src/app/api/resolve/route.ts) *)

Module Reflector.

Local Open Scope Q_scope.

Record ReflectorPriceData : Type := {
  price : Q;
  timestamp : Q
}.

(** The shapes [parseScvValue] tells apart. [raw] is the result of
    [parseInt(_value)], [None] when [_value] is falsy or does not parse. *)
Inductive ScvNumber : Type :=
| scvI128 (raw : option Z)
| scvU64 (raw : option Z)
| rawNumber (q : Q)
| otherValue.

Definition parseScvValue (scvValue : ScvNumber) : Q :=
  match scvValue with
  | scvI128 (Some n) => inject_Z n
  | scvU64 (Some n) => inject_Z n
  | rawNumber q => q
  | _ => 0
  end.

(** One entry of an [scvMap]: [entry.key?._value] and [entry.val]. *)
Record MapEntry : Type := {
  key_value : Js.value;
  val : option ScvNumber
}.

(** The returned contract value, by [_switch.name]. For a map, [None] stands
    for a falsy [_value]. *)
Inductive ContractValue : Type :=
| cvMap (entries : option (list MapEntry))
| cvI128 (raw : option Z)
| cvOther.

(** What [simulateTransaction] resolves to: [result.result.retval] when the
    three guards of the [if] hold and the value is an object. *)
Record Simulation : Type := {
  retval : option ContractValue
}.

(** The world as seen by one call of [getLastPrice]. *)
Record Oracle : Type := {
  new_Contract : Result unit;
  simulateTransaction : Result Simulation;
  Date_now : Q;
  Math_random : Q
}.

Definition e14 : Q := inject_Z (10 ^ 14).

Definition is_key (k : string) (v : Js.value) : bool :=
  match v with
  | Js.str s => String.eqb s k
  | _ => false
  end.

(** [entry.val] as a condition: an absent value and the number 0 are falsy,
    an object is truthy. *)
Definition val_truthy (v : option ScvNumber) : bool :=
  match v with
  | None => false
  | Some (rawNumber q) => negb (Js.Qeqb q 0)
  | Some _ => true
  end.

(** The body of the [for (const entry of priceMap || [])] loop. *)
Definition read_entry (acc : Q * Q) (entry : MapEntry) : Q * Q :=
  let '(price, timestamp) := acc in
  let scv := match val entry with Some v => v | None => otherValue end in
  let price :=
    if is_key "price" (key_value entry) && val_truthy (val entry)
    then parseScvValue scv / e14 else price in
  let timestamp :=
    if is_key "timestamp" (key_value entry) && val_truthy (val entry)
    then parseScvValue scv * inject_Z 1000 else timestamp in
  (price, timestamp).

Definition parse_price (now : Q) (contractResult : ContractValue) : Q * Q :=
  match contractResult with
  | cvMap (Some priceMap) => fold_left read_entry priceMap (0, now)
  | cvI128 raw => (parseScvValue (scvI128 raw) / e14, now)
  | _ => (0, now)
  end.

(** [new Date(t).toISOString()] throws a [RangeError] outside the range of
    time values. *)
Definition max_time_value : Q := inject_Z 8640000000000000.

Definition toISOString (t : Q) : Result unit :=
  if Js.le (- max_time_value) t && Js.le t max_time_value
  then Return tt
  else Throw "Invalid time value".

Definition generateMockPrice (assetSymbol : string) (random : Q) : Q :=
  let basePrice :=
    if String.eqb assetSymbol "EUR/USD" then 108 # 100
    else if String.eqb assetSymbol "BTC/USD" then inject_Z 45000
    else if String.eqb assetSymbol "ETH/USD" then inject_Z 2500
    else 1 in
  let variation := (random - (1 # 2)) * (2 # 100) in
  basePrice * (1 + variation).

Definition mock (o : Oracle) (assetSymbol : string) : ReflectorPriceData :=
  {| price := generateMockPrice assetSymbol (Math_random o);
     timestamp := Date_now o |}.

Local Open Scope result_scope.

(** The [try] block of [getLastPrice]: [Return None] is falling out of the
    [if]s to the mock price after it. *)
Definition getLastPrice_try (o : Oracle) (assetSymbol : string)
  : Result (option ReflectorPriceData) :=
  new_Contract o ;;;
  result <- simulateTransaction o ;;
  match retval result with
  | Some contractValue =>
      let '(price, timestamp) := parse_price (Date_now o) contractValue in
      if Js.gt price 0
      then toISOString timestamp ;;;
           Return (Some {| price := price; timestamp := timestamp |})
      else Return None
  | None => Return None
  end.

Definition getLastPrice (o : Oracle) (assetSymbol : string) : Result ReflectorPriceData :=
  try_catch
    (r <- getLastPrice_try o assetSymbol ;;
     match r with
     | Some data => Return data
     | None => Return (mock o assetSymbol)
     end)
    (fun _ => Return (mock o assetSymbol)).

End Reflector.

(** ** The price arithmetic on doubles *)

Module Binary64.

Set Warnings "-inexact-float".

(** [currentPriceData.price * 0.995] *)
Definition historicalPrice (currentPrice : float) : float := (currentPrice * 0.995)%float.

(** [currentPriceData.price > historicalPrice] *)
Definition actualPriceWentUp (currentPrice : float) : bool :=
  (historicalPrice currentPrice <? currentPrice)%float.

(** [basePrice * (1 + (Math.random() - 0.5) * 0.02)] *)
Definition generateMockPrice (basePrice random : float) : float :=
  (basePrice * (1 + (random - 0.5) * 0.02))%float.

(** The fallback rate of the handler and the two ends of [Math.random()]. *)
Definition fallback_rate : float := 1.0856%float.
Definition least_random : float := 0%float.
Definition greatest_random : float := 0.99999999999999989%float.

(** The prices of scenario B and the two mock prices of the [catch] block. *)
Definition reference_B : float := 1.08%float.
Definition current_B : float := 1.085%float.
Definition mock_up : float := 1.05%float.
Definition mock_down : float := 0.95%float.

(** The least price the parser can return: one unit of the oracle's 14
    decimals. *)
Definition least_parsed_price : float := (1 / 1e14)%float.

Set Warnings "inexact-float".

End Binary64.

(** ** Doubles as rationals *)

(** A finite double is a rational, and an operation on doubles is the exact
    operation followed by the rounding to the nearest double, ties to the
    even mantissa. Magnitudes stay below 2^1024 here, so no operation
    overflows. *)
Module Double.

Local Open Scope Q_scope.

(** [2^e] *)
Definition pow2 (e : Z) : Q :=
  if (0 <=? e)%Z then inject_Z (2 ^ e) else 1 / inject_Z (2 ^ (- e)).

(** The integer nearest to [x], the even one of two that are as near. *)
Definition nearest_even (x : Q) : Z :=
  let f := Qfloor x in
  match Qcompare (x - inject_Z f) (1 # 2) with
  | Lt => f
  | Gt => (f + 1)%Z
  | Eq => if Z.even f then f else (f + 1)%Z
  end.

(** The integer part of the binary logarithm of [x > 0]. *)
Definition floor_log2 (x : Q) : Z :=
  let k := (Z.log2 (Qnum x) - Z.log2 (Zpos (Qden x)))%Z in
  if Qle_bool (pow2 k) x then k else (k - 1)%Z.

(** The double nearest to [x]: 53 bits of mantissa, the exponent of the
    last place no less than -1074. *)
Definition round (x : Q) : Q :=
  let a := Qabs x in
  if Qeq_bool a 0 then 0
  else
    let e := Z.max (floor_log2 a - 52) (-1074) in
    let m := nearest_even (a / pow2 e) in
    (if Qle_bool 0 x then inject_Z m else inject_Z (- m)) * pow2 e.

(** A decimal literal of the source. *)
Definition literal (q : Q) : Q := round q.

Definition add (a b : Q) : Q := round (a + b).
Definition sub (a b : Q) : Q := round (a - b).
Definition mul (a b : Q) : Q := round (a * b).

Arguments round : simpl never.

(** Half a unit in the last place of a double in [1, 2): 2^-53. *)
Definition half_ulp : Q := 1 # 9007199254740992.

End Double.

(** ** The resolution endpoint (src/app/api/resolve/route.ts) *)

Module Resolve.

Local Open Scope Q_scope.

(** An element of [predictionData._value]. *)
Inductive MapItem : Type :=
| nullItem                                  (* reading [_attributes] throws *)
| noAttributes                              (* [_attributes], [key] or [val] is falsy *)
| item (key_value val_value : Js.value).    (* [key._value] and [val._value] *)

(** [result.result], as far as the parser looks at it: first whether
    [JSON.stringify] accepts it, then its [_value]. *)
Inductive PredictionData : Type :=
| notSerializable                          (* [JSON.stringify(predictionData)] throws *)
| noValueField
| valueNotArray
| valueArray (dataMap : list MapItem).

Inductive SimulateResponse : Type :=
| simError (error : string)                     (* ['error' in result] *)
| simSuccess (result : option PredictionData).  (* ['result' in result && result.result] *)

Record Parsed : Type := {
  asset : string;
  predictedDirection : Js.value;
  resolved : Js.value
}.

Definition initial : Parsed :=
  {| asset := "EUR/USD";
     predictedDirection := Js.boolean false;
     resolved := Js.boolean false |}.

Definition read_item (p : Parsed) (it : MapItem) : Result Parsed :=
  match it with
  | nullItem => Throw "Cannot read properties of null (reading '_attributes')"
  | noAttributes => Return p
  | item key val =>
      if Js.truthy key && Js.isBuffer key then
        let keyName := Js.toString key in
        if String.eqb keyName "asset" && Js.truthy val && Js.isBuffer val then
          Return {| asset := Js.toString val;
                    predictedDirection := predictedDirection p;
                    resolved := resolved p |}
        else if String.eqb keyName "prediction" && negb (Js.is_undefined val) then
          Return {| asset := asset p; predictedDirection := val; resolved := resolved p |}
        else if String.eqb keyName "resolved" && negb (Js.is_undefined val) then
          Return {| asset := asset p;
                    predictedDirection := predictedDirection p;
                    resolved := val |}
        else Return p
      else Return p
  end.

Definition read_items (dataMap : list MapItem) : Result Parsed :=
  fold_left (fun acc it => bind acc (fun p => read_item p it)) dataMap (Return initial).

(** The block that sets [predictionExists] and the three parsed fields. *)
Definition parse_prediction (result : option PredictionData) : bool * Parsed :=
  match result with
  | None => (false, initial)
  | Some predictionData =>
      let parsed :=
        match predictionData with
        | notSerializable => Throw "the TypeError of JSON.stringify"
        | valueArray dataMap => read_items dataMap
        | noValueField | valueNotArray => Return initial
        end in
      match parsed with
      | Return p => (true, p)
      | Throw _ => (false, initial)
      end
  end.

Record ContractData : Type := {
  cd_asset : string;
  cd_predictedDirection : Js.value;
  cd_resolved : bool;
  extractedFromContract : bool
}.

Record OracleData : Type := {
  source : string;
  od_currentPrice : Q;
  od_timestamp : Q;
  od_asset : string
}.

Record ResolveResponse : Type := {
  predictionId : string;
  outcome : bool;
  currentPrice : Q;
  historicalPrice : Q;
  rewardsDistributed : bool;
  message : string;
  resolvedViaContract : bool;
  oracleData : option OracleData;
  contractData : option ContractData;
  contractError : option string
}.

(** The JSON bodies the handler answers with. *)
Inductive Response : Type :=
| json_error (status : Z) (error : string)
| json_not_submitted (predictionId : string)
| json_resolved (body : ResolveResponse).

(** The [error] property of the body. *)
Definition error_of (r : Response) : option string :=
  match r with
  | json_error _ error => Some error
  | json_not_submitted _ => Some "PredictionNotSubmitted"
  | json_resolved _ => None
  end.

(** The [outcome] property of the body ([null] for an unsubmitted prediction). *)
Definition outcome_of (r : Response) : option bool :=
  match r with
  | json_resolved body => Some (outcome body)
  | _ => None
  end.

Record Env : Type := {
  DAO_CONTRACT_ID : string;
  REFLECTOR_CONTRACT_ID : string;
  new_Contract : Result unit;
  getLatestLedger : Result unit;
  simulateTransaction : string -> Result SimulateResponse;
  oracle : Reflector.Oracle;
  Math_random_1 : Q;
  Math_random_2 : Q
}.

(** [actualPriceWentUp] and [predictionCorrect]. *)
Definition resolution_logic (predictedDirection : Js.value) (currentPrice historicalPrice : Q)
  : bool * bool :=
  let actualPriceWentUp := Js.gt currentPrice historicalPrice in
  let predictionCorrect := Js.strict_eq_bool predictedDirection actualPriceWentUp in
  (actualPriceWentUp, predictionCorrect).

Definition resolution_message (predictionCorrect : bool) (asset : string)
    (actualPriceWentUp : bool) (predictedDirection : Js.value) : string :=
  "Prediction " ++ (if predictionCorrect then "succeeded" else "failed") ++ " - " ++
  asset ++ " price " ++ (if actualPriceWentUp then "increased" else "decreased") ++
  " (predicted " ++ (if Js.truthy predictedDirection then "up" else "down") ++ ")".

Local Open Scope result_scope.

(** The body answered on the oracle path, from the parsed prediction and the
    price read. *)
Definition resolution_body (id : string) (p : Parsed)
    (currentPriceData : Reflector.ReflectorPriceData) : ResolveResponse :=
  let historicalPrice := Reflector.price currentPriceData * (995 # 1000) in
  let '(actualPriceWentUp, predictionCorrect) :=
    resolution_logic (predictedDirection p) (Reflector.price currentPriceData) historicalPrice in
  {| predictionId := id;
     outcome := predictionCorrect;
     currentPrice := Reflector.price currentPriceData;
     historicalPrice := historicalPrice;
     rewardsDistributed := predictionCorrect;
     message := resolution_message predictionCorrect (asset p) actualPriceWentUp
                  (predictedDirection p);
     resolvedViaContract := true;
     oracleData := Some {| source := "Reflector";
                           od_currentPrice := Reflector.price currentPriceData;
                           od_timestamp := Reflector.timestamp currentPriceData;
                           od_asset := "EUR/USD" |};
     contractData := Some {| cd_asset := asset p;
                             cd_predictedDirection := predictedDirection p;
                             cd_resolved := false;
                             extractedFromContract := true |};
     contractError := None |}.

(** The read of the current price, with its own fallback. *)
Definition current_price (e : Env) : Result Reflector.ReflectorPriceData :=
  try_catch (Reflector.getLastPrice (oracle e) "EUR/USD")
    (fun _ => Return {| Reflector.price := 10856 # 10000;
                        Reflector.timestamp := Reflector.Date_now (oracle e) |}).

(** From the oracle read to the answer, once the prediction was found. The
    [toISOString] is the one in the argument of [console.log]. *)
Definition resolve_with_oracle (e : Env) (id : string) (p : Parsed) : Result Response :=
  currentPriceData <- current_price e ;;
  Reflector.toISOString (Reflector.timestamp currentPriceData) ;;;
  Return (json_resolved (resolution_body id p currentPriceData)).

(** The inner [try] block. *)
Definition GET_try (e : Env) (id : string) : Result Response :=
  getLatestLedger e ;;;
  result <- simulateTransaction e id ;;
  match result with
  | simError error => Throw ("Contract call failed: " ++ error)
  | simSuccess result =>
      let '(predictionExists, parsed) := parse_prediction result in
      if negb predictionExists then Return (json_not_submitted id)
      else resolve_with_oracle e id parsed
  end.

(** The inner [catch (contractError)] block. *)
Definition GET_catch (e : Env) (id : string) (contractError : string) : Response :=
  let mockHistoricalPrice := 1 in
  let mockCurrentPrice := if Js.gt (Math_random_1 e) (1 # 2) then 105 # 100 else 95 # 100 in
  let predictedUp := Js.includes id "up" || Js.gt (Math_random_2 e) (1 # 2) in
  let priceWentUp := Js.gt mockCurrentPrice mockHistoricalPrice in
  let predictionCorrect := Bool.eqb predictedUp priceWentUp in
  json_resolved
    {| predictionId := id;
       outcome := predictionCorrect;
       currentPrice := mockCurrentPrice;
       historicalPrice := mockHistoricalPrice;
       rewardsDistributed := true;
       message := "Prediction " ++ (if predictionCorrect then "succeeded" else "failed") ++
                  " - simulated via oracle logic (contract calls unavailable)";
       resolvedViaContract := false;
       oracleData := None;
       contractData := None;
       contractError := Some contractError |}.

Definition GET (e : Env) (predictionId : option string) : Result Response :=
  try_catch
    (if Js.missing predictionId
     then Return (json_error 400 "Missing predictionId parameter")
     else
       let id := default EmptyString predictionId in
       if String.eqb (DAO_CONTRACT_ID e) EmptyString || String.eqb (REFLECTOR_CONTRACT_ID e) EmptyString
       then Return (json_error 500
              "Contract addresses not configured. Please set PUBLIC_DAO_CONTRACT_ID and PUBLIC_REFLECTOR_CONTRACT_ID")
       else
         new_Contract e ;;;
         try_catch (GET_try e id) (fun m => Return (GET_catch e id m)))
    (fun m => Return (json_error 500 ("Resolution failed: " ++ m))).

(** [base + (Math.random() - 0.5) * 0.02] on doubles, [random] being the
    draw. *)
Definition mock_price (base random : Q) : Q :=
  Double.add (Double.literal base)
    (Double.mul (Double.sub random (Double.literal (1 # 2))) (Double.literal (2 # 100))).

(** [mockResolution], defined after the handler and called by none of its
    paths; the two arguments are its two draws of [Math.random()]. *)
Definition mockResolution (id : string) (random_1 random_2 : Q) : Response :=
  let currentPrice := mock_price (108 # 100) random_1 in
  let historicalPrice := mock_price (107 # 100) random_2 in
  let outcome := Js.gt currentPrice historicalPrice in
  json_resolved
    {| predictionId := id;
       outcome := outcome;
       currentPrice := currentPrice;
       historicalPrice := historicalPrice;
       rewardsDistributed := true;
       message := if outcome
                  then "Prediction correct! Price increased as predicted (mock resolution)."
                  else "Prediction incorrect. Price decreased, opposite of prediction (mock resolution).";
       resolvedViaContract := false;
       oracleData := None;
       contractData := None;
       contractError := None |}.

End Resolve.

(** ** The transaction-preparation endpoint (prepare-transaction route) *)

Module Prepare.

Local Open Scope Q_scope.

Record Prediction : Type := {
  asset : string;
  direction : bool
}.

(** The request body; [None] is an absent property. *)
Record PrepareTransactionRequest : Type := {
  publicKey : option string;
  teamName : option string;
  stakePercentage : option Q;
  prediction : option Prediction
}.

(** The contract call placed in the transaction. *)
Inductive Operation : Type :=
| make_prediction (predictionId teamName asset : string) (direction : bool)
    (stakeAmount stakePercentage : Z) (predictor : string)
| form_team (teamName : string) (members : list string).

(** The prepared transaction is kept decoded: [xdr] is the operation it
    carries. *)
Record PrepareTransactionResponse : Type := {
  xdr : Operation;
  networkPassphrase : string;
  predictionId : string;
  operationType : string
}.

Inductive Response : Type :=
| json_error (status : Z) (error : string)
| json_prepared (body : PrepareTransactionResponse).

(** [teamResult] of the [get_team] simulation: is ['error' in teamResult]? *)
Record TeamSimulation : Type := {
  has_error : bool
}.

Record Env : Type := {
  STELLAR_NETWORK_PASSPHRASE : string;
  DAO_CONTRACT_ID : string;
  KALE_CONTRACT_ID : string;
  Keypair_fromPublicKey : string -> Result unit;
  loadAccount : string -> Result unit;
  new_Contract : string -> Result unit;
  simulateTransaction : string -> Result TeamSimulation;
  prepareTransaction : Operation -> Result unit;
  Date_now : N;
  Math_random_toString_36 : string;
  (** The balance the token contract holds for an account. [kaleContract] is
      built for it and never called: no path of the handler reads this. *)
  kale_balance : string -> Z
}.

(** [BigInt(x)] for a number or [undefined]. *)
Definition BigInt (x : option Q) : Result Z :=
  match x with
  | None => Throw "Cannot convert undefined to a BigInt"
  | Some q =>
      if (Zpos (Qden (Qred q)) =? 1)%Z then Return (Qnum (Qred q))
      else Throw "The number cannot be converted to a BigInt because it is not an integer"
  end.

(** [x < 0] and [x > 100]; both are [false] on [undefined]. *)
Definition below_zero (x : option Q) : bool :=
  match x with Some q => Js.lt q 0 | None => false end.

Definition above_hundred (x : option Q) : bool :=
  match x with Some q => Js.gt q (inject_Z 100) | None => false end.

Definition kaleBalance : Z := 1000000000.

(** [(balance * BigInt(percentage)) / BigInt(100)] on bigints. *)
Definition stake_amount (balance percentage : Z) : Z :=
  ((balance * percentage) ÷ 100)%Z.

(** [s.substring(n)] *)
Fixpoint substring_from (n : nat) (s : string) : string :=
  match n, s with
  | O, _ => s
  | S n', String _ rest => substring_from n' rest
  | S _, EmptyString => EmptyString
  end.

(** The decimal rendering of a time value inside a template string. *)
Definition decimal (n : N) : string := NilZero.string_of_uint (N.to_uint n).

(** [`${teamName}_${Date.now()}_${Math.random().toString(36).substring(7)}`] *)
Definition make_predictionId (teamName : string) (now : N) (random_36 : string) : string :=
  teamName ++ "_" ++ decimal now ++ "_" ++ substring_from 7 random_36.

Local Open Scope result_scope.

(** The [try] block that builds and prepares the contract operation. *)
Definition build_operation (e : Env) (publicKey teamName : string) (p : Prediction)
    (stakeAmount percentage : Z) (predictionId : string) : Result Response :=
  let teamExists :=
    match simulateTransaction e teamName with
    | Return teamResult => negb (has_error teamResult)
    | Throw _ => false
    end in
  let operation :=
    if teamExists
    then make_prediction predictionId teamName (asset p) (direction p)
           stakeAmount percentage publicKey
    else form_team teamName [publicKey] in
  prepareTransaction e operation ;;;
  Return (json_prepared
    {| xdr := operation;
       networkPassphrase := STELLAR_NETWORK_PASSPHRASE e;
       predictionId := predictionId;
       operationType := if teamExists then "make_prediction" else "form_team" |}).

(** The outer [catch (error)] block. *)
Definition POST_catch (errorMessage : string) : Response :=
  if Js.includes errorMessage "Account not found" then
    json_error 400 "Account not found. Please ensure your wallet is funded on Stellar Testnet."
  else if Js.includes errorMessage "contract not found" then
    json_error 500 "Contract not deployed or invalid contract ID"
  else if Js.includes errorMessage "insufficient balance" then
    json_error 400 "Insufficient balance for transaction fees"
  else json_error 500 ("Transaction preparation failed: " ++ errorMessage).

(** [request_json] is the outcome of [await request.json()]. *)
Definition POST_try (e : Env) (request_json : Result PrepareTransactionRequest)
  : Result Response :=
  body <- request_json ;;
  match publicKey body, teamName body, prediction body with
  | Some pk, Some team, Some p =>
      if String.eqb pk EmptyString || String.eqb team EmptyString then
        Return (json_error 400 "Missing required fields: publicKey, teamName, or prediction")
      else
      match Keypair_fromPublicKey e pk with
      | Throw _ => Return (json_error 400 "Invalid Stellar public key format")
      | Return _ =>
      if below_zero (stakePercentage body) || above_hundred (stakePercentage body) then
        Return (json_error 400 "Stake percentage must be between 0 and 100")
      else if String.eqb (DAO_CONTRACT_ID e) EmptyString || String.eqb (KALE_CONTRACT_ID e) EmptyString then
        Return (json_error 500
          "Contract addresses not configured. Please set PUBLIC_DAO_CONTRACT_ID and PUBLIC_KALE_CONTRACT_ID")
      else
      match loadAccount e pk with
      | Throw m =>
          Return (json_error 400
            ("Account not found: " ++ m ++
             ". Please ensure your wallet is funded on Stellar Testnet."))
      | Return _ =>
          new_Contract e (DAO_CONTRACT_ID e) ;;;
          new_Contract e (KALE_CONTRACT_ID e) ;;;
          percentage <- BigInt (stakePercentage body) ;;
          let stakeAmount := stake_amount kaleBalance percentage in
          if (stakeAmount <=? 0)%Z then
            Return (json_error 400 "Insufficient KALE balance for staking")
          else
            let predictionId :=
              make_predictionId team (Date_now e) (Math_random_toString_36 e) in
            try_catch (build_operation e pk team p stakeAmount percentage predictionId)
              (fun m => Return (json_error 500 ("Contract operation failed: " ++ m)))
      end
      end
  | _, _, _ =>
      Return (json_error 400 "Missing required fields: publicKey, teamName, or prediction")
  end.

Definition POST (e : Env) (request_json : Result PrepareTransactionRequest)
  : Result Response :=
  try_catch (POST_try e request_json) (fun m => Return (POST_catch m)).

End Prepare.

(** ** The user-team lookup endpoint (user-team route) *)

Module UserTeam.

(** [contractResult._value], by the tests the parser makes on it. *)
Inductive Payload : Type :=
| falsy                          (* [undefined], [null], the empty string *)
| text (s : string)              (* [typeof _value === 'string'], not empty *)
| buffer_json (s : string)       (* [{ type: 'Buffer', data }] holding [s] *)
| buffer (s : string)            (* [instanceof Buffer] holding [s] *)
| other (rendering : string).    (* anything else; [String(_value)] *)

(** [result.result.retval] once all the guards on [_switch.name] hold. *)
Record ContractValue : Type := {
  switch_name : string;
  arm : string;
  value : Payload
}.

(** What [simulateTransaction] resolves to; [None] when one of the guards
    on [result], [retval], [_switch] or [name] fails. *)
Record Simulation : Type := {
  retval : option ContractValue
}.

Record TeamBody : Type := {
  success : bool;
  teamName : option string;
  address : option string;
  message : string
}.

Inductive Response : Type :=
| json_error (status : Z) (error : string)
| json_team (body : TeamBody).

Section Handler.

(** The state of the chain behind the RPC server. A simulation reads it. *)
Variable Ledger : Type.

Record Env : Type := {
  DAO_CONTRACT_ID : string;
  Keypair_fromPublicKey : string -> Result unit;
  new_Contract : Result unit;
  simulateTransaction : Ledger -> string -> Result Simulation
}.

(** The parse of the team name out of a non-void contract value. *)
Definition parse_team_name (contractResult : ContractValue) : option string :=
  if String.eqb (arm contractResult) "str" then
    match value contractResult with
    | falsy =>
        None
    | text s => Some s
    | buffer_json s => Some s
    | buffer s => Some s
    | other rendering => Some rendering
    end
  else if String.eqb (switch_name contractResult) "scvString" then
    match value contractResult with
    | text s => Some s
    | buffer_json s => Some s
    | _ => None
    end
  else None.

(** [actualTeamName || 'unknown-team'] *)
Definition or_unknown (actualTeamName : option string) : string :=
  match actualTeamName with
  | Some s => if String.eqb s EmptyString then "unknown-team" else s
  | None => "unknown-team"
  end.

Definition no_team (address : option string) (message : string) : Response :=
  json_team {| success := true; teamName := None; address := address; message := message |}.

(** The innermost [try] block: [Some r] is a [return] inside it. *)
Definition call_contract (e : Env) (l : Ledger) (address : string)
  : Result (option Response) :=
  bind (simulateTransaction e l address) (fun result =>
  match retval result with
  | Some contractValue =>
      if String.eqb (switch_name contractValue) "scvVoid" then
        Return (Some (no_team (Some address) "User is not a member of any team"))
      else
        Return (Some (json_team
          {| success := true;
             teamName := Some (or_unknown (parse_team_name contractValue));
             address := Some address;
             message := "Team membership found" |}))
  | None => Return None
  end).

(** The handler threads the ledger: what it returns second is the state of
    the chain after the call. *)
Definition getUserTeam (e : Env) (l : Ledger) (address : option string)
  : Response * Ledger :=
  if Js.missing address then (json_error 400 "Address parameter is required", l)
  else
    let addr := default EmptyString address in
    match Keypair_fromPublicKey e addr with
    | Throw _ => (json_error 400 "Invalid Stellar address format", l)
    | Return _ =>
        if String.eqb (DAO_CONTRACT_ID e) EmptyString then
          (json_error 500 "DAO contract not configured", l)
        else
          match new_Contract e with
          | Throw _ => (no_team (Some addr) "User is not a member of any team", l)
          | Return _ =>
              match call_contract e l addr with
              | Return (Some r) => (r, l)
              | Return None | Throw _ =>
                  (no_team (Some addr) "Unable to determine team membership", l)
              end
          end
    end.

(** [GET]: the address is the [address] search parameter. *)
Definition GET (e : Env) (l : Ledger) (address : option string) : Response * Ledger :=
  getUserTeam e l address.

(** [POST]: the address is the [publicKey] property of the body; a body
    that does not parse is answered by [handleError]. *)
Definition POST (e : Env) (l : Ledger) (request_json : Result (option string))
  : Response * Ledger :=
  match request_json with
  | Return publicKey => getUserTeam e l publicKey
  | Throw m => (json_error 500 ("Failed to get user team: " ++ m), l)
  end.

End Handler.

Arguments DAO_CONTRACT_ID {Ledger} e.
Arguments Keypair_fromPublicKey {Ledger} e _.
Arguments new_Contract {Ledger} e.
Arguments simulateTransaction {Ledger} e _ _.
Arguments getUserTeam {Ledger} e l address.
Arguments call_contract {Ledger} e l address.
Arguments GET {Ledger} e l address.
Arguments POST {Ledger} e l request_json.

End UserTeam.

(** ** The team endpoints (create and join routes) *)

Module Teams.

(** The one operation both routes place in a transaction. *)
Inductive Operation : Type :=
| form_team (teamName : string) (members : list string).

Record Prepared : Type := {
  xdr : Operation;
  networkPassphrase : string;
  teamName : string;
  message : string
}.

Inductive Response : Type :=
| json_error (status : Z) (error : string)
| json_prepared (body : Prepared).

(** A simulation result as the two routes look at it: [switch_name] is
    [result.result.retval._switch.name] when every guard of the long
    conjunction holds, [None] otherwise. *)
Record Simulation : Type := {
  switch_name : option string
}.

Record Env : Type := {
  STELLAR_NETWORK_PASSPHRASE : string;
  DAO_CONTRACT_ID : string;
  Keypair_fromPublicKey : string -> Result unit;
  loadAccount : string -> Result unit;
  new_Contract : Result unit;
  get_team : string -> Result Simulation;
  get_user_team : string -> Result Simulation;
  prepareTransaction : Operation -> Result unit
}.

(** [s.trim()], on the ASCII white space: the space and the control
    characters 9 to 13. *)
Definition is_space (c : ascii) : bool :=
  let n := nat_of_ascii c in
  ((n =? 32) || ((9 <=? n) && (n <=? 13)))%nat.

Fixpoint trim_start (s : string) : string :=
  match s with
  | String c rest => if is_space c then trim_start rest else s
  | EmptyString => EmptyString
  end.

Fixpoint rev_string (s acc : string) : string :=
  match s with
  | String c rest => rev_string rest (String c acc)
  | EmptyString => acc
  end.

Definition trim (s : string) : string :=
  rev_string (trim_start (rev_string (trim_start s) EmptyString)) EmptyString.

(** [retval._switch.name !== 'scvVoid'] under the guards. *)
Definition non_void (r : Simulation) : bool :=
  match switch_name r with
  | Some name => negb (String.eqb name "scvVoid")
  | None => false
  end.

(** [retval._switch.name === 'scvVoid'] under the guards. *)
Definition is_void (r : Simulation) : bool :=
  match switch_name r with
  | Some name => String.eqb name "scvVoid"
  | None => false
  end.

(** [s] between double quotes, as the messages show a team name. *)
Definition quoted (s : string) : string :=
  String (ascii_of_nat 34) (s ++ String (ascii_of_nat 34) EmptyString).

Definition already_member : Response :=
  json_error 400 "You are already a member of a team. Each wallet can only join one team.".

Local Open Scope result_scope.

(** The tail shared by both routes: the membership check, then the
    [form_team] transaction. [Throw] goes to the outer [catch]. *)
Definition check_user_and_prepare (e : Env) (publicKey teamName message : string)
  : Result Response :=
  let has_team :=
    match get_user_team e publicKey with
    | Return userTeamResult => non_void userTeamResult
    | Throw _ => false
    end in
  if has_team then Return already_member
  else
    let operation := form_team teamName [publicKey] in
    prepareTransaction e operation ;;;
    Return (json_prepared
      {| xdr := operation;
         networkPassphrase := STELLAR_NETWORK_PASSPHRASE e;
         teamName := teamName;
         message := message |}).

(** [POST] of the create route. *)
Definition create (e : Env) (publicKey teamName : option string) : Result Response :=
  try_catch
    (if Js.missing publicKey || Js.missing teamName then
       Return (json_error 400 "Missing required fields: publicKey or teamName")
     else
       let pk := default EmptyString publicKey in
       let teamName := trim (default EmptyString teamName) in
       if (String.length teamName <? 2)%nat || (32 <? String.length teamName)%nat then
         Return (json_error 400 "Team name must be between 2 and 32 characters")
       else
       match Keypair_fromPublicKey e pk with
       | Throw _ => Return (json_error 400 "Invalid Stellar public key format")
       | Return _ =>
       if String.eqb (DAO_CONTRACT_ID e) EmptyString then
         Return (json_error 500 "DAO contract not configured")
       else
       match loadAccount e pk with
       | Throw m =>
           Return (json_error 400
             ("Account not found: " ++ m ++
              ". Please ensure your wallet is funded on Stellar Testnet."))
       | Return _ =>
           new_Contract e ;;;
           let exists_ :=
             match get_team e teamName with
             | Return teamResult => non_void teamResult
             | Throw _ => false
             end in
           if exists_ then
             Return (json_error 400
               ("Team " ++ quoted teamName ++
                " already exists. Please choose a different name or join the existing team."))
           else
             check_user_and_prepare e pk teamName
               ("Team " ++ quoted teamName ++ " creation transaction prepared")
       end
       end)
    (fun m => Return (json_error 500 ("Team creation failed: " ++ m))).

(** [POST] of the join route. *)
Definition join (e : Env) (publicKey teamName : option string) : Result Response :=
  try_catch
    (if Js.missing publicKey || Js.missing teamName then
       Return (json_error 400 "Missing required fields: publicKey or teamName")
     else
       let pk := default EmptyString publicKey in
       let teamName := trim (default EmptyString teamName) in
       match Keypair_fromPublicKey e pk with
       | Throw _ => Return (json_error 400 "Invalid Stellar public key format")
       | Return _ =>
       if String.eqb (DAO_CONTRACT_ID e) EmptyString then
         Return (json_error 500 "DAO contract not configured")
       else
       match loadAccount e pk with
       | Throw m => Return (json_error 400 ("Account not found: " ++ m))
       | Return _ =>
           new_Contract e ;;;
           match get_team e teamName with
           | Throw _ =>
               Return (json_error 400 ("Team " ++ quoted teamName ++ " does not exist"))
           | Return teamResult =>
               if is_void teamResult then
                 Return (json_error 400
                   ("Team " ++ quoted teamName ++
                    " does not exist. Please check the team name or create a new team."))
               else
                 check_user_and_prepare e pk teamName
                   ("Join team " ++ quoted teamName ++ " transaction prepared")
           end
       end
       end)
    (fun m => Return (json_error 500 ("Failed to join team: " ++ m))).

End Teams.

(** ** The on-chain registry (contracts/dao, only documented in the sources) *)

Module Dao.

(** Modelled from the spec: the error kinds of the contract. *)
Inductive Error : Type :=
| LowBalance | Unauthorized | TeamNotFound | TeamAlreadyExists | AlreadyInTeam
| InvalidStakePercentage | PredictionExists | PredictionNotFound
| OracleDataUnavailable | AlreadyResolved | NotResolved | AlreadyDistributed.

(** Modelled from the spec: the [Team] record of the contract (its source
    file is not among the sources; CONTRACT_DOCS.md lists the fields). *)
Record Team : Type := {
  name : string;
  members : list string;
  total_stake : Z
}.

(** Modelled from the spec: the [Prediction] record of the contract. *)
Record Prediction : Type := {
  team_name : string;
  asset : string;
  prediction : bool;
  stake_amount : Z;
  stake_percentage : Z;
  predictor : string;
  timestamp : Z;
  resolved : bool;
  outcome : option bool
}.

(** Modelled from the spec: the persistent store of the contract, keyed by
    team name, address and prediction id. *)
Record State : Type := {
  teams : gmap string Team;
  user_teams : gmap string string;
  predictions : gmap string Prediction
}.

Definition empty : State :=
  {| teams := ∅; user_teams := ∅; predictions := ∅ |}.

Definition has_membership (st : State) (address : string) : bool :=
  match user_teams st !! address with
  | Some _ => true
  | None => false
  end.

(** Modelled from the spec: [get_user_team] of the contract, the team name
    of an address or an explicit no-team result. *)
Definition get_user_team (st : State) (address : string) : option string :=
  user_teams st !! address.

(** Modelled from the spec: [get_team] of the contract. *)
Definition get_team (st : State) (team : string) : Error + Team :=
  match teams st !! team with
  | Some t => inr t
  | None => inl TeamNotFound
  end.

(** Modelled from the spec: [get_prediction] of the contract. *)
Definition get_prediction (st : State) (id : string) : Error + Prediction :=
  match predictions st !! id with
  | Some p => inr p
  | None => inl PredictionNotFound
  end.

(** Modelled from the spec: [form_team] of the contract. It fails with
    [TeamAlreadyExists] if the name is taken, with [AlreadyInTeam] if any
    member has a membership mapping; otherwise it creates the team record
    and maps every member to it. *)
Definition form_team (team : string) (new_members : list string) (st : State)
  : Error + State :=
  match teams st !! team with
  | Some _ => inl TeamAlreadyExists
  | None =>
      if existsb (has_membership st) new_members then inl AlreadyInTeam
      else inr
        {| teams := <[team := {| name := team; members := new_members; total_stake := 0 |}]>
                      (teams st);
           user_teams := foldr (fun m index => <[m := team]> index) (user_teams st) new_members;
           predictions := predictions st |}
  end.

Definition is_member (address : string) (t : Team) : bool :=
  existsb (String.eqb address) (members t).

(** Modelled from the spec: [make_prediction] of the contract; [now] is the
    ledger time of the call. *)
Definition make_prediction (id team asset_symbol : string) (direction : bool)
    (amount percentage : Z) (who : string) (now : Z) (st : State) : Error + State :=
  match predictions st !! id with
  | Some _ => inl PredictionExists
  | None =>
      match teams st !! team with
      | None => inl TeamNotFound
      | Some t =>
          if negb (is_member who t) then inl Unauthorized
          else if negb ((0 <? percentage)%Z && (percentage <=? 100)%Z)
          then inl InvalidStakePercentage
          else inr
            {| teams := teams st;
               user_teams := user_teams st;
               predictions :=
                 <[id := {| team_name := team; asset := asset_symbol;
                            prediction := direction; stake_amount := amount;
                            stake_percentage := percentage; predictor := who;
                            timestamp := now; resolved := false; outcome := None |}]>
                   (predictions st) |}
      end
  end.

(** Modelled from the spec: a price is a positive fixed-point integer. *)
Definition valid_price (p : option Z) : option Z :=
  match p with
  | Some v => if (0 <? v)%Z then Some v else None
  | None => None
  end.

(** Modelled from the spec: [resolve_prediction] of the contract; [current]
    and [reference] are the answers of the oracle adapter for the recorded
    asset, [None] for a failed fetch. *)
Definition resolve_prediction (id : string) (current reference : option Z) (st : State)
  : Error + State :=
  match predictions st !! id with
  | None => inl PredictionNotFound
  | Some p =>
      if resolved p then inl AlreadyResolved
      else
        match valid_price current, valid_price reference with
        | Some current_price, Some reference_price =>
            let actual_direction := (reference_price <? current_price)%Z in
            inr {| teams := teams st;
                   user_teams := user_teams st;
                   predictions :=
                     <[id := {| team_name := team_name p; asset := asset p;
                                prediction := prediction p;
                                stake_amount := stake_amount p;
                                stake_percentage := stake_percentage p;
                                predictor := predictor p; timestamp := timestamp p;
                                resolved := true;
                                outcome := Some (Bool.eqb (prediction p) actual_direction) |}]>
                       (predictions st) |}
        | _, _ => inl OracleDataUnavailable
        end
  end.

(** Modelled from the spec: the entry points that write the member lists,
    the membership index or the predictions ([stake] only adds to the total
    stake of a team, [distribute_rewards] only moves balances). *)
Inductive Call : Type :=
| FormTeam (team : string) (new_members : list string)
| MakePrediction (id team asset_symbol : string) (direction : bool)
    (amount percentage : Z) (who : string) (now : Z)
| ResolvePrediction (id : string) (current reference : option Z).

Definition call (c : Call) (st : State) : Error + State :=
  match c with
  | FormTeam team new_members => form_team team new_members st
  | MakePrediction id team a d amount pct who now =>
      make_prediction id team a d amount pct who now st
  | ResolvePrediction id current reference => resolve_prediction id current reference st
  end.

(** Modelled from the spec: a failed call is rolled back whole by the host,
    the store is the one before the call. *)
Definition exec (st : State) (c : Call) : State :=
  match call c st with
  | inr st' => st'
  | inl _ => st
  end.

Definition run (calls : list Call) (st : State) : State := fold_left exec calls st.

(** The membership index and the member lists say the same. *)
Definition consistent (st : State) : Prop :=
  forall address team,
    user_teams st !! address = Some team <->
    exists t, teams st !! team = Some t /\ In address (members t).

(** No address is a member of two teams. *)
Definition one_team_per_address (st : State) : Prop :=
  forall address team1 team2 t1 t2,
    teams st !! team1 = Some t1 -> In address (members t1) ->
    teams st !! team2 = Some t2 -> In address (members t2) ->
    team1 = team2.

End Dao.

(** ** The routes over the registry *)

Module Chain.

(** Modelled from the spec: what the simulations made by the team routes
    answer over a registry. [get_team] signals [TeamNotFound] for an absent
    team (the response then has no [result]) and returns the record, a map,
    for a present one; [get_user_team] returns the name as a string or
    void. *)
Definition team_env (st : Dao.State) : Teams.Env :=
  {| Teams.STELLAR_NETWORK_PASSPHRASE := "Test SDF Network ; September 2015";
     Teams.DAO_CONTRACT_ID := "CDAO";
     Teams.Keypair_fromPublicKey := fun _ => Return tt;
     Teams.loadAccount := fun _ => Return tt;
     Teams.new_Contract := Return tt;
     Teams.get_team := fun team =>
       Return {| Teams.switch_name :=
                   match Dao.get_team st team with
                   | inr _ => Some "scvMap"
                   | inl _ => None
                   end |};
     Teams.get_user_team := fun address =>
       Return {| Teams.switch_name :=
                   match Dao.get_user_team st address with
                   | Some _ => Some "scvString"
                   | None => Some "scvVoid"
                   end |};
     Teams.prepareTransaction := fun _ => Return tt |}.

(** Modelled from the spec: what the simulation of [get_user_team] made by
    the user-team route answers over a registry, the name as a string or
    void. *)
Definition user_team_env : UserTeam.Env Dao.State :=
  {| UserTeam.DAO_CONTRACT_ID := "CDAO";
     UserTeam.Keypair_fromPublicKey := fun _ => Return tt;
     UserTeam.new_Contract := Return tt;
     UserTeam.simulateTransaction := fun st address =>
       Return {| UserTeam.retval := Some
         match Dao.get_user_team st address with
         | Some team =>
             {| UserTeam.switch_name := "scvString"; UserTeam.arm := "str";
                UserTeam.value := UserTeam.buffer team |}
         | None =>
             {| UserTeam.switch_name := "scvVoid"; UserTeam.arm := "void";
                UserTeam.value := UserTeam.falsy |}
         end |} |}.

(** Submitting the transaction a team route prepared. *)
Definition submit (op : Teams.Operation) (st : Dao.State) : Dao.Error + Dao.State :=
  match op with
  | Teams.form_team team new_members => Dao.form_team team new_members st
  end.

(** The registry after the transactions prepared by the team routes were
    submitted one after the other, a refused one changing nothing. *)
Definition submit_all (ops : list Teams.Operation) (st : Dao.State) : Dao.State :=
  fold_left (fun st op => match submit op st with inr st' => st' | inl _ => st end) ops st.

End Chain.

(** ** Conditions and predicates *)

(** The required fields are there and the key is a Stellar public key. *)
Definition well_formed (e : Prepare.Env) (body : Prepare.PrepareTransactionRequest)
    (pk team : string) (p : Prepare.Prediction) : Prop :=
  Prepare.publicKey body = Some pk /\ Prepare.teamName body = Some team /\
  Prepare.prediction body = Some p /\
  pk <> EmptyString /\ team <> EmptyString /\
  Prepare.Keypair_fromPublicKey e pk = Return tt.

(** Moreover the contracts are configured and the account is funded. *)
Definition ready (e : Prepare.Env) (body : Prepare.PrepareTransactionRequest)
    (pk team : string) (p : Prepare.Prediction) : Prop :=
  well_formed e body pk team p /\
  Prepare.DAO_CONTRACT_ID e <> EmptyString /\ Prepare.KALE_CONTRACT_ID e <> EmptyString /\
  Prepare.loadAccount e pk = Return tt /\
  Prepare.new_Contract e (Prepare.DAO_CONTRACT_ID e) = Return tt /\
  Prepare.new_Contract e (Prepare.KALE_CONTRACT_ID e) = Return tt.

(** The lookup gets as far as the contract call. *)
Definition reaches_contract {Ledger} (e : UserTeam.Env Ledger) (address : string) : Prop :=
  address <> EmptyString /\
  UserTeam.Keypair_fromPublicKey e address = Return tt /\
  UserTeam.DAO_CONTRACT_ID e <> EmptyString /\
  UserTeam.new_Contract e = Return tt.

(** The conditions under which a call gets as far as the oracle with the
    parsed prediction [p]. *)
Definition reaches_oracle (e : Resolve.Env) (id : string) (p : Resolve.Parsed) : Prop :=
  id <> EmptyString /\
  Resolve.DAO_CONTRACT_ID e <> EmptyString /\
  Resolve.REFLECTOR_CONTRACT_ID e <> EmptyString /\
  Resolve.new_Contract e = Return tt /\
  Resolve.getLatestLedger e = Return tt /\
  (exists r, Resolve.simulateTransaction e id = Return (Resolve.simSuccess r) /\
             Resolve.parse_prediction r = (true, p)) /\
  Js.is_random (Reflector.Math_random (Resolve.oracle e)) /\
  Reflector.toISOString (Reflector.Date_now (Resolve.oracle e)) = Return tt.

(** What holds of every body answered on the oracle path. *)
Definition always_rise (body : Resolve.ResolveResponse) : Prop :=
  Resolve.historicalPrice body = (Resolve.currentPrice body * (995 # 1000))%Q /\
  Js.gt (Resolve.currentPrice body) (Resolve.historicalPrice body) = true /\
  exists cd,
    Resolve.contractData body = Some cd /\
    Resolve.outcome body = Js.strict_eq_bool (Resolve.cd_predictedDirection cd) true /\
    (forall b, Resolve.cd_predictedDirection cd = Js.boolean b -> Resolve.outcome body = b).

(** The oracle-side fetch fails, or what it returns is not a positive price
    with a time value. *)
Definition fetch_fails_or_invalid (o : Reflector.Oracle) : Prop :=
  (exists m, Reflector.simulateTransaction o = Throw m) \/
  Reflector.simulateTransaction o = Return {| Reflector.retval := None |} \/
  (exists cv,
     Reflector.simulateTransaction o = Return {| Reflector.retval := Some cv |} /\
     (Js.gt (fst (Reflector.parse_price (Reflector.Date_now o) cv)) 0 = false \/
      exists m, Reflector.toISOString
                  (snd (Reflector.parse_price (Reflector.Date_now o) cv)) = Throw m)).

(** The request passes every check of the create route before the
    simulations. *)
Definition create_validated (e : Teams.Env) (pk name : string) : Prop :=
  pk <> EmptyString /\ name <> EmptyString /\
  (2 <= String.length (Teams.trim name) <= 32)%nat /\
  Teams.Keypair_fromPublicKey e pk = Return tt /\
  Teams.DAO_CONTRACT_ID e <> EmptyString /\
  Teams.loadAccount e pk = Return tt /\
  Teams.new_Contract e = Return tt.

(** An item that sets [predictedDirection]. *)
Definition sets_prediction (it : Resolve.MapItem) : bool :=
  match it with
  | Resolve.item (Js.buffer k) v => String.eqb k "prediction" && negb (Js.is_undefined v)
  | _ => false
  end.

(** The same environment with other token balances. *)
Definition with_balance (e : Prepare.Env) (balance : string -> Z) : Prepare.Env :=
  {| Prepare.STELLAR_NETWORK_PASSPHRASE := Prepare.STELLAR_NETWORK_PASSPHRASE e;
     Prepare.DAO_CONTRACT_ID := Prepare.DAO_CONTRACT_ID e;
     Prepare.KALE_CONTRACT_ID := Prepare.KALE_CONTRACT_ID e;
     Prepare.Keypair_fromPublicKey := Prepare.Keypair_fromPublicKey e;
     Prepare.loadAccount := Prepare.loadAccount e;
     Prepare.new_Contract := Prepare.new_Contract e;
     Prepare.simulateTransaction := Prepare.simulateTransaction e;
     Prepare.prepareTransaction := Prepare.prepareTransaction e;
     Prepare.Date_now := Prepare.Date_now e;
     Prepare.Math_random_toString_36 := Prepare.Math_random_toString_36 e;
     Prepare.kale_balance := balance |}.

(** The characters of [Math.random().toString(36)]: digits of base 36 and
    the point. *)
Definition is_base36_char (c : ascii) : bool :=
  let n := nat_of_ascii c in
  (((48 <=? n) && (n <=? 57)) || ((97 <=? n) && (n <=? 122)) || (n =? 46))%nat.

Fixpoint forall_chars (f : ascii -> bool) (s : string) : bool :=
  match s with
  | String c rest => f c && forall_chars f rest
  | EmptyString => true
  end.

Definition is_base36 (s : string) : bool := forall_chars is_base36_char s.

Definition not_underscore (c : ascii) : bool := negb (Ascii.eqb c "_").

Definition no_underscore (s : string) : bool := forall_chars not_underscore s.

(** ** Concrete inputs *)

Module Sample.

(** An oracle whose simulation is rejected. *)
Definition oracle_down : Reflector.Oracle :=
  {| Reflector.new_Contract := Return tt;
     Reflector.simulateTransaction := Throw "fetch failed";
     Reflector.Date_now := inject_Z 1700000000000;
     Reflector.Math_random := 1 # 2 |}.

(** An oracle that answers an i128 holding [raw]. *)
Definition oracle_i128 (raw : Z) : Reflector.Oracle :=
  {| Reflector.new_Contract := Return tt;
     Reflector.simulateTransaction :=
       Return {| Reflector.retval := Some (Reflector.cvI128 (Some raw)) |};
     Reflector.Date_now := inject_Z 1700000000000;
     Reflector.Math_random := 1 # 2 |}.

(** A stored prediction of a rise that is already resolved. *)
Definition resolved_rise : Resolve.SimulateResponse :=
  Resolve.simSuccess (Some (Resolve.valueArray
    [Resolve.item (Js.buffer "asset") (Js.buffer "EUR/USD");
     Resolve.item (Js.buffer "prediction") (Js.boolean true);
     Resolve.item (Js.buffer "resolved") (Js.boolean true)])).

(** What the parser reads out of [resolved_rise]. *)
Definition parsed_rise : Resolve.Parsed :=
  {| Resolve.asset := "EUR/USD";
     Resolve.predictedDirection := Js.boolean true;
     Resolve.resolved := Js.boolean true |}.

(** The oracle reading 1.085 at the time of [oracle_i128]. *)
Definition reading_1_085 : Reflector.ReflectorPriceData :=
  {| Reflector.price := (inject_Z 108500000000000 / Reflector.e14)%Q;
     Reflector.timestamp := inject_Z 1700000000000 |}.

Definition rise_body : Resolve.ResolveResponse :=
  Resolve.resolution_body "p1" parsed_rise reading_1_085.

Definition resolve_env (o : Reflector.Oracle) : Resolve.Env :=
  {| Resolve.DAO_CONTRACT_ID := "CDAO";
     Resolve.REFLECTOR_CONTRACT_ID := "CREFLECTOR";
     Resolve.new_Contract := Return tt;
     Resolve.getLatestLedger := Return tt;
     Resolve.simulateTransaction := fun _ => Return resolved_rise;
     Resolve.oracle := o;
     Resolve.Math_random_1 := 1 # 4;
     Resolve.Math_random_2 := 3 # 4 |}.

(** The endpoint in front of a server that rejects the read of the ledger,
    for the same stored prediction of a rise; [random_1] and [random_2] are
    the two draws of the [catch] block. *)
Definition rpc_down (random_1 random_2 : Q) : Resolve.Env :=
  {| Resolve.DAO_CONTRACT_ID := "CDAO";
     Resolve.REFLECTOR_CONTRACT_ID := "CREFLECTOR";
     Resolve.new_Contract := Return tt;
     Resolve.getLatestLedger := Throw "fetch failed";
     Resolve.simulateTransaction := fun _ => Return resolved_rise;
     Resolve.oracle := oracle_i128 108500000000000;
     Resolve.Math_random_1 := random_1;
     Resolve.Math_random_2 := random_2 |}.

(** A funded account [GALICE] of team [alpha] whose token balance is
    1,000,000 units; [team_exists] is what the [get_team] simulation shows. *)
Definition prepare_env (now : N) (random_36 : string) (team_exists : bool) : Prepare.Env :=
  {| Prepare.STELLAR_NETWORK_PASSPHRASE := "Test SDF Network ; September 2015";
     Prepare.DAO_CONTRACT_ID := "CDAO";
     Prepare.KALE_CONTRACT_ID := "CKALE";
     Prepare.Keypair_fromPublicKey := fun _ => Return tt;
     Prepare.loadAccount := fun _ => Return tt;
     Prepare.new_Contract := fun _ => Return tt;
     Prepare.simulateTransaction := fun _ => Return {| Prepare.has_error := negb team_exists |};
     Prepare.prepareTransaction := fun _ => Return tt;
     Prepare.Date_now := now;
     Prepare.Math_random_toString_36 := random_36;
     Prepare.kale_balance := fun _ => 1000000%Z |}.

Definition request (percentage : Q) : Prepare.PrepareTransactionRequest :=
  {| Prepare.publicKey := Some "GALICE";
     Prepare.teamName := Some "alpha";
     Prepare.stakePercentage := Some percentage;
     Prepare.prediction := Some {| Prepare.asset := "EUR/USD"; Prepare.direction := true |} |}.

End Sample.

(** ** Object literals used as tables *)

Module JsObject.

Local Open Scope Q_scope.

(** A number that may be [NaN]. *)
Inductive Number : Type :=
| finite (q : Q)
| NaN.

(** [x * factor] for a finite factor. *)
Definition scale (x : Number) (factor : Q) : Number :=
  match x with
  | finite q => finite (q * factor)
  | NaN => NaN
  end.

(** What [literal[key]] finds on an object literal whose own properties are
    numbers: an own property, a property inherited from [Object.prototype]
    (a function, or the prototype itself for [__proto__]), or nothing. *)
Inductive Lookup : Type :=
| own (q : Q)
| inherited
| absent.

(** The property names of [Object.prototype]. *)
Definition Object_prototype : list string :=
  ["constructor"; "__defineGetter__"; "__defineSetter__"; "hasOwnProperty";
   "__lookupGetter__"; "__lookupSetter__"; "isPrototypeOf"; "propertyIsEnumerable";
   "toString"; "valueOf"; "__proto__"; "toLocaleString"].

(** The own property of a literal; of two entries with one key the later
    one stands. *)
Fixpoint own_property (literal : list (string * Q)) (key : string) : option Q :=
  match literal with
  | [] => None
  | (k, q) :: rest =>
      match own_property rest key with
      | Some q' => Some q'
      | None => if String.eqb k key then Some q else None
      end
  end.

Definition get (literal : list (string * Q)) (key : string) : Lookup :=
  match own_property literal key with
  | Some q => own q
  | None => if existsb (String.eqb key) Object_prototype then inherited else absent
  end.

Definition truthy (l : Lookup) : bool :=
  match l with
  | own q => negb (Js.Qeqb q 0)
  | inherited => true
  | absent => false
  end.

(** [a || b] *)
Definition or (a b : Lookup) : Lookup := if truthy a then a else b.

(** The value as an operand of [*]: a function, an object and [undefined]
    all give [NaN]. *)
Definition to_number (l : Lookup) : Number :=
  match l with
  | own q => finite q
  | inherited | absent => NaN
  end.

End JsObject.

(** ** The oracle-price endpoint (oracle-price route) *)

Module OraclePrice.

Import JsObject.

Local Open Scope Q_scope.

(** [contractValue._value] of an [scvI128], by its truthiness and by what
    [parseInt] makes of it. *)
Inductive I128Value : Type :=
| falsyValue
| parses (n : Z)
| unparsable.

(** [result.result.retval] *)
Inductive ContractValue : Type :=
| noValue                       (* [null] or [undefined]: reading [_switch] throws *)
| scvI128 (value : I128Value)
| scvOther.                     (* no [_switch], or another name *)

(** What [simulateTransaction] resolves to; [None] when one of the guards
    on [result] and [retval] fails. *)
Record Simulation : Type := {
  retval : option ContractValue
}.

Record OraclePriceResponse : Type := {
  asset : string;
  price : Number;
  timestamp : Q;
  source : string;
  success : bool
}.

Inductive Response : Type :=
| json_error (status : Z) (error : string)
| json_price (body : OraclePriceResponse)
| json_failure (status : Z) (error : string) (body : OraclePriceResponse).

Record Env : Type := {
  REFLECTOR_CONTRACT_ID : string;
  new_Contract : Result unit;
  (** The simulation of [lastprice], by the symbol asked for. *)
  simulateTransaction : string -> Result Simulation;
  Date_now : Q;
  Math_random : Q
}.

(** The symbol passed to [lastprice]. *)
Definition assetParam (asset : string) : string :=
  if String.eqb asset "EUR/USD" || String.eqb asset "EUR" then "EUR" else asset.

Definition mockPrices : list (string * Q) :=
  [("EUR", 10856 # 10000); ("EUR/USD", 10856 # 10000); ("USD", 1);
   ("BTC", 4325075 # 100); ("BTC/USD", 4325075 # 100);
   ("ETH", 26354 # 10); ("ETH/USD", 26354 # 10);
   ("XLM", 1245 # 10000); ("XLM/USD", 1245 # 10000)].

(** [mockPrices[asset] || mockPrices['EUR/USD']] *)
Definition basePrice (asset : string) : Number :=
  to_number (or (get mockPrices asset) (get mockPrices "EUR/USD")).

Local Open Scope result_scope.

(** The [try] block around the oracle call: [Return None] is falling out
    of the [if]s. *)
Definition oracle_try (e : Env) (asset : string) : Result (option Response) :=
  new_Contract e ;;;
  result <- simulateTransaction e (assetParam asset) ;;
  match retval result with
  | Some noValue => Throw "Cannot read properties of undefined (reading '_switch')"
  | Some (scvI128 falsyValue) => Return None
  | Some (scvI128 (parses n)) =>
      Return (Some (json_price
        {| asset := asset;
           price := finite (inject_Z n / Reflector.e14);
           timestamp := Date_now e;
           source := "Reflector Oracle";
           success := true |}))
  | Some (scvI128 unparsable) =>
      Return (Some (json_price
        {| asset := asset;
           price := NaN;
           timestamp := Date_now e;
           source := "Reflector Oracle";
           success := true |}))
  | Some scvOther => Return None
  | None => Return None
  end.

(** The fallback after the oracle call. *)
Definition mock (e : Env) (asset : string) : Response :=
  let variation := (Math_random e - (1 # 2)) * (1 # 100) in
  let currentPrice := scale (basePrice asset) (1 + variation) in
  json_price
    {| asset := asset;
       price := currentPrice;
       timestamp := Date_now e;
       source := "Mock Oracle (Reflector Simulation)";
       success := true |}.

(** [request_json] is the [asset] property of the body [request.json()]
    resolves to, a string or nothing. *)
Definition POST (e : Env) (request_json : Result (option string)) : Result Response :=
  try_catch
    (asset <- request_json ;;
     if Js.missing asset then Return (json_error 400 "Asset parameter is required")
     else
       let asset := default EmptyString asset in
       let answered :=
         if String.eqb (REFLECTOR_CONTRACT_ID e) EmptyString then None
         else
           match oracle_try e asset with
           | Return answer => answer
           | Throw _ => None
           end in
       match answered with
       | Some response => Return response
       | None => Return (mock e asset)
       end)
    (fun _ =>
       Return (json_failure 500 "Failed to fetch oracle price"
         {| asset := EmptyString;
            price := finite 0;
            timestamp := Date_now e;
            source := "Error";
            success := false |})).

(** What [parseScvValue] of the Reflector client is given for the same
    value. *)
Definition as_raw (v : I128Value) : option Z :=
  match v with
  | parses n => Some n
  | falsyValue | unparsable => None
  end.

End OraclePrice.

(** ** The first resolution endpoint (earlier resolve route) *)

Module ResolveV1.

Local Open Scope Q_scope.

(** [result] of the [get_prediction] simulation: is ['error' in result]? *)
Record Simulation : Type := {
  has_error : bool
}.

Record Env : Type := {
  DAO_CONTRACT_ID : string;
  REFLECTOR_CONTRACT_ID : string;
  new_Contract : Result unit;
  simulateTransaction : string -> Result Simulation;
  (** The draws of [Math.random()], in the order of the calls. *)
  Math_random : nat -> Q
}.

Local Open Scope result_scope.

(** The inner [try] block. *)
Definition GET_try (e : Env) (id : string) : Result Resolve.Response :=
  result <- simulateTransaction e id ;;
  if has_error result then Throw "Contract call failed"
  else
    let mockOutcome := Js.gt (Math_random e 0) (1 # 2) in
    Return (Resolve.json_resolved
      {| Resolve.predictionId := id;
         Resolve.outcome := mockOutcome;
         Resolve.currentPrice := if mockOutcome then 11 # 10 else 9 # 10;
         Resolve.historicalPrice := 1;
         Resolve.rewardsDistributed := true;
         Resolve.message :=
           "Prediction " ++ (if mockOutcome then "succeeded" else "failed") ++ " - " ++
           (if mockOutcome then "price went up" else "price went down");
         Resolve.resolvedViaContract := true;
         Resolve.oracleData := None;
         Resolve.contractData := None;
         Resolve.contractError := None |}).

Definition GET (e : Env) (predictionId : option string) : Result Resolve.Response :=
  try_catch
    (if Js.missing predictionId
     then Return (Resolve.json_error 400 "Missing predictionId parameter")
     else
       let id := default EmptyString predictionId in
       if String.eqb (DAO_CONTRACT_ID e) EmptyString || String.eqb (REFLECTOR_CONTRACT_ID e) EmptyString
       then Return (Resolve.json_error 500
              "Contract addresses not configured. Please set PUBLIC_DAO_CONTRACT_ID and PUBLIC_REFLECTOR_CONTRACT_ID")
       else
         new_Contract e ;;;
         try_catch (GET_try e id)
           (fun _ => Return (Resolve.mockResolution id (Math_random e 0) (Math_random e 1))))
    (fun m => Return (Resolve.json_error 500 ("Resolution failed: " ++ m))).

End ResolveV1.

(** ** The price chart (Dashboard component) *)

Module Dashboard.

Import JsObject.

Local Open Scope Q_scope.

Record PriceData : Type := {
  timestamp : Q;
  price : Number;
  date : string;
  time : string
}.

Record Env : Type := {
  Date_now : Q;
  (** The draws of [Math.random()], in the order of the calls. *)
  Math_random : nat -> Q;
  toLocaleDateString : Q -> string;
  toLocaleTimeString : Q -> string
}.

Definition interval (timeframe : string) : Q :=
  if String.eqb timeframe "1H" then inject_Z 60000
  else if String.eqb timeframe "24H" then inject_Z 3600000
  else if String.eqb timeframe "7D" then inject_Z (3600000 * 24)
  else inject_Z (3600000 * 24 * 7).

Definition basePrices : list (string * Q) :=
  [("EUR/USD", 10856 # 10000); ("BTC/USD", 4325075 # 100);
   ("ETH/USD", 26354 # 10); ("XLM/USD", 1245 # 10000)].

(** [basePrices[assetSymbol] || 1.0] *)
Definition getBasePrice (assetSymbol : string) : Number :=
  to_number (or (get basePrices assetSymbol) (own 1)).

Definition getDataPoints (tf : string) : nat :=
  if String.eqb tf "1H" then 60%nat
  else if String.eqb tf "24H" then 24%nat
  else if String.eqb tf "7D" then 168%nat
  else if String.eqb tf "30D" then 720%nat
  else 24%nat.

(** [parseFloat(x.toFixed(6))]: the nearest multiple of one millionth, the
    one of greater magnitude of two that are as near. *)
Definition nearest_millionth (x : Q) : Q :=
  inject_Z (Qfloor (x * inject_Z 1000000 + (1 # 2))) / inject_Z 1000000.

Definition toFixed_6 (x : Number) : Number :=
  match x with
  | finite q => finite (if Js.lt q 0 then - nearest_millionth (- q) else nearest_millionth q)
  | NaN => NaN
  end.

(** The body of the loop for index [i], the next draw being number [draw]. *)
Definition point (e : Env) (timeframe : string) (basePrice : Number) (i draw : nat)
  : PriceData :=
  let timestamp := Date_now e - inject_Z (Z.of_nat i) * interval timeframe in
  let volatility := 2 # 100 in
  let change := (Math_random e draw - (1 # 2)) * volatility in
  let price :=
    scale basePrice
      (1 + change * (if Js.gt (Math_random e (S draw)) (1 # 2) then 1 else inject_Z (-1))) in
  {| timestamp := timestamp;
     price := toFixed_6 price;
     date := toLocaleDateString e timestamp;
     time := toLocaleTimeString e timestamp |}.

(** [for (let i = points; i >= 0; i--)] *)
Fixpoint loop (e : Env) (timeframe : string) (basePrice : Number) (i draw : nat)
  : list PriceData :=
  point e timeframe basePrice i draw ::
  match i with
  | O => []
  | S i' => loop e timeframe basePrice i' (S (S draw))
  end.

Definition generateMockData (e : Env) (timeframe : string) (points : nat)
    (basePrice : Number) : list PriceData :=
  loop e timeframe basePrice points 0.

(** The data the effect stores for an asset and a time frame. *)
Definition mockData (e : Env) (asset timeframe : string) : list PriceData :=
  generateMockData e timeframe (getDataPoints timeframe) (getBasePrice asset).

End Dashboard.

(** ** The display of a public key (ConnectWallet component and pages) *)

Module Wallet.

(** [s.slice(start, end)]; [None] is an omitted [end]. *)
Definition slice (s : string) (start : Z) (end_ : option Z) : string :=
  let len := Z.of_nat (String.length s) in
  let clamp := fun k : Z => if (k <? 0)%Z then Z.max (len + k) 0 else Z.min k len in
  let from := clamp start in
  let to := match end_ with Some k => clamp k | None => len end in
  String.substring (Z.to_nat from) (Z.to_nat (Z.max (to - from) 0)) s.

Definition formatPublicKey (key : string) : string :=
  if (String.length key <=? 12)%nat then key
  else slice key 0 (Some 6%Z) ++ "..." ++ slice key (-6) None.

(** What the two pages show: the same without the test on the length. *)
Definition page_display (publicKey : string) : string :=
  slice publicKey 0 (Some 6%Z) ++ "..." ++ slice publicKey (-6) None.

End Wallet.

(** ** The prediction form (PredictionForm component) *)

Module PredictionForm.

Local Open Scope Q_scope.

(** An asset that is [undefined] (an empty list of assets) is the empty
    string here: both are falsy. *)
Record PredictionFormData : Type := {
  asset : string;
  direction : string;
  stakePercentage : Q
}.

Record PredictionFormErrors : Type := {
  asset_error : option string;
  direction_error : option string;
  stakePercentage_error : option string
}.

Record PredictionFormDataSubmit : Type := {
  submit_teamName : string;
  submit_asset : string;
  submit_direction : string;
  submit_stakePercentage : Q
}.

Record Props : Type := {
  isConnected : bool;
  userTeam : option string;
  maxStakePercentage : Q;
  (** [maxStakePercentage] as a template string shows it. *)
  maxStakePercentage_text : string;
  availableAssets : list string
}.

Record State : Type := {
  formData : PredictionFormData;
  errors : PredictionFormErrors
}.

Definition no_errors : PredictionFormErrors :=
  {| asset_error := None; direction_error := None; stakePercentage_error := None |}.

Definition initial_data (p : Props) : PredictionFormData :=
  {| asset := hd EmptyString (availableAssets p);
     direction := "up";
     stakePercentage := 0 |}.

Definition initial (p : Props) : State :=
  {| formData := initial_data p; errors := no_errors |}.

(** [Object.keys(newErrors).length === 0] *)
Definition no_keys (e : PredictionFormErrors) : bool :=
  match asset_error e, direction_error e, stakePercentage_error e with
  | None, None, None => true
  | _, _, _ => false
  end.

(** The result and the errors set; [None] when [setErrors] is not called. *)
Definition validateForm (p : Props) (d : PredictionFormData)
  : bool * option PredictionFormErrors :=
  if Js.missing (userTeam p) then (false, None)
  else
    let newErrors :=
      {| stakePercentage_error :=
           if Js.le (stakePercentage d) 0 || Js.gt (stakePercentage d) (maxStakePercentage p)
           then Some ("Stake percentage must be between 1 and " ++ maxStakePercentage_text p)
           else None;
         asset_error :=
           if String.eqb (asset d) EmptyString then Some "Please select an asset" else None;
         direction_error :=
           if String.eqb (direction d) EmptyString
           then Some "Please select a prediction direction" else None |} in
    (no_keys newErrors, Some newErrors).

Inductive Submission : Type :=
| alerted (message : string)
| rejected (newErrors : option PredictionFormErrors)
| submitted (data : PredictionFormDataSubmit).

(** [handleSubmit] up to the call of [onSubmit]. *)
Definition handleSubmit (p : Props) (s : State) : Submission :=
  if negb (isConnected p) then alerted "Please connect your wallet first"
  else if Js.missing (userTeam p) then
    alerted "You must be part of a team to make predictions. Please join or create a team first."
  else if negb (fst (validateForm p (formData s)))
  then rejected (snd (validateForm p (formData s)))
  else submitted
    {| submit_teamName := default EmptyString (userTeam p);
       submit_asset := asset (formData s);
       submit_direction := direction (formData s);
       submit_stakePercentage := stakePercentage (formData s) |}.

(** What the user does to the form. *)
Inductive Event : Type :=
| select_asset (value : string)
| click_direction (up : bool)
| type_percentage (parsed : option Z)      (* [parseInt(e.target.value) || 0] *)
| slide_percentage (parsed : Z)            (* [parseInt(e.target.value)] of the range input *)
| reset.                                   (* after a submission *)

(** [handleInputChange] for the four controls, and the reset. *)
Definition handle (p : Props) (s : State) (ev : Event) : State :=
  let d := formData s in
  let e := errors s in
  match ev with
  | select_asset value =>
      {| formData := {| asset := value; direction := direction d;
                        stakePercentage := stakePercentage d |};
         errors := {| asset_error := None; direction_error := direction_error e;
                      stakePercentage_error := stakePercentage_error e |} |}
  | click_direction up =>
      {| formData := {| asset := asset d; direction := if up then "up" else "down";
                        stakePercentage := stakePercentage d |};
         errors := {| asset_error := asset_error e; direction_error := None;
                      stakePercentage_error := stakePercentage_error e |} |}
  | type_percentage parsed =>
      {| formData := {| asset := asset d; direction := direction d;
                        stakePercentage :=
                          match parsed with
                          | Some z => inject_Z z
                          | None => 0
                          end |};
         errors := {| asset_error := asset_error e; direction_error := direction_error e;
                      stakePercentage_error := None |} |}
  | slide_percentage z =>
      {| formData := {| asset := asset d; direction := direction d;
                        stakePercentage := inject_Z z |};
         errors := {| asset_error := asset_error e; direction_error := direction_error e;
                      stakePercentage_error := None |} |}
  | reset => initial p
  end.

Definition after (p : Props) (events : list Event) : State :=
  fold_left (handle p) events (initial p).

End PredictionForm.

(** ** What a page receives from an endpoint *)

Module Fetch.

(** [response.ok] *)
Definition ok (status : Z) : bool := ((200 <=? status) && (status <=? 299))%Z.

(** A property of the object [response.json()] resolves to. *)
Inductive Property (A : Type) : Type :=
| absent
| null
| present (a : A).

Arguments absent {A}.
Arguments null {A}.
Arguments present {A} a.

(** The property inside a template string or a concatenation. *)
Definition text (p : Property string) : string :=
  match p with
  | absent => "undefined"
  | null => "null"
  | present s => s
  end.

(** [{ ...a, ...b }] for one property. *)
Definition spread {A} (a b : Property A) : Property A :=
  match b with
  | absent => a
  | _ => b
  end.

End Fetch.

(** ** The prediction page (DAO page) *)

Module DaoPage.

(** [handlePredictionSubmit] up to the request it sends to the
    transaction-preparation endpoint: the toast it shows, or the body. *)
Definition prepare_request (publicKey : string)
    (formData : PredictionForm.PredictionFormDataSubmit)
  : string + Prepare.PrepareTransactionRequest :=
  if String.eqb publicKey EmptyString then inl "Please connect your wallet first"
  else if String.eqb (PredictionForm.submit_direction formData) EmptyString
  then inl "Please select a prediction direction"
  else inr
    {| Prepare.publicKey := Some publicKey;
       Prepare.teamName := Some (PredictionForm.submit_teamName formData);
       Prepare.stakePercentage := Some (PredictionForm.submit_stakePercentage formData);
       Prepare.prediction :=
         Some {| Prepare.asset := PredictionForm.submit_asset formData;
                 Prepare.direction :=
                   String.eqb (PredictionForm.submit_direction formData) "up" |} |}.

(** The effect that loads the team of the wallet: the [userTeam] it sets.
    [fetch] is the request to the team-lookup endpoint for an address; a
    body without [teamName] sets [undefined], which is [None] as [null]
    is. *)
Definition loadUserTeam (isWalletConnected : bool) (publicKey : string)
    (fetch : string -> Result UserTeam.Response) : option string :=
  if negb isWalletConnected || String.eqb publicKey EmptyString then None
  else
    match fetch publicKey with
    | Return (UserTeam.json_team body) => UserTeam.teamName body
    | Return (UserTeam.json_error _ _) => None
    | Throw _ => None
    end.

(** The properties of a resolution that the page reads. *)
Record PredictionResult : Type := {
  predictionId : Fetch.Property string;
  outcome : Fetch.Property bool;
  currentPrice : Fetch.Property Q;
  message : Fetch.Property string;
  transactionHash : Fetch.Property string;
  error : Fetch.Property string
}.

(** [{ ...a, ...b }] *)
Definition merge (a b : PredictionResult) : PredictionResult :=
  {| predictionId := Fetch.spread (predictionId a) (predictionId b);
     outcome := Fetch.spread (outcome a) (outcome b);
     currentPrice := Fetch.spread (currentPrice a) (currentPrice b);
     message := Fetch.spread (message a) (message b);
     transactionHash := Fetch.spread (transactionHash a) (transactionHash b);
     error := Fetch.spread (error a) (error b) |}.

(** An answer of the resolution endpoint as the page receives it:
    [response.ok] and the body. *)
Definition resolve_response (r : Resolve.Response) : bool * PredictionResult :=
  match r with
  | Resolve.json_error status error =>
      (Fetch.ok status,
       {| predictionId := Fetch.absent;
          outcome := Fetch.absent;
          currentPrice := Fetch.absent;
          message := Fetch.absent;
          transactionHash := Fetch.absent;
          error := Fetch.present error |})
  | Resolve.json_not_submitted id =>
      (Fetch.ok 200,
       {| predictionId := Fetch.present id;
          outcome := Fetch.null;
          currentPrice := Fetch.absent;
          message := Fetch.present
            "Prediction not found in contract. Please ensure the prediction transaction has been signed and submitted to the blockchain.";
          transactionHash := Fetch.absent;
          error := Fetch.present "PredictionNotSubmitted" |})
  | Resolve.json_resolved body =>
      (Fetch.ok 200,
       {| predictionId := Fetch.present (Resolve.predictionId body);
          outcome := Fetch.present (Resolve.outcome body);
          currentPrice := Fetch.present (Resolve.currentPrice body);
          message := Fetch.present (Resolve.message body);
          transactionHash := Fetch.absent;
          error := Fetch.absent |})
  end.

Record Toast : Type := {
  toast_message : Fetch.Property string;
  toast_type : string
}.

(** [result.outcome ? ... : ...] *)
Definition outcome_truthy (outcome : Fetch.Property bool) : bool :=
  match outcome with
  | Fetch.present b => b
  | _ => false
  end.

Definition resolution_toast (result : PredictionResult) : Toast :=
  {| toast_message := message result;
     toast_type := if outcome_truthy (outcome result) then "success" else "info" |}.

Definition error_toast (text : string) : Toast :=
  {| toast_message := Fetch.present text; toast_type := "error" |}.

(** Step 4 of [handlePredictionSubmit], the callback of the timer: the
    list of predictions after it, [prev] being the list before, and the
    toast. [response] is what the request and [response.json()] give. *)
Definition show_resolution (hash : string) (response : Result (bool * PredictionResult))
    (prev : list PredictionResult) : list PredictionResult * Toast :=
  match response with
  | Return (true, resolveResult) =>
      ({| predictionId := predictionId resolveResult;
          outcome := outcome resolveResult;
          currentPrice := currentPrice resolveResult;
          message := message resolveResult;
          transactionHash := Fetch.present hash;
          error := error resolveResult |} :: prev,
       resolution_toast resolveResult)
  | Return (false, resolveResult) =>
      (prev, error_toast ("Failed to resolve prediction: " ++ Fetch.text (error resolveResult)))
  | Throw _ => (prev, error_toast "Error resolving prediction")
  end.

(** [predictions.findIndex(p => p.predictionId === predictionId)] *)
Fixpoint findIndex (id : string) (predictions : list PredictionResult) : option nat :=
  match predictions with
  | [] => None
  | p :: rest =>
      match predictionId p with
      | Fetch.present s =>
          if String.eqb s id then Some O else option_map S (findIndex id rest)
      | _ => option_map S (findIndex id rest)
      end
  end.

(** [handleManualResolve]: [predictions] is the list the handler was
    created with, [prev] the list when the update is applied. *)
Definition handleManualResolve (id : string) (response : Result (bool * PredictionResult))
    (predictions prev : list PredictionResult) : list PredictionResult * list Toast :=
  let resolving :=
    {| toast_message := Fetch.present "Resolving prediction..."; toast_type := "info" |} in
  match response with
  | Return (true, result) =>
      (match findIndex id predictions with
       | Some existingIndex =>
           match predictions !! existingIndex with
           | Some old => <[existingIndex := merge old result]> predictions
           | None => predictions
           end
       | None => result :: prev
       end,
       [resolving; resolution_toast result])
  | Return (false, result) =>
      (prev, [resolving; error_toast ("Failed to resolve: " ++ Fetch.text (error result))])
  | Throw _ => (prev, [resolving; error_toast "Error resolving prediction"])
  end.

(** [x.toFixed(4)], as the number the digits denote. *)
Definition nearest_ten_thousandth (x : Q) : Q :=
  (inject_Z (Qfloor (x * inject_Z 10000 + (1 # 2))) / inject_Z 10000)%Q.

Definition toFixed_4 (x : Q) : Q :=
  if Js.lt x 0 then (- nearest_ten_thousandth (- x))%Q else nearest_ten_thousandth x.

(** An entry of the list of recent predictions as it is drawn. *)
Record Card : Type := {
  card_id : string;
  card_label : string;
  card_message : Fetch.Property string;
  card_price : Q;
  card_link : option string
}.

(** The element drawn for one prediction; reading a property of
    [undefined] or [null] throws. *)
Definition render_card (prediction : PredictionResult) : Result Card :=
  match predictionId prediction with
  | Fetch.absent => Throw "Cannot read properties of undefined (reading 'slice')"
  | Fetch.null => Throw "Cannot read properties of null (reading 'slice')"
  | Fetch.present id =>
      match currentPrice prediction with
      | Fetch.absent => Throw "Cannot read properties of undefined (reading 'toFixed')"
      | Fetch.null => Throw "Cannot read properties of null (reading 'toFixed')"
      | Fetch.present price =>
          Return
            {| card_id := Wallet.slice id 0 (Some 20%Z) ++ "...";
               card_label := if outcome_truthy (outcome prediction)
                             then "Correct" else "Incorrect";
               card_message := message prediction;
               card_price := toFixed_4 price;
               card_link :=
                 match transactionHash prediction with
                 | Fetch.present h =>
                     if String.eqb h EmptyString then None
                     else Some ("https://stellar.expert/explorer/testnet/tx/" ++ h)
                 | _ => None
                 end |}
      end
  end.

(** [predictions.map(...)] *)
Fixpoint render (predictions : list PredictionResult) : Result (list Card) :=
  match predictions with
  | [] => Return []
  | p :: rest =>
      bind (render_card p) (fun card =>
      bind (render rest) (fun cards => Return (card :: cards)))
  end.

(** What [handlePredictionSubmit] does to the page, in the order of the
    calls; [resolve_later] is the timer it sets for step 4, with the
    prediction id of the request and the hash of the entry. *)
Inductive Action : Type :=
| addToast (toast : Toast)
| setIsLoading (loading : bool)
| resolve_later (predictionId : Fetch.Property string) (hash : string).

Record Env : Type := {
  (** The request to the transaction-preparation endpoint. *)
  fetch_prepare : Prepare.PrepareTransactionRequest -> Result Prepare.Response;
  (** The wallet, on [prepareResult.xdr] and [prepareResult.networkPassphrase]:
      the signed transaction. *)
  signTransaction : option Prepare.Operation -> option string -> Result string;
  (** [TransactionBuilder.fromXDR] and [sendTransaction] in a row, on the
      signed transaction: [submitResult.hash] and [submitResult.status]. *)
  sendTransaction : string -> Result (string * string)
}.

Definition info_toast (text : string) : Toast :=
  {| toast_message := Fetch.present text; toast_type := "info" |}.

Definition success_toast (text : string) : Toast :=
  {| toast_message := Fetch.present text; toast_type := "success" |}.

(** The outer [catch] block. *)
Definition failure (message : string) : Toast :=
  if Js.includes message "User rejected" then error_toast "Transaction cancelled by user"
  else if Js.includes message "Freighter"
  then error_toast "Freighter wallet error. Please check your connection."
  else error_toast ("Error: " ++ message).

Local Open Scope result_scope.

(** Steps 1 and 2: the prediction id of the answer and the signed
    transaction. *)
Definition prepare_and_sign (e : Env) (request : Prepare.PrepareTransactionRequest)
  : Result (Fetch.Property string * string) :=
  prepareResult <- fetch_prepare e request ;;
  match prepareResult with
  | Prepare.json_error status error =>
      if negb (Fetch.ok status)
      then Throw (if String.eqb error EmptyString
                  then "Failed to prepare transaction" else error)
      else
        signedXdr <- signTransaction e None None ;;
        Return (Fetch.absent, signedXdr)
  | Prepare.json_prepared body =>
      signedXdr <- signTransaction e (Some (Prepare.xdr body))
                     (Some (Prepare.networkPassphrase body)) ;;
      Return (Fetch.present (Prepare.predictionId body), signedXdr)
  end.

(** Step 3, with its own [catch], and the timer of step 4. *)
Definition submit (e : Env) (predictionId : Fetch.Property string) (signedXdr : string)
  : list Action :=
  addToast (info_toast "Submitting to Stellar network...") ::
  match sendTransaction e signedXdr with
  | Return (transactionHash, status) =>
      if String.eqb status "PENDING" then
        [addToast (success_toast
           ("Transaction submitted successfully! Hash: " ++
            Wallet.slice transactionHash 0 (Some 8%Z) ++ "..."));
         resolve_later predictionId transactionHash]
      else if String.eqb status "DUPLICATE" then
        [addToast (info_toast
           ("Transaction already exists! Hash: " ++
            Wallet.slice transactionHash 0 (Some 8%Z) ++ "..."));
         resolve_later predictionId transactionHash]
      else
        [addToast (error_toast
           ("Transaction submission failed: Transaction failed with status: " ++ status))]
  | Throw message =>
      [addToast (error_toast ("Transaction submission failed: " ++ message))]
  end.

Definition handlePredictionSubmit (e : Env) (publicKey : string)
    (formData : PredictionForm.PredictionFormDataSubmit) : list Action :=
  match prepare_request publicKey formData with
  | inl message => [addToast (error_toast message)]
  | inr request =>
      ([setIsLoading true; addToast (info_toast "Preparing transaction...")] ++
       match prepare_and_sign e request with
       | Return (predictionId, signedXdr) => submit e predictionId signedXdr
       | Throw message => [addToast (failure message)]
       end ++
       [setIsLoading false])%list
  end.

(** [isLoading] after the calls of the handler. *)
Definition isLoading_after (isLoading : bool) (actions : list Action) : bool :=
  fold_left (fun loading a =>
               match a with
               | setIsLoading b => b
               | _ => loading
               end) actions isLoading.

End DaoPage.

(** ** The team page (Teams page) *)

Module TeamsPage.

Record State : Type := {
  userTeam : string;
  newTeamName : string;
  showCreateForm : bool;
  isLoading : bool
}.

(** [loadUserTeam]: the [userTeam] after it. *)
Definition loadUserTeam (fetch : string -> Result UserTeam.Response)
    (walletAddress : string) (userTeam : string) : string :=
  match fetch walletAddress with
  | Return (UserTeam.json_team body) => default EmptyString (UserTeam.teamName body)
  | Return (UserTeam.json_error status _) =>
      if Fetch.ok status then EmptyString else userTeam
  | Throw _ => userTeam
  end.

(** The effect that runs when the wallet changes. *)
Definition initialize (isWalletConnected : bool) (publicKey : string)
    (fetch : string -> Result UserTeam.Response) (userTeam : string) : string :=
  if negb isWalletConnected || String.eqb publicKey EmptyString then EmptyString
  else loadUserTeam fetch publicKey userTeam.

(** What a handler does to the page, in the order of the calls. *)
Inductive Action : Type :=
| addToast (message type : string)
| setIsLoading (loading : bool)
| setUserTeam (team : string)
| setNewTeamName (name : string)
| setShowCreateForm (shown : bool)
| loadTeams.

Record Env : Type := {
  (** The request to the create route with [publicKey] and [teamName], and
      to the join route. *)
  fetch_create : string -> string -> Result Teams.Response;
  fetch_join : string -> string -> Result Teams.Response;
  (** [signTransaction], [TransactionBuilder.fromXDR] and [sendTransaction]
      in a row, on [result.xdr] and [result.networkPassphrase]: the status
      of the submission. *)
  sign_and_send : option Teams.Operation -> option string -> Result string
}.

Local Open Scope result_scope.

(** From the answer of a route to the submission; [fallback] stands in for
    an error that is falsy. *)
Definition sign_prepared (e : Env) (response : Result Teams.Response) (fallback : string)
  : Result unit :=
  result <- response ;;
  match result with
  | Teams.json_error status error =>
      if negb (Fetch.ok status)
      then Throw (if String.eqb error EmptyString then fallback else error)
      else
        status <- sign_and_send e None None ;;
        if String.eqb status "PENDING" || String.eqb status "DUPLICATE" then Return tt
        else Throw ("Transaction failed: " ++ status)
  | Teams.json_prepared body =>
      status <- sign_and_send e (Some (Teams.xdr body)) (Some (Teams.networkPassphrase body)) ;;
      if String.eqb status "PENDING" || String.eqb status "DUPLICATE" then Return tt
      else Throw ("Transaction failed: " ++ status)
  end.

(** The [catch] block of both handlers. *)
Definition failure (what message : string) : Action :=
  if Js.includes message "User rejected" then addToast "Transaction cancelled" "error"
  else addToast (what ++ message) "error".

Definition handleCreateTeam (e : Env) (publicKey : string) (s : State) : list Action :=
  if String.eqb publicKey EmptyString || String.eqb (Teams.trim (newTeamName s)) EmptyString
  then [addToast "Please connect wallet and enter team name" "error"]
  else if negb (String.eqb (userTeam s) EmptyString)
  then [addToast "You are already a member of a team" "error"]
  else
    [setIsLoading true; addToast "Creating team..." "info"] ++
    match sign_prepared e (fetch_create e publicKey (Teams.trim (newTeamName s)))
            "Failed to prepare team creation" with
    | Return _ =>
        [addToast ("Team " ++ Teams.quoted (newTeamName s) ++ " created successfully!")
           "success";
         setUserTeam (newTeamName s);
         setNewTeamName EmptyString;
         setShowCreateForm false;
         loadTeams]
    | Throw message => [failure "Failed to create team: " message]
    end ++
    [setIsLoading false].

Definition handleJoinTeam (e : Env) (publicKey : string) (s : State) (teamName : string)
  : list Action :=
  if String.eqb publicKey EmptyString
  then [addToast "Please connect your wallet" "error"]
  else if negb (String.eqb (userTeam s) EmptyString)
  then [addToast "You are already a member of a team" "error"]
  else
    [setIsLoading true; addToast ("Joining team " ++ Teams.quoted teamName ++ "...") "info"] ++
    match sign_prepared e (fetch_join e publicKey teamName) "Failed to join team" with
    | Return _ =>
        [addToast ("Successfully joined team " ++ Teams.quoted teamName ++ "!") "success";
         setUserTeam teamName;
         loadTeams]
    | Throw message => [failure "Failed to join team: " message]
    end ++
    [setIsLoading false].

(** The state after the calls of a handler. *)
Definition apply (s : State) (a : Action) : State :=
  match a with
  | addToast _ _ | loadTeams => s
  | setIsLoading loading =>
      {| userTeam := userTeam s; newTeamName := newTeamName s;
         showCreateForm := showCreateForm s; isLoading := loading |}
  | setUserTeam team =>
      {| userTeam := team; newTeamName := newTeamName s;
         showCreateForm := showCreateForm s; isLoading := isLoading s |}
  | setNewTeamName name =>
      {| userTeam := userTeam s; newTeamName := name;
         showCreateForm := showCreateForm s; isLoading := isLoading s |}
  | setShowCreateForm shown =>
      {| userTeam := userTeam s; newTeamName := newTeamName s;
         showCreateForm := shown; isLoading := isLoading s |}
  end.

Definition after (s : State) (actions : list Action) : State :=
  fold_left apply actions s.

End TeamsPage.

(** ** The wallet session (ClientLayout, Header and ConnectWallet components) *)

(** What the Freighter extension answers during one run of a handler. *)
Module Freighter.

Record Answers : Type := {
  (** [await isConnected()], by its truthiness. *)
  isConnected : Result bool;
  requestAccess : Result unit;
  (** [(await freighterApi.getAddress()).address] *)
  getAddress : Result string
}.

End Freighter.

Module ClientLayout.

(** The state of the provider in the browser, with the item
    [walletManuallyDisconnected] of the local storage. *)
Record State : Type := {
  isWalletConnected : bool;
  publicKey : string;
  hasManuallyDisconnected : bool;
  walletManuallyDisconnected : option string
}.

Definition initial (stored : option string) : State :=
  {| isWalletConnected := false;
     publicKey := EmptyString;
     hasManuallyDisconnected :=
       match stored with
       | Some item => String.eqb item "true"
       | None => false
       end;
     walletManuallyDisconnected := stored |}.

Definition setWalletConnected (connected : bool) (key : option string) (s : State) : State :=
  {| isWalletConnected := connected;
     publicKey := default EmptyString key;
     hasManuallyDisconnected := hasManuallyDisconnected s;
     walletManuallyDisconnected := walletManuallyDisconnected s |}.

Definition setManuallyDisconnected (disconnected : bool) (s : State) : State :=
  {| isWalletConnected := isWalletConnected s;
     publicKey := publicKey s;
     hasManuallyDisconnected := disconnected;
     walletManuallyDisconnected := if disconnected then Some "true" else None |}.

Definition handleWalletConnected (publicKey : string) (s : State) : State :=
  setManuallyDisconnected false (setWalletConnected true (Some publicKey) s).

Definition handleWalletDisconnected (s : State) : State :=
  setManuallyDisconnected true (setWalletConnected false (Some EmptyString) s).

End ClientLayout.

Module Header.

(** The effect of the header, which the provider gives
    [handleWalletConnected] as [onWalletConnected]. *)
Definition checkWalletConnection (f : Freighter.Answers) (s : ClientLayout.State)
  : ClientLayout.State :=
  match Freighter.isConnected f with
  | Return true =>
      match Freighter.getAddress f with
      | Return address => ClientLayout.handleWalletConnected address s
      | Throw _ => s
      end
  | _ => s
  end.

End Header.

Module ConnectWallet.

(** The state of the component itself. *)
Record Local : Type := {
  isLoading : bool;
  error : string
}.

(** The effect of the component. *)
Definition checkConnectionOnMount (f : Freighter.Answers) (s : ClientLayout.State)
  : ClientLayout.State :=
  if ClientLayout.hasManuallyDisconnected s then s
  else
    match Freighter.isConnected f with
    | Return true =>
        match Freighter.getAddress f with
        | Return address =>
            ClientLayout.handleWalletConnected address
              (ClientLayout.setWalletConnected true (Some address) s)
        | Throw _ => s
        end
    | _ => s
    end.

Local Open Scope result_scope.

(** The [try] block of [connectWallet]: the address. *)
Definition request_address (f : Freighter.Answers) : Result string :=
  match Freighter.isConnected f with
  | Throw _ =>
      Throw "Freighter wallet extension is not responding. Please make sure it is installed and enabled."
  | Return _ =>
      Freighter.requestAccess f ;;;
      Freighter.getAddress f
  end.

(** The [catch] block: the error shown. *)
Definition explain (toLowerCase : string -> string) (errorMessage : string) : string :=
  if Js.includes errorMessage "not responding" || Js.includes errorMessage "not installed"
  then "Freighter wallet extension not detected. Please install it and refresh the page."
  else if Js.includes errorMessage "rejected" || Js.includes errorMessage "denied"
          || Js.includes errorMessage "User rejected"
  then "Connection request was rejected. Please try again and approve the connection."
  else if Js.includes (toLowerCase errorMessage) "network"
  then "Please make sure you are connected to Stellar Testnet in Freighter."
  else "Connection failed: " ++ errorMessage.

Definition connectWallet (toLowerCase : string -> string) (f : Freighter.Answers)
    (s : ClientLayout.State) : ClientLayout.State * Local :=
  let s := ClientLayout.setManuallyDisconnected false s in
  match request_address f with
  | Return address =>
      (ClientLayout.handleWalletConnected address
         (ClientLayout.setWalletConnected true (Some address) s),
       {| isLoading := false; error := EmptyString |})
  | Throw errorMessage =>
      (s, {| isLoading := false; error := explain toLowerCase errorMessage |})
  end.

Definition disconnectWallet (s : ClientLayout.State) (local : Local)
  : ClientLayout.State * Local :=
  (ClientLayout.handleWalletDisconnected
     (ClientLayout.setWalletConnected false (Some EmptyString)
        (ClientLayout.setManuallyDisconnected true s)),
   {| isLoading := isLoading local; error := EmptyString |}).

End ConnectWallet.

(** What happens to the wallet session, one handler or effect at a time. *)
Module Session.

Inductive Event : Type :=
| header_check (f : Freighter.Answers)
| mount_check (f : Freighter.Answers)
| connect (f : Freighter.Answers)
| disconnect.

Definition State : Type := ClientLayout.State * ConnectWallet.Local.

Definition step (toLowerCase : string -> string) (s : State) (ev : Event) : State :=
  match ev with
  | header_check f => (Header.checkWalletConnection f (fst s), snd s)
  | mount_check f => (ConnectWallet.checkConnectionOnMount f (fst s), snd s)
  | connect f => ConnectWallet.connectWallet toLowerCase f (fst s)
  | disconnect => ConnectWallet.disconnectWallet (fst s) (snd s)
  end.

(** The page as it is loaded in a browser that stores [stored]. *)
Definition loaded (stored : option string) : State :=
  (ClientLayout.initial stored,
   {| ConnectWallet.isLoading := false; ConnectWallet.error := EmptyString |}).

Definition after (toLowerCase : string -> string) (stored : option string)
    (events : list Event) : State :=
  fold_left (step toLowerCase) events (loaded stored).

End Session.

(** ** Further conditions and predicates *)

(** An entry of the price map that the loop of [getLastPrice] reads. *)
Definition read_by_loop (entry : Reflector.MapEntry) : bool :=
  (Reflector.is_key "price" (Reflector.key_value entry)
   || Reflector.is_key "timestamp" (Reflector.key_value entry))
  && Reflector.val_truthy (Reflector.val entry).

Definition is_nullItem (it : Resolve.MapItem) : bool :=
  match it with
  | Resolve.nullItem => true
  | _ => false
  end.

(** A call of the resolution endpoint gets as far as the chain. *)
Definition reaches_chain (e : Resolve.Env) (id : string) : Prop :=
  id <> EmptyString /\
  Resolve.DAO_CONTRACT_ID e <> EmptyString /\
  Resolve.REFLECTOR_CONTRACT_ID e <> EmptyString /\
  Resolve.new_Contract e = Return tt.

(** The read of the stored prediction fails: the ledger read or the
    simulation is rejected, or the simulation reports an error. *)
Definition read_fails (e : Resolve.Env) (id : string) (contractError : string) : Prop :=
  Resolve.getLatestLedger e = Throw contractError \/
  (Resolve.getLatestLedger e = Return tt /\
   (Resolve.simulateTransaction e id = Throw contractError \/
    exists error, Resolve.simulateTransaction e id = Return (Resolve.simError error) /\
                  contractError = "Contract call failed: " ++ error)).

(** A number that is an integer. *)
Definition is_integer (q : Q) : Prop := exists z : Z, (q == inject_Z z)%Q.

(** The team of the request is not shown to exist: the [get_team]
    simulation reports an error or is rejected. *)
Definition team_not_shown (e : Prepare.Env) (team : string) : Prop :=
  Prepare.simulateTransaction e team = Return {| Prepare.has_error := true |} \/
  exists m, Prepare.simulateTransaction e team = Throw m.

(** The create route past its test on the team: the membership check and
    the transaction, under the outer handler. *)
Definition create_goes_on (e : Teams.Env) (pk name : string) : Result Teams.Response :=
  try_catch
    (Teams.check_user_and_prepare e pk (Teams.trim name)
       ("Team " ++ Teams.quoted (Teams.trim name) ++ " creation transaction prepared"))
    (fun m => Return (Teams.json_error 500 ("Team creation failed: " ++ m))).

(** The join route past its test on the team. *)
Definition join_goes_on (e : Teams.Env) (pk name : string) : Result Teams.Response :=
  try_catch
    (Teams.check_user_and_prepare e pk (Teams.trim name)
       ("Join team " ++ Teams.quoted (Teams.trim name) ++ " transaction prepared"))
    (fun m => Return (Teams.json_error 500 ("Failed to join team: " ++ m))).

(** A day, in milliseconds. *)
Definition day : Q := inject_Z 86400000.

(** The time the chart of a time frame spans, from its first point to its
    last. *)
Definition span (timeframe : string) : Q :=
  (inject_Z (Z.of_nat (Dashboard.getDataPoints timeframe)) * Dashboard.interval timeframe)%Q.

(** A string that does not start with white space. *)
Definition starts_clean (s : string) : bool :=
  match s with
  | String c _ => negb (Teams.is_space c)
  | EmptyString => true
  end.

(** A request of a page for the team of an address reaches the lookup
    endpoint, in front of the ledger [l], with that address. *)
Definition asks_lookup {Ledger} (fetch : string -> Result UserTeam.Response)
    (e : UserTeam.Env Ledger) (l : Ledger) : Prop :=
  forall address, fetch address = Return (fst (UserTeam.GET e l (Some address))).

(** The requests of the team page reach the create and the join route. *)
Definition asks_routes (e : TeamsPage.Env) (route : Teams.Env) : Prop :=
  (forall publicKey teamName,
     TeamsPage.fetch_create e publicKey teamName
       = Teams.create route (Some publicKey) (Some teamName)) /\
  (forall publicKey teamName,
     TeamsPage.fetch_join e publicKey teamName
       = Teams.join route (Some publicKey) (Some teamName)).

(** The submission was accepted by the network. *)
Definition accepted (status : string) : Prop :=
  status = "PENDING" \/ status = "DUPLICATE".

(** The request of the prediction page reaches the preparation endpoint. *)
Definition asks_prepare (e : DaoPage.Env) (route : Prepare.Env) : Prop :=
  forall request, DaoPage.fetch_prepare e request = Prepare.POST route (Return request).

(** The wallet session holds together: a key is shown for a connected
    wallet only, a connected wallet is not flagged as disconnected by
    hand, and the flag is what the browser stores. *)
Definition session_holds_together (s : ClientLayout.State) : Prop :=
  (ClientLayout.publicKey s <> EmptyString -> ClientLayout.isWalletConnected s = true) /\
  (ClientLayout.isWalletConnected s = true -> ClientLayout.hasManuallyDisconnected s = false) /\
  (ClientLayout.hasManuallyDisconnected s = true <->
   ClientLayout.walletManuallyDisconnected s = Some "true").

(** ** Further concrete inputs *)

Module Cases.

(** A stored prediction whose value array holds a [null] element. *)
Definition with_null_element : Resolve.PredictionData :=
  Resolve.valueArray
    [Resolve.item (Js.buffer "prediction") (Js.boolean true); Resolve.nullItem].

(** The resolution endpoint in front of a simulation that answers [r]. *)
Definition resolve_env (ledger : Result unit) (r : Result Resolve.SimulateResponse)
  : Resolve.Env :=
  {| Resolve.DAO_CONTRACT_ID := "CDAO";
     Resolve.REFLECTOR_CONTRACT_ID := "CREFLECTOR";
     Resolve.new_Contract := Return tt;
     Resolve.getLatestLedger := ledger;
     Resolve.simulateTransaction := fun _ => r;
     Resolve.oracle := Sample.oracle_down;
     Resolve.Math_random_1 := 3 # 4;
     Resolve.Math_random_2 := 1 # 4 |}.

(** The first resolution endpoint in front of a simulation that answers
    [r]. *)
Definition resolve_v1_env (r : Result ResolveV1.Simulation) : ResolveV1.Env :=
  {| ResolveV1.DAO_CONTRACT_ID := "CDAO";
     ResolveV1.REFLECTOR_CONTRACT_ID := "CREFLECTOR";
     ResolveV1.new_Contract := Return tt;
     ResolveV1.simulateTransaction := fun _ => r;
     ResolveV1.Math_random := fun n => match n with O => 3 # 4 | _ => 1 # 4 end |}.

(** The user-team lookup in front of a server whose simulation is
    rejected; the ledger is not looked at. *)
Definition lookup_env_down : UserTeam.Env unit :=
  {| UserTeam.DAO_CONTRACT_ID := "CDAO";
     UserTeam.Keypair_fromPublicKey := fun _ => Return tt;
     UserTeam.new_Contract := Return tt;
     UserTeam.simulateTransaction := fun _ _ => Throw "fetch failed" |}.

(** The team routes in front of a [get_team] simulation that answers
    [team] and a [get_user_team] simulation that answers void. *)
Definition teams_env (team : Result Teams.Simulation) : Teams.Env :=
  {| Teams.STELLAR_NETWORK_PASSPHRASE := "Test SDF Network ; September 2015";
     Teams.DAO_CONTRACT_ID := "CDAO";
     Teams.Keypair_fromPublicKey := fun _ => Return tt;
     Teams.loadAccount := fun _ => Return tt;
     Teams.new_Contract := Return tt;
     Teams.get_team := fun _ => team;
     Teams.get_user_team := fun _ => Return {| Teams.switch_name := Some "scvVoid" |};
     Teams.prepareTransaction := fun _ => Return tt |}.

(** The oracle-price endpoint in front of an oracle that answers [v] as an
    i128, and the Reflector client in front of the same. *)
Definition oracle_price_env (v : OraclePrice.I128Value) : OraclePrice.Env :=
  {| OraclePrice.REFLECTOR_CONTRACT_ID := "CREFLECTOR";
     OraclePrice.new_Contract := Return tt;
     OraclePrice.simulateTransaction := fun _ =>
       Return {| OraclePrice.retval := Some (OraclePrice.scvI128 v) |};
     OraclePrice.Date_now := inject_Z 1700000000000;
     OraclePrice.Math_random := 1 # 2 |}.

Definition client_oracle (v : OraclePrice.I128Value) : Reflector.Oracle :=
  {| Reflector.new_Contract := Return tt;
     Reflector.simulateTransaction :=
       Return {| Reflector.retval := Some (Reflector.cvI128 (OraclePrice.as_raw v)) |};
     Reflector.Date_now := inject_Z 1700000000000;
     Reflector.Math_random := 1 # 2 |}.

(** The oracle-price endpoint with no oracle configured. *)
Definition oracle_price_env_unset : OraclePrice.Env :=
  {| OraclePrice.REFLECTOR_CONTRACT_ID := EmptyString;
     OraclePrice.new_Contract := Return tt;
     OraclePrice.simulateTransaction := fun _ => Throw "unused";
     OraclePrice.Date_now := inject_Z 1700000000000;
     OraclePrice.Math_random := 1 # 2 |}.

(** A chart drawn at a fixed time with every draw one quarter. *)
Definition chart_env : Dashboard.Env :=
  {| Dashboard.Date_now := inject_Z 1700000000000;
     Dashboard.Math_random := fun _ => 1 # 4;
     Dashboard.toLocaleDateString := fun _ => "11/14/2023";
     Dashboard.toLocaleTimeString := fun _ => "10:13 PM" |}.

(** A Stellar public key: 56 characters. *)
Definition public_key : string :=
  "GBZXN7PIRZGNMHGA7MUUUF4GWPY5AYPV6LY4UV2GL6VJGIQRXFDNMADI".

(** The form as the prediction page shows it to a connected member of
    team [alpha]. *)
Definition form_props : PredictionForm.Props :=
  {| PredictionForm.isConnected := true;
     PredictionForm.userTeam := Some "alpha";
     PredictionForm.maxStakePercentage := inject_Z 100;
     PredictionForm.maxStakePercentage_text := "100";
     PredictionForm.availableAssets := ["EUR/USD"; "BTC/USD"; "ETH/USD"; "XLM/USD"] |}.

(** What the form submits after the user chose BTC/USD, a fall and 40
    percent, and the request the prediction page makes of it for [GALICE]. *)
Definition form_data : PredictionForm.PredictionFormDataSubmit :=
  {| PredictionForm.submit_teamName := "alpha";
     PredictionForm.submit_asset := "BTC/USD";
     PredictionForm.submit_direction := "down";
     PredictionForm.submit_stakePercentage := inject_Z 40 |}.

Definition form_request : Prepare.PrepareTransactionRequest :=
  {| Prepare.publicKey := Some "GALICE";
     Prepare.teamName := Some "alpha";
     Prepare.stakePercentage := Some (inject_Z 40);
     Prepare.prediction :=
       Some {| Prepare.asset := "BTC/USD"; Prepare.direction := false |} |}.

(** A stored prediction on BTC/USD. *)
Definition parsed_BTC : Resolve.Parsed :=
  {| Resolve.asset := "BTC/USD";
     Resolve.predictedDirection := Js.boolean true;
     Resolve.resolved := Js.boolean false |}.

Definition stored_BTC : Resolve.SimulateResponse :=
  Resolve.simSuccess (Some (Resolve.valueArray
    [Resolve.item (Js.buffer "asset") (Js.buffer "BTC/USD");
     Resolve.item (Js.buffer "prediction") (Js.boolean true)])).

(** The resolution of an earlier prediction, as the page lists it. *)
Definition listed : DaoPage.PredictionResult :=
  {| DaoPage.predictionId := Fetch.present "alpha_1700000000000_k3j9x2";
     DaoPage.outcome := Fetch.present true;
     DaoPage.currentPrice := Fetch.present (10861 # 10000);
     DaoPage.message := Fetch.present "Prediction succeeded";
     DaoPage.transactionHash := Fetch.present "9f2c";
     DaoPage.error := Fetch.absent |}.

(** The team page of a wallet whose requests reach the routes in front of
    [route] and whose submissions get the status [status]. *)
Definition teams_page_env (route : Teams.Env) (status : Result string) : TeamsPage.Env :=
  {| TeamsPage.fetch_create := fun publicKey teamName =>
       Teams.create route (Some publicKey) (Some teamName);
     TeamsPage.fetch_join := fun publicKey teamName =>
       Teams.join route (Some publicKey) (Some teamName);
     TeamsPage.sign_and_send := fun _ _ => status |}.

(** The team page with a name typed between spaces. *)
Definition typed (name : string) : TeamsPage.State :=
  {| TeamsPage.userTeam := EmptyString;
     TeamsPage.newTeamName := name;
     TeamsPage.showCreateForm := true;
     TeamsPage.isLoading := false |}.

(** The prediction page of a wallet that signs, in front of the
    preparation endpoint [route] and a network that answers [sent]. *)
Definition dao_page_env (route : Prepare.Env) (sent : Result (string * string))
  : DaoPage.Env :=
  {| DaoPage.fetch_prepare := fun request => Prepare.POST route (Return request);
     DaoPage.signTransaction := fun _ _ => Return "signed";
     DaoPage.sendTransaction := fun _ => sent |}.

(** A Freighter extension that has allowed the site, for the key
    [public_key]. *)
Definition freighter_allowed : Freighter.Answers :=
  {| Freighter.isConnected := Return true;
     Freighter.requestAccess := Return tt;
     Freighter.getAddress := Return public_key |}.

End Cases.

(** * Properties *)

(** ** Numbers *)

Lemma gt_iff (a b : Q) : Js.gt a b = true <-> (b < a)%Q.
Proof.
  unfold Js.gt. rewrite negb_true_iff. split.
  - intros H. apply Qnot_le_lt. intros Hle.
    apply Qle_bool_iff in Hle. congruence.
  - intros H. destruct (Qle_bool a b) eqn:E; [|reflexivity].
    apply Qle_bool_iff in E. exfalso. exact (Qlt_not_le _ _ H E).
Qed.

Lemma gt_false_iff (a b : Q) : Js.gt a b = false <-> (a <= b)%Q.
Proof.
  unfold Js.gt. rewrite negb_false_iff. apply Qle_bool_iff.
Qed.

Lemma le_iff (a b : Q) : Js.le a b = true <-> (a <= b)%Q.
Proof. apply Qle_bool_iff. Qed.

Lemma lt_iff (a b : Q) : Js.lt a b = true <-> (a < b)%Q.
Proof. unfold Js.lt. apply (gt_iff b a). Qed.

(** A positive price is above 0.995 times itself. *)
Lemma above_its_discount (p : Q) : (0 < p)%Q -> Js.gt p (p * (995 # 1000)) = true.
Proof. intros H. apply gt_iff. lra. Qed.

(** ** The Reflector client *)

Lemma generateMockPrice_positive (assetSymbol : string) (r : Q) :
  Js.is_random r -> (0 < Reflector.generateMockPrice assetSymbol r)%Q.
Proof.
  intros [H0 H1]. unfold Reflector.generateMockPrice.
  destruct (String.eqb assetSymbol "EUR/USD"); [lra|].
  destruct (String.eqb assetSymbol "BTC/USD"); [unfold inject_Z; lra|].
  destruct (String.eqb assetSymbol "ETH/USD"); [unfold inject_Z; lra|].
  lra.
Qed.

(** The mock price stays within one percent of the base price. *)
Lemma generateMockPrice_EUR_range (r : Q) :
  Js.is_random r ->
  (10692 # 10000 <= Reflector.generateMockPrice "EUR/USD" r)%Q /\
  (Reflector.generateMockPrice "EUR/USD" r < 10908 # 10000)%Q.
Proof.
  intros [H0 H1]. unfold Reflector.generateMockPrice. simpl. split; lra.
Qed.

(** What [getLastPrice] returns is an oracle reading or the mock. *)
Lemma getLastPrice_cases (o : Reflector.Oracle) (assetSymbol : string) :
  Reflector.getLastPrice o assetSymbol = Return (Reflector.mock o assetSymbol) \/
  exists cv,
    Reflector.simulateTransaction o = Return {| Reflector.retval := Some cv |} /\
    let '(price, timestamp) := Reflector.parse_price (Reflector.Date_now o) cv in
    Js.gt price 0 = true /\
    Reflector.toISOString timestamp = Return tt /\
    Reflector.getLastPrice o assetSymbol =
      Return {| Reflector.price := price; Reflector.timestamp := timestamp |}.
Proof.
  unfold Reflector.getLastPrice, Reflector.getLastPrice_try.
  destruct (Reflector.new_Contract o) as [[]|m]; simpl; [|now left].
  destruct (Reflector.simulateTransaction o) as [[[cv|]]|m]; simpl; try now left.
  destruct (Reflector.parse_price (Reflector.Date_now o) cv) as [price timestamp] eqn:Hp.
  destruct (Js.gt price 0) eqn:Hgt; simpl; [|now left].
  destruct (Reflector.toISOString timestamp) as [[]|m] eqn:Ht; simpl; [|now left].
  right. exists cv. split; [reflexivity|]. rewrite Hp. auto.
Qed.

(** [getLastPrice] never rejects, and its price is positive. *)
Lemma getLastPrice_total (o : Reflector.Oracle) (assetSymbol : string) :
  Js.is_random (Reflector.Math_random o) ->
  exists data,
    Reflector.getLastPrice o assetSymbol = Return data /\ (0 < Reflector.price data)%Q.
Proof.
  intros Hr. destruct (getLastPrice_cases o assetSymbol) as [H|[cv [_ H]]].
  - eexists; split; [exact H|]. simpl. now apply generateMockPrice_positive.
  - destruct (Reflector.parse_price (Reflector.Date_now o) cv) as [price timestamp].
    destruct H as (Hgt & _ & H). eexists; split; [exact H|]. simpl. now apply gt_iff.
Qed.

(** The timestamp [getLastPrice] returns is one [toISOString] accepts, when
    the clock is. *)
Lemma getLastPrice_timestamp (o : Reflector.Oracle) (assetSymbol : string) data :
  Reflector.toISOString (Reflector.Date_now o) = Return tt ->
  Reflector.getLastPrice o assetSymbol = Return data ->
  Reflector.toISOString (Reflector.timestamp data) = Return tt.
Proof.
  intros Hnow H. destruct (getLastPrice_cases o assetSymbol) as [H'|[cv [_ H']]].
  - rewrite H' in H. injection H as <-. exact Hnow.
  - destruct (Reflector.parse_price (Reflector.Date_now o) cv) as [price timestamp].
    destruct H' as (_ & Ht & H'). rewrite H' in H. injection H as <-. exact Ht.
Qed.

(** ** The resolution endpoint *)

Lemma eqb_false_of_ne (s t : string) : s <> t -> String.eqb s t = false.
Proof. intros H. now apply String.eqb_neq. Qed.

(** The price read by the handler is positive and carries a timestamp that
    [toISOString] accepts. *)
Lemma current_price_total (e : Resolve.Env) :
  Js.is_random (Reflector.Math_random (Resolve.oracle e)) ->
  exists data,
    Resolve.current_price e = Return data /\ (0 < Reflector.price data)%Q /\
    (Reflector.toISOString (Reflector.Date_now (Resolve.oracle e)) = Return tt ->
     Reflector.toISOString (Reflector.timestamp data) = Return tt).
Proof.
  intros Hr. unfold Resolve.current_price.
  destruct (getLastPrice_total (Resolve.oracle e) "EUR/USD" Hr) as (data & Hd & Hpos).
  exists data. rewrite Hd. simpl. repeat split; auto.
  intros Hnow. eapply getLastPrice_timestamp; eauto.
Qed.

(** On the oracle path the direction computed is always a rise and the
    outcome is the test [predictedDirection === true]. *)
Lemma resolution_body_outcome (id : string) (p : Resolve.Parsed) data :
  (0 < Reflector.price data)%Q ->
  Resolve.outcome (Resolve.resolution_body id p data) =
    Js.strict_eq_bool (Resolve.predictedDirection p) true /\
  Resolve.historicalPrice (Resolve.resolution_body id p data) =
    (Resolve.currentPrice (Resolve.resolution_body id p data) * (995 # 1000))%Q /\
  Js.gt (Resolve.currentPrice (Resolve.resolution_body id p data))
        (Resolve.historicalPrice (Resolve.resolution_body id p data)) = true.
Proof.
  intros Hpos. unfold Resolve.resolution_body, Resolve.resolution_logic. simpl.
  rewrite (above_its_discount _ Hpos). auto.
Qed.

Lemma GET_oracle_path (e : Resolve.Env) (id : string) (p : Resolve.Parsed) :
  reaches_oracle e id p ->
  exists data,
    Resolve.current_price e = Return data /\ (0 < Reflector.price data)%Q /\
    Resolve.GET e (Some id) = Return (Resolve.json_resolved (Resolve.resolution_body id p data)).
Proof.
  intros (Hid & Hdao & Href & Hc & Hl & (r & Hsim & Hparse) & Hr & Hnow).
  destruct (current_price_total e Hr) as (data & Hd & Hpos & Ht).
  exists data. split; [exact Hd|]. split; [exact Hpos|].
  unfold Resolve.GET. simpl.
  rewrite (eqb_false_of_ne _ _ Hid), (eqb_false_of_ne _ _ Hdao), (eqb_false_of_ne _ _ Href).
  simpl. rewrite Hc. simpl.
  unfold Resolve.GET_try. rewrite Hl. simpl. rewrite Hsim. simpl. rewrite Hparse. simpl.
  unfold Resolve.resolve_with_oracle. rewrite Hd. simpl. rewrite (Ht Hnow). reflexivity.
Qed.

Lemma Return_inj {A} (a b : A) : Return a = Return b -> a = b.
Proof. congruence. Qed.

(** The answer is the one of the [catch] block. *)
Ltac caught H :=
  left; eexists; apply Return_inj in H; symmetry; exact H.

(** Every answer that carries an outcome comes from the oracle path or from
    the [catch] block. *)
Lemma GET_resolved_inv (e : Resolve.Env) (pid : option string) body :
  Resolve.GET e pid = Return (Resolve.json_resolved body) ->
  exists id, pid = Some id /\
    ((exists m, Resolve.json_resolved body = Resolve.GET_catch e id m) \/
     (exists r p data,
        Resolve.simulateTransaction e id = Return (Resolve.simSuccess r) /\
        Resolve.parse_prediction r = (true, p) /\
        Resolve.current_price e = Return data /\
        body = Resolve.resolution_body id p data)).
Proof.
  unfold Resolve.GET. destruct pid as [id|]; simpl; [|discriminate].
  destruct (String.eqb id EmptyString); simpl; [discriminate|].
  destruct (_ || _); simpl; [discriminate|].
  destruct (Resolve.new_Contract e) as [[]|m]; simpl; [|discriminate].
  intros H. exists id. split; [reflexivity|].
  unfold Resolve.GET_try in H.
  destruct (Resolve.getLatestLedger e) as [[]|m]; cbn [bind try_catch] in H;
    [|caught H].
  destruct (Resolve.simulateTransaction e id) as [[err|r]|m] eqn:Hsim;
    cbn [bind try_catch] in H; [caught H| |caught H].
  destruct (Resolve.parse_prediction r) as [[|] p] eqn:Hparse;
    cbn [negb bind try_catch] in H; [|discriminate].
  unfold Resolve.resolve_with_oracle in H.
  destruct (Resolve.current_price e) as [data|m] eqn:Hd; cbn [bind try_catch] in H;
    [|caught H].
  destruct (Reflector.toISOString (Reflector.timestamp data)) as [[]|m];
    cbn [bind try_catch] in H; [|caught H].
  right. exists r, p, data. repeat split; auto. congruence.
Qed.

(** The inner [try] block answers "not submitted" or a resolution. *)
Lemma GET_try_answers (e : Resolve.Env) (id : string) r :
  Resolve.GET_try e id = Return r ->
  r = Resolve.json_not_submitted id \/ exists body, r = Resolve.json_resolved body.
Proof.
  unfold Resolve.GET_try, Resolve.resolve_with_oracle.
  destruct (Resolve.getLatestLedger e) as [[]|m]; cbn [bind]; [|discriminate].
  destruct (Resolve.simulateTransaction e id) as [[err|res]|m]; cbn [bind]; try discriminate.
  destruct (Resolve.parse_prediction res) as [[|] p]; cbn [negb bind].
  - destruct (Resolve.current_price e) as [data|m]; cbn [bind]; [|discriminate].
    destruct (Reflector.toISOString _) as [[]|m]; cbn [bind]; [|discriminate].
    intros H. right. eexists. symmetry. apply Return_inj. exact H.
  - intros H. left. symmetry. apply Return_inj. exact H.
Qed.

(** The handler always answers, and what it answers is one of five bodies. *)
Lemma GET_answers (e : Resolve.Env) (pid : option string) :
  exists r, Resolve.GET e pid = Return r /\
    (r = Resolve.json_error 400 "Missing predictionId parameter" \/
     r = Resolve.json_error 500
           "Contract addresses not configured. Please set PUBLIC_DAO_CONTRACT_ID and PUBLIC_REFLECTOR_CONTRACT_ID" \/
     (exists m, r = Resolve.json_error 500 ("Resolution failed: " ++ m)) \/
     (exists id, r = Resolve.json_not_submitted id) \/
     (exists body, r = Resolve.json_resolved body)).
Proof.
  unfold Resolve.GET. destruct (Js.missing pid); cbn [try_catch]; [eauto|].
  destruct (_ || _); cbn [try_catch]; [eauto 6|].
  destruct (Resolve.new_Contract e) as [[]|m]; cbn [bind try_catch]; [|eauto 8].
  destruct (Resolve.GET_try e _) as [r|m] eqn:Htry; cbn [try_catch].
  - exists r. split; [reflexivity|].
    destruct (GET_try_answers _ _ _ Htry) as [->|[body ->]]; eauto 10.
  - eexists. split; [reflexivity|]. unfold Resolve.GET_catch. eauto 10.
Qed.

Lemma resolution_body_always_rise (id : string) (p : Resolve.Parsed) data :
  (0 < Reflector.price data)%Q -> always_rise (Resolve.resolution_body id p data).
Proof.
  intros Hpos. destruct (resolution_body_outcome id p data Hpos) as (Ho & Hh & Hgt).
  split; [exact Hh|]. split; [exact Hgt|].
  unfold Resolve.resolution_body, Resolve.resolution_logic in *.
  cbn in *. eexists. split; [reflexivity|]. cbn. split; [exact Ho|].
  intros b Hb. rewrite Ho, Hb. cbn. destruct b; reflexivity.
Qed.

(** The parser: what it reads for [predictedDirection] is the value of the
    last [prediction] entry of the stored record. *)
Lemma read_items_throw (l : list Resolve.MapItem) (m : string) :
  fold_left (fun acc it => bind acc (fun p => Resolve.read_item p it)) l (Throw m) = Throw m.
Proof. induction l as [|it l IH]; cbn; auto. Qed.

Lemma read_item_keeps_prediction (q q' : Resolve.Parsed) (it : Resolve.MapItem) :
  sets_prediction it = false ->
  Resolve.read_item q it = Return q' ->
  Resolve.predictedDirection q' = Resolve.predictedDirection q.
Proof.
  intros Hset H. destruct it as [| |key v]; cbn in H; [discriminate|congruence|].
  destruct key as [| |b|n|k|k]; cbn in H; try congruence.
  - destruct b; cbn in H; congruence.
  - destruct (negb (Js.Qeqb n 0)); cbn in H; congruence.
  - destruct (negb (String.eqb k EmptyString)); cbn in H; congruence.
  - cbn in Hset.
    destruct (String.eqb k "asset" && Js.truthy v && Js.isBuffer v);
      [injection H as <-; reflexivity|].
    destruct (String.eqb k "prediction" && negb (Js.is_undefined v)); [discriminate|].
    destruct (String.eqb k "resolved" && negb (Js.is_undefined v));
      injection H as <-; reflexivity.
Qed.

Lemma read_items_keep_prediction (l : list Resolve.MapItem) (q p : Resolve.Parsed) :
  forallb (fun it => negb (sets_prediction it)) l = true ->
  fold_left (fun acc it => bind acc (fun p => Resolve.read_item p it)) l (Return q) = Return p ->
  Resolve.predictedDirection p = Resolve.predictedDirection q.
Proof.
  revert q. induction l as [|it l IH]; intros q Hall H; cbn in *; [congruence|].
  apply andb_true_iff in Hall as [Hit Hall]. apply negb_true_iff in Hit.
  destruct (Resolve.read_item q it) as [q'|m] eqn:Hq.
  - rewrite (IH q' Hall H). eapply read_item_keeps_prediction; eauto.
  - rewrite read_items_throw in H. discriminate.
Qed.

Lemma parse_reads_stored_direction (before after : list Resolve.MapItem)
    (v : Js.value) (p : Resolve.Parsed) :
  Js.is_undefined v = false ->
  forallb (fun it => negb (sets_prediction it)) after = true ->
  Resolve.parse_prediction
    (Some (Resolve.valueArray (before ++ Resolve.item (Js.buffer "prediction") v :: after)))
    = (true, p) ->
  Resolve.predictedDirection p = v.
Proof.
  intros Hv Hafter. unfold Resolve.parse_prediction, Resolve.read_items.
  rewrite fold_left_app. cbn [fold_left].
  destruct (fold_left _ before (Return Resolve.initial)) as [q|m]; cbn [bind].
  - assert (Hstep : Resolve.read_item q (Resolve.item (Js.buffer "prediction") v) =
                    Return {| Resolve.asset := Resolve.asset q;
                              Resolve.predictedDirection := v;
                              Resolve.resolved := Resolve.resolved q |}).
    { cbn. rewrite Hv. reflexivity. }
    rewrite Hstep.
    destruct (fold_left _ after _) as [p'|m] eqn:Hfold; [|discriminate].
    intros H. injection H as <-.
    now rewrite (read_items_keep_prediction after _ p' Hafter Hfold).
  - rewrite read_items_throw. discriminate.
Qed.

(** A result that carries no [_value] array is taken for a found prediction
    with the initial values: EUR/USD, predicted down, not resolved. *)
Lemma parse_without_value_array :
  Resolve.parse_prediction (Some Resolve.noValueField) = (true, Resolve.initial) /\
  Resolve.parse_prediction (Some Resolve.valueNotArray) = (true, Resolve.initial) /\
  Resolve.predictedDirection Resolve.initial = Js.boolean false.
Proof. repeat split. Qed.

(** What the parser makes of a stored record, element by element. *)
Lemma read_item_returns (p : Resolve.Parsed) (it : Resolve.MapItem) :
  is_nullItem it = false -> exists p', Resolve.read_item p it = Return p'.
Proof.
  destruct it as [| |key v]; cbn; [discriminate|eauto|]. intros _.
  destruct (Js.truthy key && Js.isBuffer key); [|eauto].
  repeat (destruct (_ && _); [eauto|]). eauto.
Qed.

Lemma read_items_without_null (l : list Resolve.MapItem) (q : Resolve.Parsed) :
  existsb is_nullItem l = false ->
  exists p, fold_left (fun acc it => bind acc (fun p => Resolve.read_item p it)) l (Return q)
            = Return p.
Proof.
  revert q. induction l as [|it l IH]; intros q H; cbn in *; [eauto|].
  apply orb_false_iff in H as [Hit H].
  destruct (read_item_returns q it Hit) as [q' ->]. now apply IH.
Qed.

Lemma read_items_with_null (l : list Resolve.MapItem) (acc : Result Resolve.Parsed) :
  existsb is_nullItem l = true ->
  exists m, fold_left (fun acc it => bind acc (fun p => Resolve.read_item p it)) l acc
            = Throw m.
Proof.
  revert acc. induction l as [|it l IH]; intros acc H; cbn in *; [discriminate|].
  destruct (is_nullItem it) eqn:Hit.
  - destruct it; try discriminate. destruct acc as [q|m]; cbn [bind Resolve.read_item];
      rewrite read_items_throw; eauto.
  - cbn in H. now apply IH.
Qed.

Lemma parse_prediction_exists (dataMap : list Resolve.MapItem) :
  fst (Resolve.parse_prediction (Some (Resolve.valueArray dataMap)))
    = negb (existsb is_nullItem dataMap).
Proof.
  unfold Resolve.parse_prediction, Resolve.read_items.
  destruct (existsb is_nullItem dataMap) eqn:E.
  - destruct (read_items_with_null dataMap (Return Resolve.initial) E) as [m ->]. reflexivity.
  - destruct (read_items_without_null dataMap Resolve.initial E) as [p ->]. reflexivity.
Qed.


(** The answer when the read of the stored record fails: the one of the
    [catch] block. *)
Lemma GET_read_fails (e : Resolve.Env) (id contractError : string) :
  reaches_chain e id -> read_fails e id contractError ->
  Resolve.GET e (Some id) = Return (Resolve.GET_catch e id contractError).
Proof.
  intros (Hid & Hdao & Href & Hc) Hfail.
  unfold Resolve.GET. cbn [Js.missing default from_option Datatypes.id].
  rewrite (eqb_false_of_ne _ _ Hid), (eqb_false_of_ne _ _ Hdao), (eqb_false_of_ne _ _ Href).
  cbn [orb]. cbv zeta. rewrite Hc. cbn [bind]. unfold Resolve.GET_try.
  destruct Hfail as [Hl|[Hl [Hs|(error & Hs & ->)]]]; rewrite Hl; cbn [bind try_catch];
    try reflexivity; rewrite Hs; reflexivity.
Qed.

(** The move drawn in the [catch] block is a rise exactly when the first
    draw is above one half. *)
Lemma drawn_move (random_1 : Q) :
  Js.gt (if Js.gt random_1 (1 # 2) then 105 # 100 else 95 # 100) 1 = Js.gt random_1 (1 # 2).
Proof. destruct (Js.gt random_1 (1 # 2)); reflexivity. Qed.




(** C10 (amended). On every run of the resolution endpoint that reads the
    stored prediction, the reference price is 0.995 times the price read
    from the oracle, so the computed direction is a rise and the outcome is
    the test [predicted direction === true]; every run that gets as far as
    the oracle answers so. The direction compared is the one read in the
    [prediction] entry of the stored record, and [false] when the record
    carries no value array, whatever was stored. On a run whose read of the
    stored prediction fails the reference price is 1, the current price is
    drawn (1.05 or 0.95), and the direction is a rise only when the first
    draw is above one half. *)
Theorem C10_reference_is_discounted_current (e : Resolve.Env) (pid : option string) :
  Js.is_random (Reflector.Math_random (Resolve.oracle e)) ->
  (forall body,
     Resolve.GET e pid = Return (Resolve.json_resolved body) ->
     Resolve.resolvedViaContract body = true ->
     always_rise body) /\
  (forall id p,
     pid = Some id -> reaches_oracle e id p ->
     exists body,
       Resolve.GET e pid = Return (Resolve.json_resolved body) /\
       Resolve.resolvedViaContract body = true /\
       always_rise body /\
       Resolve.outcome body = Js.strict_eq_bool (Resolve.predictedDirection p) true) /\
  (forall before after (stored : bool) p,
     forallb (fun it => negb (sets_prediction it)) after = true ->
     Resolve.parse_prediction
       (Some (Resolve.valueArray
          (before ++ Resolve.item (Js.buffer "prediction") (Js.boolean stored) :: after)))
       = (true, p) ->
     Resolve.predictedDirection p = Js.boolean stored) /\
  (forall id r,
     pid = Some id -> reaches_chain e id ->
     Resolve.getLatestLedger e = Return tt ->
     Resolve.simulateTransaction e id = Return (Resolve.simSuccess (Some r)) ->
     r = Resolve.noValueField \/ r = Resolve.valueNotArray ->
     Reflector.toISOString (Reflector.Date_now (Resolve.oracle e)) = Return tt ->
     exists body,
       Resolve.GET e pid = Return (Resolve.json_resolved body) /\
       always_rise body /\
       Resolve.outcome body = false) /\
  (forall id contractError,
     pid = Some id -> reaches_chain e id -> read_fails e id contractError ->
     exists body,
       Resolve.GET e pid = Return (Resolve.json_resolved body) /\
       Resolve.resolvedViaContract body = false /\
       Resolve.historicalPrice body = 1%Q /\
       ~ (Resolve.historicalPrice body == Resolve.currentPrice body * (995 # 1000))%Q /\
       Js.gt (Resolve.currentPrice body) (Resolve.historicalPrice body)
         = Js.gt (Resolve.Math_random_1 e) (1 # 2)).
Proof.
  intros Hr. split; [|split; [|split; [|split]]];
    [| |intros before after stored p; now apply parse_reads_stored_direction| |].
  - intros body H Hvia.
    destruct (GET_resolved_inv e pid body H)
      as (id & -> & [[m Hm]|(r & p & data & _ & _ & Hd & ->)]).
    + unfold Resolve.GET_catch in Hm. injection Hm as ->. discriminate Hvia.
    + destruct (current_price_total e Hr) as (data' & Hd' & Hpos & _).
      rewrite Hd in Hd'. injection Hd' as <-.
      now apply resolution_body_always_rise.
  - intros id p -> Hreach.
    destruct (GET_oracle_path e id p Hreach) as (data & _ & Hpos & HGET).
    exists (Resolve.resolution_body id p data). split; [exact HGET|].
    split; [reflexivity|]. split; [now apply resolution_body_always_rise|].
    now destruct (resolution_body_outcome id p data Hpos).
  - intros id r -> (Hid & Hdao & Href & Hc) Hl Hsim Hshape Hnow.
    assert (Hparse : Resolve.parse_prediction (Some r) = (true, Resolve.initial))
      by (destruct Hshape as [-> | ->]; reflexivity).
    assert (Hreach : reaches_oracle e id Resolve.initial).
    { repeat split; auto; try apply Hr. eexists. split; [exact Hsim|exact Hparse]. }
    destruct (GET_oracle_path e id _ Hreach) as (data & _ & Hpos & HGET).
    exists (Resolve.resolution_body id Resolve.initial data). split; [exact HGET|].
    split; [now apply resolution_body_always_rise|].
    now destruct (resolution_body_outcome id Resolve.initial data Hpos).
  - intros id m -> Hreach Hfail. rewrite (GET_read_fails e id m Hreach Hfail).
    unfold Resolve.GET_catch. eexists. split; [reflexivity|].
    cbn [Resolve.currentPrice Resolve.historicalPrice Resolve.resolvedViaContract].
    split; [reflexivity|]. split; [reflexivity|]. split; [|apply drawn_move].
    destruct (Js.gt (Resolve.Math_random_1 e) (1 # 2)); vm_compute; discriminate.
Qed.

Lemma C10_witness :
  always_rise Sample.rise_body /\
  exists body,
    Resolve.GET (Sample.resolve_env (Sample.oracle_i128 108500000000000)) (Some "p1")
      = Return (Resolve.json_resolved body) /\
    Resolve.resolvedViaContract body = true /\
    always_rise body /\
    Resolve.outcome body = true.
Proof.
  assert (Hr : Js.is_random (1 # 2)) by (split; vm_compute; congruence).
  destruct (C10_reference_is_discounted_current
              (Sample.resolve_env (Sample.oracle_i128 108500000000000)) (Some "p1") Hr)
    as (H1 & H2 & _).
  split.
  - apply H1; vm_compute; reflexivity.
  - apply (H2 "p1" Sample.parsed_rise eq_refl).
    repeat split; try (vm_compute; congruence).
    eexists. split; vm_compute; reflexivity.
Defined.

(** C10, as stated, fails: on a run whose read of the stored prediction of
    a rise is rejected, the reference price is 1 and not 0.995 times the
    current price 0.95, the direction computed is a fall, and the outcome
    is not the stored direction. *)
Lemma C10_counterexample :
  exists body,
    Resolve.simulateTransaction (Sample.rpc_down (1 # 4) (3 # 4)) "p1"
      = Return Sample.resolved_rise /\
    Resolve.GET (Sample.rpc_down (1 # 4) (3 # 4)) (Some "p1")
      = Return (Resolve.json_resolved body) /\
    ~ (Resolve.historicalPrice body == Resolve.currentPrice body * (995 # 1000))%Q /\
    Js.gt (Resolve.currentPrice body) (Resolve.historicalPrice body) = false /\
    Resolve.outcome body = false.
Proof.
  eexists. split; [reflexivity|]. split; [vm_compute; reflexivity|].
  split; [vm_compute; discriminate|]. split; reflexivity.
Qed.

(** The handler has no answer whose error is [AlreadyResolved]. *)
Lemma GET_never_AlreadyResolved (e : Resolve.Env) (pid : option string) r :
  Resolve.GET e pid = Return r -> Resolve.error_of r <> Some "AlreadyResolved".
Proof.
  intros H. destruct (GET_answers e pid) as (r' & H' & Hcases).
  rewrite H in H'. injection H' as <-.
  destruct Hcases as [->|[->|[[m ->]|[[id ->]|[body ->]]]]]; cbn; discriminate.
Qed.

(** C3 (amended). The resolution endpoint keeps no record of a resolution
    and has no [AlreadyResolved] failure: no call is answered with that
    error, and any two calls that reach the oracle with the same stored
    prediction, whatever its [resolved] flag, both succeed, with the same
    outcome and with [resolved: false] in the answer. *)
Theorem C3_resolution_repeats :
  (forall e pid r, Resolve.GET e pid = Return r ->
     Resolve.error_of r <> Some "AlreadyResolved") /\
  (forall (e1 e2 : Resolve.Env) (id : string) (p : Resolve.Parsed),
     reaches_oracle e1 id p ->
     reaches_oracle e2 id p ->
     exists b1 b2,
       Resolve.GET e1 (Some id) = Return (Resolve.json_resolved b1) /\
       Resolve.GET e2 (Some id) = Return (Resolve.json_resolved b2) /\
       Resolve.outcome b1 = Resolve.outcome b2 /\
       Resolve.error_of (Resolve.json_resolved b2) = None /\
       (Resolve.cd_resolved <$> Resolve.contractData b2) = Some false).
Proof.
  split; [apply GET_never_AlreadyResolved|].
  intros e1 e2 id p H1 H2.
  destruct (GET_oracle_path e1 id p H1) as (d1 & _ & Hp1 & HG1).
  destruct (GET_oracle_path e2 id p H2) as (d2 & _ & Hp2 & HG2).
  exists (Resolve.resolution_body id p d1), (Resolve.resolution_body id p d2).
  split; [exact HG1|]. split; [exact HG2|].
  destruct (resolution_body_outcome id p d1 Hp1) as (-> & _).
  destruct (resolution_body_outcome id p d2 Hp2) as (-> & _).
  repeat split.
Qed.

Lemma C3_witness :
  exists b1 b2,
    Resolve.GET (Sample.resolve_env (Sample.oracle_i128 108500000000000)) (Some "p1")
      = Return (Resolve.json_resolved b1) /\
    Resolve.GET (Sample.resolve_env (Sample.oracle_i128 107500000000000)) (Some "p1")
      = Return (Resolve.json_resolved b2) /\
    Resolve.outcome b1 = Resolve.outcome b2 /\
    Resolve.error_of (Resolve.json_resolved b2) = None /\
    (Resolve.cd_resolved <$> Resolve.contractData b2) = Some false.
Proof.
  apply (proj2 C3_resolution_repeats
           (Sample.resolve_env (Sample.oracle_i128 108500000000000))
           (Sample.resolve_env (Sample.oracle_i128 107500000000000))
           "p1" Sample.parsed_rise).
  - repeat split; try (vm_compute; congruence).
    eexists. split; vm_compute; reflexivity.
  - repeat split; try (vm_compute; congruence).
    eexists. split; vm_compute; reflexivity.
Defined.

(** C3, as stated, fails: a call on a prediction whose stored record is
    already resolved is answered with an outcome, not with [AlreadyResolved]. *)
Lemma C3_counterexample :
  Resolve.parse_prediction (Some (Resolve.valueArray
    [Resolve.item (Js.buffer "asset") (Js.buffer "EUR/USD");
     Resolve.item (Js.buffer "prediction") (Js.boolean true);
     Resolve.item (Js.buffer "resolved") (Js.boolean true)]))
    = (true, Sample.parsed_rise) /\
  Resolve.resolved Sample.parsed_rise = Js.boolean true /\
  Resolve.GET (Sample.resolve_env (Sample.oracle_i128 108500000000000)) (Some "p1")
    = Return (Resolve.json_resolved Sample.rise_body) /\
  Resolve.outcome_of (Resolve.json_resolved Sample.rise_body) = Some true /\
  Resolve.error_of (Resolve.json_resolved Sample.rise_body) <> Some "AlreadyResolved".
Proof.
  repeat split; try (vm_compute; reflexivity). discriminate.
Qed.

(** ** The oracle adapter *)

Lemma getLastPrice_fallback (o : Reflector.Oracle) (assetSymbol : string) :
  fetch_fails_or_invalid o ->
  Reflector.getLastPrice o assetSymbol = Return (Reflector.mock o assetSymbol).
Proof.
  unfold Reflector.getLastPrice, Reflector.getLastPrice_try.
  destruct (Reflector.new_Contract o) as [[]|m0]; cbn [bind try_catch]; [|reflexivity].
  intros [[m H]|[H|(cv & H & Hbad)]]; rewrite H; cbn [bind try_catch Reflector.retval];
    try reflexivity.
  destruct (Reflector.parse_price (Reflector.Date_now o) cv) as [price timestamp].
  cbn [fst snd] in Hbad. destruct Hbad as [Hle|[m Ht]].
  - rewrite Hle. reflexivity.
  - destruct (Js.gt price 0); [|reflexivity]. rewrite Ht. reflexivity.
Qed.

(** C2 (amended). For every asset symbol, when the oracle-side fetch fails or
    returns an invalid value, [getLastPrice] signals no error: it returns the
    synthetic price [basePrice * (1 + (random - 0.5) * 0.02)] with the current
    time, the base price being 1.08 for EUR/USD, 45000 for BTC/USD, 2500 for
    ETH/USD and 1 otherwise. It never rejects at all, and the price it
    returns is positive. *)
Theorem C2_getLastPrice_substitutes_mock (o : Reflector.Oracle) (assetSymbol : string) :
  (fetch_fails_or_invalid o ->
   Reflector.getLastPrice o assetSymbol =
     Return {| Reflector.price :=
                 Reflector.generateMockPrice assetSymbol (Reflector.Math_random o);
               Reflector.timestamp := Reflector.Date_now o |}) /\
  (exists data, Reflector.getLastPrice o assetSymbol = Return data) /\
  (forall m, Reflector.getLastPrice o assetSymbol <> Throw m) /\
  (Js.is_random (Reflector.Math_random o) ->
   exists data,
     Reflector.getLastPrice o assetSymbol = Return data /\ (0 < Reflector.price data)%Q).
Proof.
  split; [apply getLastPrice_fallback|].
  assert (Htotal : exists data, Reflector.getLastPrice o assetSymbol = Return data).
  { destruct (getLastPrice_cases o assetSymbol) as [H|[cv [_ H]]]; [eauto|].
    destruct (Reflector.parse_price (Reflector.Date_now o) cv) as [price timestamp].
    destruct H as (_ & _ & H). eauto. }
  split; [exact Htotal|]. split.
  - intros m. destruct Htotal as [data Hd]. rewrite Hd. discriminate.
  - apply getLastPrice_total.
Qed.

Lemma C2_witness :
  Reflector.getLastPrice Sample.oracle_down "EUR/USD" =
    Return {| Reflector.price := Reflector.generateMockPrice "EUR/USD" (1 # 2);
              Reflector.timestamp := inject_Z 1700000000000 |}.
Proof.
  apply (C2_getLastPrice_substitutes_mock Sample.oracle_down "EUR/USD").
  left. exists "fetch failed". reflexivity.
Defined.

(** C2, as stated, fails: with the fetch rejected, and with the oracle
    returning the invalid price 0, the adapter returns a mock price of 1.08
    and no error. *)
Lemma C2_counterexample :
  Reflector.simulateTransaction Sample.oracle_down = Throw "fetch failed" /\
  (exists data,
     Reflector.getLastPrice Sample.oracle_down "EUR/USD" = Return data /\
     (Reflector.price data == 108 # 100)%Q) /\
  ~ (exists m, Reflector.getLastPrice Sample.oracle_down "EUR/USD" = Throw m) /\
  (exists data,
     Reflector.getLastPrice (Sample.oracle_i128 0) "EUR/USD" = Return data /\
     (Reflector.price data == 108 # 100)%Q) /\
  ~ (exists m, Reflector.getLastPrice (Sample.oracle_i128 0) "EUR/USD" = Throw m).
Proof.
  split; [reflexivity|]. split; [|split; [|split]].
  - eexists. split; [vm_compute; reflexivity|]. vm_compute. reflexivity.
  - intros [m H]. vm_compute in H. discriminate H.
  - eexists. split; [vm_compute; reflexivity|]. vm_compute. reflexivity.
  - intros [m H]. vm_compute in H. discriminate H.
Qed.

(** ** The transaction-preparation endpoint *)

Lemma BigInt_value (p : Q) (z : Z) :
  Prepare.BigInt (Some p) = Return z -> (p == inject_Z z)%Q.
Proof.
  unfold Prepare.BigInt. pose proof (Qred_correct p) as Hred.
  destruct (Qred p) as [n d]. cbn [Qnum Qden].
  destruct (Z.pos d =? 1)%Z eqn:E; [|discriminate].
  intros H. injection H as <-. apply Z.eqb_eq in E. injection E as ->.
  symmetry. exact Hred.
Qed.

Lemma BigInt_zero (p : Q) : (p == 0)%Q -> Prepare.BigInt (Some p) = Return 0%Z.
Proof.
  intros H. unfold Prepare.BigInt. rewrite (Qred_complete p 0 H). reflexivity.
Qed.

(** With the balance the handler assumes, the amount is ten million units
    per percent. *)
Lemma stake_amount_kaleBalance (pct : Z) :
  Prepare.stake_amount Prepare.kaleBalance pct = (10000000 * pct)%Z.
Proof.
  unfold Prepare.stake_amount, Prepare.kaleBalance.
  replace (1000000000 * pct)%Z with (10000000 * pct * 100)%Z by lia.
  apply Z.quot_mul. discriminate.
Qed.

(** Bigint division truncates toward zero: the remainder is smaller than the
    divisor and has the sign of the dividend. *)
Lemma stake_amount_truncates (balance pct : Z) :
  exists r,
    (balance * pct = 100 * Prepare.stake_amount balance pct + r)%Z /\
    (Z.abs r < 100)%Z /\ (0 <= r * (balance * pct))%Z.
Proof.
  unfold Prepare.stake_amount. exists (Z.rem (balance * pct) 100).
  split; [apply Z.quot_rem'|]. split.
  - pose proof (Z.rem_bound_abs (balance * pct) 100). lia.
  - apply Z.rem_sign_mul. discriminate.
Qed.

Lemma POST_catch_is_error (m : string) :
  exists status error, Prepare.POST_catch m = Prepare.json_error status error.
Proof.
  unfold Prepare.POST_catch. repeat destruct (Js.includes _ _); eauto.
Qed.

(** The outer [catch] never answers a prepared transaction. *)
Ltac outer_catch H :=
  exfalso; apply Return_inj in H;
  match type of H with
  | Prepare.POST_catch ?m = _ =>
      destruct (POST_catch_is_error m) as (? & ? & E); rewrite E in H; discriminate H
  end.

(** What a prepared transaction tells about the request it answers. *)
Lemma POST_prepared_inv (e : Prepare.Env) request b :
  Prepare.POST e request = Return (Prepare.json_prepared b) ->
  exists body pk team p pct,
    request = Return body /\
    Prepare.publicKey body = Some pk /\
    Prepare.teamName body = Some team /\
    Prepare.prediction body = Some p /\
    Prepare.below_zero (Prepare.stakePercentage body) = false /\
    Prepare.above_hundred (Prepare.stakePercentage body) = false /\
    Prepare.BigInt (Prepare.stakePercentage body) = Return pct /\
    (0 < Prepare.stake_amount Prepare.kaleBalance pct)%Z /\
    Prepare.predictionId b =
      Prepare.make_predictionId team (Prepare.Date_now e) (Prepare.Math_random_toString_36 e) /\
    (Prepare.xdr b =
       Prepare.make_prediction (Prepare.predictionId b) team (Prepare.asset p)
         (Prepare.direction p) (Prepare.stake_amount Prepare.kaleBalance pct) pct pk \/
     Prepare.xdr b = Prepare.form_team team [pk]).
Proof.
  unfold Prepare.POST, Prepare.POST_try.
  destruct request as [body|m]; cbn [bind try_catch]; intros H; [|outer_catch H].
  destruct (Prepare.publicKey body) as [pk|] eqn:Hpk; [|discriminate].
  destruct (Prepare.teamName body) as [team|] eqn:Hteam; [|discriminate].
  destruct (Prepare.prediction body) as [p|] eqn:Hp; [|discriminate].
  destruct (_ || _); [discriminate|].
  destruct (Prepare.Keypair_fromPublicKey e pk) as [[]|m]; [|discriminate].
  destruct (Prepare.below_zero _) eqn:Hb; [discriminate|].
  destruct (Prepare.above_hundred _) eqn:Ha; [discriminate|]. cbn [orb] in H.
  destruct (_ || _); [discriminate|].
  destruct (Prepare.loadAccount e pk) as [[]|m]; [|discriminate].
  destruct (Prepare.new_Contract e (Prepare.DAO_CONTRACT_ID e)) as [[]|m];
    cbn [bind try_catch] in H; [|outer_catch H].
  destruct (Prepare.new_Contract e (Prepare.KALE_CONTRACT_ID e)) as [[]|m];
    cbn [bind try_catch] in H; [|outer_catch H].
  destruct (Prepare.BigInt _) as [pct|m] eqn:Hbig; cbn [bind try_catch] in H;
    [|outer_catch H].
  destruct (_ <=? 0)%Z eqn:Hle; [discriminate|]. apply Z.leb_gt in Hle.
  unfold Prepare.build_operation in H.
  destruct (Prepare.prepareTransaction e _) as [[]|m]; cbn [bind try_catch] in H;
    [|discriminate].
  apply Return_inj in H. injection H as <-.
  exists body, pk, team, p, pct. cbn. repeat split; auto.
  destruct (match Prepare.simulateTransaction e team with
            | Return _ => _ | Throw _ => _ end); auto.
Qed.

Lemma POST_total (e : Prepare.Env) request : exists r, Prepare.POST e request = Return r.
Proof.
  unfold Prepare.POST. destruct (Prepare.POST_try e request); cbn; eauto.
Qed.

(** The balance of the token contract plays no part in the answer. *)
Lemma POST_ignores_balance (e : Prepare.Env) (balance : string -> Z) request :
  Prepare.POST (with_balance e balance) request = Prepare.POST e request.
Proof. reflexivity. Qed.

Lemma POST_percentage_rejected (e : Prepare.Env) body pk team p :
  well_formed e body pk team p ->
  Prepare.below_zero (Prepare.stakePercentage body)
    || Prepare.above_hundred (Prepare.stakePercentage body) = true ->
  Prepare.POST e (Return body) =
    Return (Prepare.json_error 400 "Stake percentage must be between 0 and 100").
Proof.
  intros (Hpk & Hteam & Hp & Hpk' & Hteam' & Hkey) Hout.
  unfold Prepare.POST, Prepare.POST_try. cbn [bind].
  rewrite Hpk, Hteam, Hp, (eqb_false_of_ne _ _ Hpk'), (eqb_false_of_ne _ _ Hteam'), Hkey.
  cbn [orb]. rewrite Hout. reflexivity.
Qed.

(** The answer of a request that passes every check before the amount. *)
Lemma POST_ready (e : Prepare.Env) body pk team p pct :
  ready e body pk team p ->
  Prepare.below_zero (Prepare.stakePercentage body) = false ->
  Prepare.above_hundred (Prepare.stakePercentage body) = false ->
  Prepare.BigInt (Prepare.stakePercentage body) = Return pct ->
  Prepare.POST e (Return body) =
    if (Prepare.stake_amount Prepare.kaleBalance pct <=? 0)%Z
    then Return (Prepare.json_error 400 "Insufficient KALE balance for staking")
    else
      try_catch
        (Prepare.build_operation e pk team p (Prepare.stake_amount Prepare.kaleBalance pct) pct
           (Prepare.make_predictionId team (Prepare.Date_now e)
              (Prepare.Math_random_toString_36 e)))
        (fun m => Return (Prepare.json_error 500 ("Contract operation failed: " ++ m))).
Proof.
  intros ((Hpk & Hteam & Hp & Hpk' & Hteam' & Hkey) & Hdao & Hkale & Hacc & Hc1 & Hc2).
  intros Hb Ha Hbig.
  unfold Prepare.POST, Prepare.POST_try. cbn [bind].
  rewrite Hpk, Hteam, Hp, (eqb_false_of_ne _ _ Hpk'), (eqb_false_of_ne _ _ Hteam'), Hkey.
  cbn [orb]. rewrite Hb, Ha. cbn [orb].
  rewrite (eqb_false_of_ne _ _ Hdao), (eqb_false_of_ne _ _ Hkale). cbn [orb].
  rewrite Hacc, Hc1. cbn [bind]. rewrite Hc2. cbn [bind]. rewrite Hbig. cbn [bind].
  destruct (_ <=? 0)%Z; [reflexivity|].
  destruct (Prepare.build_operation _ _ _ _ _ _ _); reflexivity.
Qed.

Lemma BigInt_integer (q : Q) (z : Z) :
  (q == inject_Z z)%Q -> Prepare.BigInt (Some q) = Return z.
Proof.
  intros H. unfold Prepare.BigInt.
  rewrite (Qred_complete q (inject_Z z) H), inject_Z_Qred. reflexivity.
Qed.

Lemma range_flags (q : Q) (pct : Z) :
  (q == inject_Z pct)%Q ->
  (0 <= pct <= 100)%Z ->
  Prepare.below_zero (Some q) = false /\ Prepare.above_hundred (Some q) = false.
Proof.
  intros Hq [H0 H1]. unfold Prepare.below_zero, Prepare.above_hundred. split.
  - destruct (Js.lt q 0) eqn:E; [|reflexivity].
    apply lt_iff in E. rewrite Hq in E.
    change 0%Q with (inject_Z 0) in E. rewrite <- Zlt_Qlt in E. lia.
  - apply gt_false_iff. rewrite Hq. rewrite <- Zle_Qle. exact H1.
Qed.

(** A percentage in range that is not an integer makes [BigInt] throw, and
    the request is answered by the outer [catch]. *)
Lemma POST_fraction_rejected (e : Prepare.Env) body pk team p m :
  ready e body pk team p ->
  Prepare.below_zero (Prepare.stakePercentage body) = false ->
  Prepare.above_hundred (Prepare.stakePercentage body) = false ->
  Prepare.BigInt (Prepare.stakePercentage body) = Throw m ->
  Prepare.POST e (Return body) = Return (Prepare.POST_catch m).
Proof.
  intros ((Hpk & Hteam & Hp & Hpk' & Hteam' & Hkey) & Hdao & Hkale & Hacc & Hc1 & Hc2).
  intros Hb Ha Hbig.
  unfold Prepare.POST, Prepare.POST_try. cbn [bind].
  rewrite Hpk, Hteam, Hp, (eqb_false_of_ne _ _ Hpk'), (eqb_false_of_ne _ _ Hteam'), Hkey.
  cbn [orb]. rewrite Hb, Ha. cbn [orb].
  rewrite (eqb_false_of_ne _ _ Hdao), (eqb_false_of_ne _ _ Hkale). cbn [orb].
  rewrite Hacc, Hc1. cbn [bind]. rewrite Hc2. cbn [bind]. rewrite Hbig. reflexivity.
Qed.

(** C4 (amended). For every staking call with stake percentage p, the
    staked amount is B * p / 100 in integer arithmetic truncating toward zero,
    where B is the balance of 1,000,000,000 units that the endpoint assumes
    for every user (the balance held by the token contract is not read); the
    call fails with the insufficient-balance error if that amount is not
    positive, and the amount never exceeds B. By the same formula 50% of
    1,000,000 units is 500,000 units. *)
Theorem C4_stake_amount_of_assumed_balance
    (e : Prepare.Env) body pk team p (percentage : Q) (pct : Z) :
  ready e body pk team p ->
  Prepare.stakePercentage body = Some percentage ->
  (percentage == inject_Z pct)%Q ->
  (0 <= pct <= 100)%Z ->
  let amount := Prepare.stake_amount Prepare.kaleBalance pct in
  amount = ((1000000000 * pct) ÷ 100)%Z /\
  (amount <= 0 ->
   Prepare.POST e (Return body) =
     Return (Prepare.json_error 400 "Insufficient KALE balance for staking"))%Z /\
  (0 < amount ->
   Prepare.simulateTransaction e team = Return {| Prepare.has_error := false |} ->
   (forall op, Prepare.prepareTransaction e op = Return tt) ->
   exists b,
     Prepare.POST e (Return body) = Return (Prepare.json_prepared b) /\
     Prepare.xdr b =
       Prepare.make_prediction (Prepare.predictionId b) team (Prepare.asset p)
         (Prepare.direction p) amount pct pk)%Z /\
  (amount <= 1000000000)%Z /\
  (forall balance q, exists r,
     balance * q = 100 * Prepare.stake_amount balance q + r /\
     Z.abs r < 100 /\ 0 <= r * (balance * q))%Z /\
  (forall balance, Prepare.POST (with_balance e balance) (Return body)
                   = Prepare.POST e (Return body)) /\
  Prepare.stake_amount 1000000 50 = 500000%Z.
Proof.
  intros Hready Hpct Hq Hrange amount.
  destruct (range_flags percentage pct Hq Hrange) as [Hb Ha].
  pose proof (POST_ready e body pk team p pct Hready) as HP.
  rewrite Hpct in HP. specialize (HP Hb Ha (BigInt_integer percentage pct Hq)).
  fold amount in HP.
  pose proof (stake_amount_kaleBalance pct) as Hten. fold amount in Hten.
  split; [reflexivity|]. split; [|split; [|split; [|split; [|split]]]].
  - intros Hle. rewrite HP. apply Z.leb_le in Hle. rewrite Hle. reflexivity.
  - intros Hpos Hsim Hprep. rewrite HP. apply Z.leb_gt in Hpos. rewrite Hpos.
    unfold Prepare.build_operation. rewrite Hsim, Hprep. cbn.
    eexists. split; reflexivity.
  - lia.
  - apply stake_amount_truncates.
  - intros balance. reflexivity.
  - reflexivity.
Qed.

Lemma C4_witness :
  exists b,
    Prepare.POST (Sample.prepare_env 1700000000000 "0.4fzyo82mvyr" true)
      (Return (Sample.request (inject_Z 50))) = Return (Prepare.json_prepared b) /\
    Prepare.xdr b =
      Prepare.make_prediction (Prepare.predictionId b) "alpha" "EUR/USD" true
        500000000 50 "GALICE".
Proof.
  assert (Hready : ready (Sample.prepare_env 1700000000000 "0.4fzyo82mvyr" true)
                     (Sample.request (inject_Z 50)) "GALICE" "alpha"
                     {| Prepare.asset := "EUR/USD"; Prepare.direction := true |})
    by (repeat split; cbn; congruence).
  assert (Hrange : (0 <= 50 <= 100)%Z) by lia.
  destruct (C4_stake_amount_of_assumed_balance _ _ _ _ _ (inject_Z 50) 50%Z
              Hready eq_refl (Qeq_refl _) Hrange)
    as (_ & _ & H & _).
  apply H; [reflexivity|reflexivity|reflexivity].
Defined.

(** C4, as stated, fails: a user whose token balance is 1,000,000 units and who
    stakes 50% is not committed for 500,000 units but for 500,000,000, more
    than the balance, and the call does not fail. *)
Lemma C4_counterexample :
  let e := Sample.prepare_env 1700000000000 "0.4fzyo82mvyr" true in
  Prepare.kale_balance e "GALICE" = 1000000%Z /\
  Prepare.stake_amount (Prepare.kale_balance e "GALICE") 50 = 500000%Z /\
  Prepare.POST e (Return (Sample.request (inject_Z 50))) =
    Return (Prepare.json_prepared
      {| Prepare.xdr :=
           Prepare.make_prediction "alpha_1700000000000_82mvyr" "alpha" "EUR/USD" true
             500000000 50 "GALICE";
         Prepare.networkPassphrase := "Test SDF Network ; September 2015";
         Prepare.predictionId := "alpha_1700000000000_82mvyr";
         Prepare.operationType := "make_prediction" |}) /\
  (500000000 <> 500000)%Z /\
  (500000000 > Prepare.kale_balance e "GALICE")%Z.
Proof.
  repeat split; try (vm_compute; reflexivity). lia.
Qed.

(** C5 (amended). A stake percentage below 0 or above 100 is rejected with the
    invalid-percentage error; exactly 0 passes that check and is rejected by
    the amount check with the insufficient-balance error. In no case is the
    value clamped into range: for every percentage outside (0, 100] the
    answer is an error and no transaction is prepared. *)
Theorem C5_out_of_range_percentage_is_rejected
    (e : Prepare.Env) (body : Prepare.PrepareTransactionRequest) (percentage : Q) :
  Prepare.stakePercentage body = Some percentage ->
  ~ (0 < percentage /\ percentage <= inject_Z 100)%Q ->
  (exists status error,
     Prepare.POST e (Return body) = Return (Prepare.json_error status error)) /\
  (forall pk team p,
     well_formed e body pk team p ->
     (percentage < 0 \/ inject_Z 100 < percentage)%Q ->
     Prepare.POST e (Return body) =
       Return (Prepare.json_error 400 "Stake percentage must be between 0 and 100")) /\
  (forall pk team p,
     ready e body pk team p ->
     (percentage == 0)%Q ->
     Prepare.POST e (Return body) =
       Return (Prepare.json_error 400 "Insufficient KALE balance for staking")).
Proof.
  intros Hpct Hout. split; [|split].
  - destruct (POST_total e (Return body)) as ([status error|b] & Hr); [eauto|].
    exfalso. apply Hout.
    destruct (POST_prepared_inv e _ b Hr)
      as (body' & pk & team & p & pct & Hbody & _ & _ & _ & Hb & Ha & Hbig & Hpos & _).
    injection Hbody as <-. rewrite Hpct in Hb, Ha, Hbig.
    apply BigInt_value in Hbig. rewrite stake_amount_kaleBalance in Hpos.
    cbn in Ha. apply gt_false_iff in Ha. split; [|exact Ha].
    rewrite Hbig. change 0%Q with (inject_Z 0). rewrite <- Zlt_Qlt. lia.
  - intros pk team p Hwf Hside. apply (POST_percentage_rejected e body pk team p Hwf).
    rewrite Hpct. cbn. destruct Hside as [H|H].
    + apply lt_iff in H. rewrite H. reflexivity.
    + apply gt_iff in H. rewrite H. apply orb_true_r.
  - intros pk team p Hready Hzero.
    rewrite (POST_ready e body pk team p 0%Z Hready).
    + reflexivity.
    + rewrite Hpct. cbn. destruct (Js.lt percentage 0) eqn:E; [|reflexivity].
      apply lt_iff in E. rewrite Hzero in E. discriminate E.
    + rewrite Hpct. cbn. apply gt_false_iff. rewrite Hzero. discriminate.
    + rewrite Hpct. now apply BigInt_zero.
Qed.

Lemma C5_witness :
  Prepare.POST (Sample.prepare_env 1700000000000 "0.4fzyo82mvyr" true)
    (Return (Sample.request (inject_Z 101))) =
    Return (Prepare.json_error 400 "Stake percentage must be between 0 and 100").
Proof.
  assert (Hout : ~ (0 < inject_Z 101 /\ inject_Z 101 <= inject_Z 100)%Q)
    by (intros [_ H]; vm_compute in H; congruence).
  destruct (C5_out_of_range_percentage_is_rejected
              (Sample.prepare_env 1700000000000 "0.4fzyo82mvyr" true)
              (Sample.request (inject_Z 101)) (inject_Z 101) eq_refl Hout) as (_ & H & _).
  apply (H "GALICE" "alpha" {| Prepare.asset := "EUR/USD"; Prepare.direction := true |}).
  - repeat split; cbn; congruence.
  - right. reflexivity.
Defined.

(** C5, as stated, fails at exactly 0: the request is rejected, but with the
    insufficient-balance error, not with the invalid-percentage one. *)
Lemma C5_counterexample :
  Prepare.POST (Sample.prepare_env 1700000000000 "0.4fzyo82mvyr" true)
    (Return (Sample.request 0)) =
    Return (Prepare.json_error 400 "Insufficient KALE balance for staking") /\
  Prepare.POST (Sample.prepare_env 1700000000000 "0.4fzyo82mvyr" true)
    (Return (Sample.request 0)) <>
    Return (Prepare.json_error 400 "Stake percentage must be between 0 and 100").
Proof.
  split; [vm_compute; reflexivity|]. vm_compute. discriminate.
Qed.

(** ** Prediction identifiers *)

Lemma append_nil (s : string) : EmptyString ++ s = s.
Proof. reflexivity. Qed.

Lemma append_cons (c : ascii) (a s : string) : String c a ++ s = String c (a ++ s).
Proof. reflexivity. Qed.

Ltac unfold_append := rewrite ?append_cons, ?append_nil.
Ltac unfold_append_in H := rewrite ?append_cons, ?append_nil in H.

Lemma append_assoc (a b c : string) : (a ++ b) ++ c = a ++ (b ++ c).
Proof.
  induction a as [|x a IH]; unfold_append; [reflexivity|]. now rewrite IH.
Qed.

Lemma forall_chars_append (f : ascii -> bool) (a b : string) :
  forall_chars f (a ++ b) = forall_chars f a && forall_chars f b.
Proof.
  induction a as [|x a IH]; unfold_append; [reflexivity|].
  cbn [forall_chars]. rewrite IH. apply andb_assoc.
Qed.

Lemma forall_chars_weaken (f g : ascii -> bool) (s : string) :
  (forall c, f c = true -> g c = true) ->
  forall_chars f s = true -> forall_chars g s = true.
Proof.
  intros Hfg. induction s as [|c s IH]; cbn; [reflexivity|].
  intros H. apply andb_true_iff in H as [Hc Hs]. rewrite (Hfg c Hc). cbn. auto.
Qed.

Lemma forall_chars_substring_from (f : ascii -> bool) (n : nat) (s : string) :
  forall_chars f s = true -> forall_chars f (Prepare.substring_from n s) = true.
Proof.
  revert s. induction n as [|n IH]; intros [|c s]; cbn; auto.
  intros H. apply andb_true_iff in H as [_ Hs]. auto.
Qed.

Lemma base36_char_not_underscore (c : ascii) :
  is_base36_char c = true -> not_underscore c = true.
Proof.
  unfold not_underscore. destruct (Ascii.eqb c "_") eqn:E; [|reflexivity].
  apply Ascii.eqb_eq in E. subst c. vm_compute. congruence.
Qed.

Lemma suffix_no_underscore (random_36 : string) :
  is_base36 random_36 = true ->
  no_underscore (Prepare.substring_from 7 random_36) = true.
Proof.
  intros H. apply forall_chars_substring_from.
  exact (forall_chars_weaken _ _ _ base36_char_not_underscore H).
Qed.

Lemma string_of_uint_no_underscore (d : Decimal.uint) :
  no_underscore (NilEmpty.string_of_uint d) = true.
Proof. induction d; cbn; auto. Qed.

Lemma decimal_no_underscore (n : N) : no_underscore (Prepare.decimal n) = true.
Proof.
  unfold Prepare.decimal, NilZero.string_of_uint.
  destruct (N.to_uint n); try apply string_of_uint_no_underscore. reflexivity.
Qed.

Lemma to_uint_nonnil (n : N) : N.to_uint n <> Decimal.Nil.
Proof.
  destruct n as [|p]; [discriminate|]. apply DecimalPos.Unsigned.to_uint_nonnil.
Qed.

Lemma decimal_inj (a b : N) : Prepare.decimal a = Prepare.decimal b -> a = b.
Proof.
  unfold Prepare.decimal. intros H.
  apply DecimalN.Unsigned.to_uint_inj.
  pose proof (NilZero.usu _ (to_uint_nonnil a)) as Ha.
  pose proof (NilZero.usu _ (to_uint_nonnil b)) as Hb.
  rewrite H in Ha. congruence.
Qed.

(** Two strings cut at their last underscore are equal part by part. *)
Lemma split_at_last_underscore (a b x y : string) :
  no_underscore x = true -> no_underscore y = true ->
  a ++ "_" ++ x = b ++ "_" ++ y -> a = b /\ x = y.
Proof.
  intros Hx Hy. revert b.
  induction a as [|c a IH]; intros [|c' b] H; unfold_append_in H.
  - injection H as ->. auto.
  - injection H as <- ->. exfalso. unfold no_underscore in Hx.
    rewrite forall_chars_append in Hx. cbn in Hx.
    rewrite andb_false_r in Hx. discriminate.
  - injection H as -> <-. exfalso. unfold no_underscore in Hy.
    rewrite forall_chars_append in Hy. cbn in Hy.
    rewrite andb_false_r in Hy. discriminate.
  - injection H as -> H. destruct (IH b H) as [-> ->]. auto.
Qed.

Lemma make_predictionId_inj (team1 team2 : string) (now1 now2 : N) (r1 r2 : string) :
  no_underscore (Prepare.substring_from 7 r1) = true ->
  no_underscore (Prepare.substring_from 7 r2) = true ->
  Prepare.make_predictionId team1 now1 r1 = Prepare.make_predictionId team2 now2 r2 ->
  team1 = team2 /\ now1 = now2 /\ Prepare.substring_from 7 r1 = Prepare.substring_from 7 r2.
Proof.
  intros H1 H2 H. unfold Prepare.make_predictionId in H.
  assert (Hre : forall t d x, t ++ "_" ++ d ++ "_" ++ x = (t ++ "_" ++ d) ++ "_" ++ x).
  { intros t d x. rewrite (append_assoc t), (append_assoc "_" d). reflexivity. }
  rewrite !Hre in H.
  destruct (split_at_last_underscore _ _ _ _ H1 H2 H) as [H' Hs].
  destruct (split_at_last_underscore _ _ _ _
              (decimal_no_underscore now1) (decimal_no_underscore now2) H') as [Ht Hd].
  auto using decimal_inj.
Qed.

(** ** The registry *)

(** No entry point removes a prediction. *)
Lemma exec_keeps_predictions (st : Dao.State) (c : Dao.Call) (id : string) :
  is_Some (Dao.predictions st !! id) -> is_Some (Dao.predictions (Dao.exec st c) !! id).
Proof.
  intros Hid. unfold Dao.exec.
  destruct (Dao.call c st) as [err|st'] eqn:Hcall; [exact Hid|].
  destruct c as [team ms|id' team a d amount pct who now|id' cur ref]; cbn in Hcall.
  - unfold Dao.form_team in Hcall.
    destruct (Dao.teams st !! team); [discriminate|].
    destruct (existsb _ _); [discriminate|]. injection Hcall as <-. exact Hid.
  - unfold Dao.make_prediction in Hcall.
    destruct (Dao.predictions st !! id'); [discriminate|].
    destruct (Dao.teams st !! team); [|discriminate].
    destruct (negb _); [discriminate|]. destruct (negb _); [discriminate|].
    injection Hcall as <-. cbn. apply lookup_insert_is_Some'. now right.
  - unfold Dao.resolve_prediction in Hcall.
    destruct (Dao.predictions st !! id'); [|discriminate].
    destruct (Dao.resolved _); [discriminate|].
    destruct (Dao.valid_price cur); [|discriminate].
    destruct (Dao.valid_price ref); [|discriminate].
    injection Hcall as <-. cbn. apply lookup_insert_is_Some'. now right.
Qed.

Lemma run_keeps_predictions (calls : list Dao.Call) (st : Dao.State) (id : string) :
  is_Some (Dao.predictions st !! id) ->
  is_Some (Dao.predictions (Dao.run calls st) !! id).
Proof.
  revert st. induction calls as [|c calls IH]; intros st H; [exact H|].
  cbn. apply IH. now apply exec_keeps_predictions.
Qed.

Lemma make_prediction_records (id team a : string) d amount pct who now st st' :
  Dao.make_prediction id team a d amount pct who now st = inr st' ->
  is_Some (Dao.predictions st' !! id).
Proof.
  unfold Dao.make_prediction.
  destruct (Dao.predictions st !! id); [discriminate|].
  destruct (Dao.teams st !! team); [|discriminate].
  destruct (negb _); [discriminate|]. destruct (negb _); [discriminate|].
  intros H. injection H as <-. cbn. rewrite lookup_insert_eq. eauto.
Qed.

(** The id is made of the team, the time and what is kept of the random
    string, and of nothing else: two requests get the same id exactly when
    they agree on the three. *)
Lemma predictionId_same_iff_same_parts
    (team1 team2 : string) (now1 now2 : N) (random1 random2 : string) :
  is_base36 random1 = true ->
  is_base36 random2 = true ->
  (Prepare.make_predictionId team1 now1 random1
     = Prepare.make_predictionId team2 now2 random2
   <-> team1 = team2 /\ now1 = now2 /\
       Prepare.substring_from 7 random1 = Prepare.substring_from 7 random2).
Proof.
  intros H1 H2. split.
  - apply make_predictionId_inj; now apply suffix_no_underscore.
  - intros (-> & -> & Hs). unfold Prepare.make_predictionId. now rewrite Hs.
Qed.

(** In the registry as the spec describes it, an id that has been recorded
    is refused ever after. *)
Lemma recorded_id_is_refused id team a d amount pct who now st st' :
  Dao.make_prediction id team a d amount pct who now st = inr st' ->
  forall calls team' a' d' amount' pct' who' now',
    Dao.make_prediction id team' a' d' amount' pct' who' now' (Dao.run calls st')
      = inl Dao.PredictionExists.
Proof.
  intros Hmade calls team' a' d' amount' pct' who' now'.
  pose proof (make_prediction_records _ _ _ _ _ _ _ _ _ _ Hmade) as Hused.
  destruct (run_keeps_predictions calls st' id Hused) as [p Hp].
  unfold Dao.make_prediction. rewrite Hp. reflexivity.
Qed.

(** C8. The ids the endpoint derives are not collision-free: two requests of
    team [alpha] handled in the same millisecond, whose draws of
    [Math.random()] are 0.5 and 0.25, get the same id. The draws render as
    [0.i] and [0.9] in base 36, of which [substring(7)] keeps nothing. *)
Theorem C8_two_requests_one_id :
  "0.i" <> "0.9" /\
  exists b1 b2,
    Prepare.POST (Sample.prepare_env 1700000000000 "0.i" true)
      (Return (Sample.request (inject_Z 50))) = Return (Prepare.json_prepared b1) /\
    Prepare.POST (Sample.prepare_env 1700000000000 "0.9" true)
      (Return (Sample.request (inject_Z 25))) = Return (Prepare.json_prepared b2) /\
    Prepare.predictionId b1 = "alpha_1700000000000_" /\
    Prepare.predictionId b2 = "alpha_1700000000000_".
Proof.
  split; [discriminate|].
  eexists. eexists. split; [vm_compute; reflexivity|].
  split; [vm_compute; reflexivity|]. split; reflexivity.
Qed.

Lemma lookup_index_after_form (team : string) (ms : list string)
    (index : gmap string string) (a : string) :
  foldr (fun m idx => <[m := team]> idx) index ms !! a =
    if in_dec string_dec a ms then Some team else index !! a.
Proof.
  induction ms as [|m ms IH]; cbn [foldr]; [reflexivity|].
  destruct (decide (m = a)) as [->|Hne].
  - rewrite lookup_insert_eq.
    destruct (in_dec string_dec a (a :: ms)) as [|Hn]; [reflexivity|].
    exfalso. apply Hn. now left.
  - rewrite lookup_insert_ne by exact Hne. rewrite IH.
    destruct (in_dec string_dec a ms) as [Hin|Hnin];
      destruct (in_dec string_dec a (m :: ms)) as [Hin'|Hnin']; try reflexivity.
    + exfalso. apply Hnin'. now right.
    + exfalso. destruct Hin' as [->|Hin']; [now apply Hne|now apply Hnin].
Qed.

Lemma existsb_has_membership_false (st : Dao.State) (ms : list string) (a : string) :
  existsb (Dao.has_membership st) ms = false -> In a ms -> Dao.user_teams st !! a = None.
Proof.
  intros H Hin. destruct (Dao.user_teams st !! a) eqn:E; [|reflexivity].
  assert (Hex : existsb (Dao.has_membership st) ms = true).
  { apply existsb_exists. exists a. split; [exact Hin|].
    unfold Dao.has_membership. now rewrite E. }
  congruence.
Qed.

Lemma form_team_consistent (team : string) (ms : list string) (st st' : Dao.State) :
  Dao.consistent st -> Dao.form_team team ms st = inr st' -> Dao.consistent st'.
Proof.
  intros Hc. unfold Dao.form_team.
  destruct (Dao.teams st !! team) eqn:Hteam; [discriminate|].
  destruct (existsb _ _) eqn:Hex; [discriminate|].
  intros H. injection H as <-. intros a t. cbn [Dao.user_teams Dao.teams].
  rewrite lookup_index_after_form. destruct (in_dec string_dec a ms) as [Hin|Hnin].
  - split.
    + intros H. injection H as <-. rewrite lookup_insert_eq. eauto.
    + intros (T & HT & Ha). destruct (decide (team = t)) as [->|Hne]; [reflexivity|].
      rewrite lookup_insert_ne in HT by exact Hne.
      assert (Hold : Dao.user_teams st !! a = Some t) by (apply Hc; eauto).
      rewrite (existsb_has_membership_false st ms a Hex Hin) in Hold. discriminate.
  - split.
    + intros H. destruct (proj1 (Hc a t) H) as (T & HT & Ha).
      exists T. split; [|exact Ha]. rewrite lookup_insert_ne; [exact HT|].
      intros ->. congruence.
    + intros (T & HT & Ha). destruct (decide (team = t)) as [->|Hne].
      * rewrite lookup_insert_eq in HT. injection HT as <-. cbn in Ha. contradiction.
      * rewrite lookup_insert_ne in HT by exact Hne. apply Hc. eauto.
Qed.

Lemma exec_consistent (st : Dao.State) (c : Dao.Call) :
  Dao.consistent st -> Dao.consistent (Dao.exec st c).
Proof.
  intros Hc. unfold Dao.exec.
  destruct (Dao.call c st) as [err|st'] eqn:Hcall; [exact Hc|].
  destruct c as [team ms|id team a d amount pct who now|id cur ref]; cbn in Hcall.
  - eapply form_team_consistent; eauto.
  - unfold Dao.make_prediction in Hcall.
    destruct (Dao.predictions st !! id); [discriminate|].
    destruct (Dao.teams st !! team); [|discriminate].
    destruct (negb _); [discriminate|]. destruct (negb _); [discriminate|].
    injection Hcall as <-. exact Hc.
  - unfold Dao.resolve_prediction in Hcall.
    destruct (Dao.predictions st !! id); [|discriminate].
    destruct (Dao.resolved _); [discriminate|].
    destruct (Dao.valid_price cur); [|discriminate].
    destruct (Dao.valid_price ref); [|discriminate].
    injection Hcall as <-. exact Hc.
Qed.

Lemma run_consistent (calls : list Dao.Call) (st : Dao.State) :
  Dao.consistent st -> Dao.consistent (Dao.run calls st).
Proof.
  revert st. induction calls as [|c calls IH]; intros st H; [exact H|].
  cbn. apply IH. now apply exec_consistent.
Qed.

Lemma empty_consistent : Dao.consistent Dao.empty.
Proof.
  intros a t. cbn. rewrite lookup_empty. split; [discriminate|].
  intros (T & HT & _). rewrite lookup_empty in HT. discriminate.
Qed.

Lemma consistent_one_team (st : Dao.State) :
  Dao.consistent st -> Dao.one_team_per_address st.
Proof.
  intros Hc a n1 n2 T1 T2 H1 Ha1 H2 Ha2.
  assert (E1 : Dao.user_teams st !! a = Some n1) by (apply Hc; eauto).
  assert (E2 : Dao.user_teams st !! a = Some n2) by (apply Hc; eauto).
  congruence.
Qed.

Lemma submit_all_is_run (ops : list Teams.Operation) (st : Dao.State) :
  Chain.submit_all ops st =
    Dao.run (map (fun op => match op with
                            | Teams.form_team team ms => Dao.FormTeam team ms
                            end) ops) st.
Proof.
  revert st. induction ops as [|[team ms] ops IH]; intros st; [reflexivity|].
  cbn. apply IH.
Qed.

(** Both team routes refuse an address that the simulation shows in a team. *)
Lemma member_is_refused (e : Teams.Env) (pk team message : string) r :
  Teams.get_user_team e pk = Return r -> Teams.non_void r = true ->
  Teams.check_user_and_prepare e pk team message = Return Teams.already_member.
Proof.
  intros Hr Hnv. unfold Teams.check_user_and_prepare. now rewrite Hr, Hnv.
Qed.

(** C7. After every sequence of calls, successful or failed, the membership
    index says exactly what the member lists of the teams say, and no address
    is a member of two teams (the index itself, a map, gives an address at
    most one team); so it is after the transactions of the team routes,
    which themselves refuse an address that is shown to have a team. *)
Theorem C7_one_team_per_address (calls : list Dao.Call) :
  Dao.consistent (Dao.run calls Dao.empty) /\
  Dao.one_team_per_address (Dao.run calls Dao.empty) /\
  (forall address team1 team2,
     Dao.get_user_team (Dao.run calls Dao.empty) address = Some team1 ->
     Dao.get_user_team (Dao.run calls Dao.empty) address = Some team2 ->
     team1 = team2) /\
  (forall ops,
     Dao.consistent (Chain.submit_all ops (Dao.run calls Dao.empty)) /\
     Dao.one_team_per_address (Chain.submit_all ops (Dao.run calls Dao.empty))) /\
  (forall e pk team message r,
     Teams.get_user_team e pk = Return r -> Teams.non_void r = true ->
     Teams.check_user_and_prepare e pk team message = Return Teams.already_member).
Proof.
  pose proof (run_consistent calls Dao.empty empty_consistent) as Hc.
  split; [exact Hc|]. split; [now apply consistent_one_team|].
  split; [|split; [|apply member_is_refused]].
  - intros a t1 t2 H1 H2. congruence.
  - intros ops. rewrite submit_all_is_run.
    match goal with |- Dao.consistent (Dao.run ?cs ?st) /\ _ =>
      pose proof (run_consistent cs st Hc) as Hc' end.
    split; [exact Hc'|]. apply consistent_one_team. exact Hc'.
Qed.

Lemma C7_witness :
  let st := Dao.run [Dao.FormTeam "alpha" ["GM"]; Dao.FormTeam "beta" ["GM"; "GN"]] Dao.empty in
  Dao.get_user_team st "GM" = Some "alpha" /\
  Dao.get_user_team st "GN" = None /\
  Dao.one_team_per_address st /\
  Teams.check_user_and_prepare (Chain.team_env st) "GM" "beta" "Join team"
    = Return Teams.already_member.
Proof.
  intros st.
  destruct (C7_one_team_per_address
              [Dao.FormTeam "alpha" ["GM"]; Dao.FormTeam "beta" ["GM"; "GN"]])
    as (_ & Hone & _ & _ & Hroute).
  split; [vm_compute; reflexivity|]. split; [vm_compute; reflexivity|].
  split; [exact Hone|].
  apply (Hroute (Chain.team_env st) "GM" "beta" "Join team"
           {| Teams.switch_name := Some "scvString" |}); vm_compute; reflexivity.
Defined.

Lemma form_team_taken (st : Dao.State) (team : string) (ms : list string) :
  is_Some (Dao.teams st !! team) -> Dao.form_team team ms st = inl Dao.TeamAlreadyExists.
Proof. intros [t Ht]. unfold Dao.form_team. now rewrite Ht. Qed.

Lemma form_team_member_mapped (st : Dao.State) (team : string) (ms : list string) :
  Dao.teams st !! team = None ->
  (exists m, In m ms /\ is_Some (Dao.user_teams st !! m)) ->
  Dao.form_team team ms st = inl Dao.AlreadyInTeam.
Proof.
  intros Hfree (m & Hin & [t Ht]). unfold Dao.form_team. rewrite Hfree.
  assert (Hex : existsb (Dao.has_membership st) ms = true).
  { apply existsb_exists. exists m. split; [exact Hin|].
    unfold Dao.has_membership. now rewrite Ht. }
  now rewrite Hex.
Qed.

(** The transaction the join route prepares is a [form_team] on the name it
    was asked to join: on a registry where that team exists, it is rejected. *)
Lemma join_is_rejected_by_form_team (e : Teams.Env) pk name b (st : Dao.State) :
  Teams.join e pk name = Return (Teams.json_prepared b) ->
  is_Some (Dao.teams st !! Teams.teamName b) ->
  Chain.submit (Teams.xdr b) st = inl Dao.TeamAlreadyExists.
Proof.
  unfold Teams.join. destruct (_ || _); cbn [try_catch]; [discriminate|].
  destruct (Teams.Keypair_fromPublicKey e _) as [[]|m]; [|discriminate].
  destruct (String.eqb _ _); [discriminate|].
  destruct (Teams.loadAccount e _) as [[]|m]; [|discriminate].
  destruct (Teams.new_Contract e) as [[]|m]; cbn [bind try_catch]; [|discriminate].
  destruct (Teams.get_team e _) as [r|m]; [|discriminate].
  destruct (Teams.is_void r); [discriminate|].
  unfold Teams.check_user_and_prepare.
  destruct (match Teams.get_user_team e _ with Return _ => _ | Throw _ => _ end);
    [discriminate|].
  destruct (Teams.prepareTransaction e _) as [[]|m]; cbn [bind try_catch]; [|discriminate].
  intros H. apply Return_inj in H. injection H as <-. cbn.
  apply form_team_taken.
Qed.

Lemma create_validated_runs (e : Teams.Env) (pk name : string) :
  create_validated e pk name ->
  Teams.create e (Some pk) (Some name) =
    try_catch
      (if match Teams.get_team e (Teams.trim name) with
          | Return teamResult => Teams.non_void teamResult
          | Throw _ => false
          end
       then Return (Teams.json_error 400
              ("Team " ++ Teams.quoted (Teams.trim name) ++
               " already exists. Please choose a different name or join the existing team."))
       else Teams.check_user_and_prepare e pk (Teams.trim name)
              ("Team " ++ Teams.quoted (Teams.trim name) ++ " creation transaction prepared"))
      (fun m => Return (Teams.json_error 500 ("Team creation failed: " ++ m))).
Proof.
  intros (Hpk & Hname & [Hlo Hhi] & Hkey & Hdao & Hacc & Hc).
  assert (Hlen : (String.length (Teams.trim name) <? 2)%nat
                 || (32 <? String.length (Teams.trim name))%nat = false).
  { apply orb_false_iff. split; apply Nat.ltb_ge; lia. }
  unfold Teams.create. cbn [Js.missing default from_option id].
  rewrite (eqb_false_of_ne _ _ Hpk), (eqb_false_of_ne _ _ Hname). cbn [orb]. cbv zeta.
  rewrite Hlen, Hkey, (eqb_false_of_ne _ _ Hdao), Hacc, Hc. reflexivity.
Qed.

(** The create route answers with its two errors when the simulations show a
    taken name or an address that has a team. *)
Lemma create_rejections (e : Teams.Env) (pk name : string) :
  create_validated e pk name ->
  (forall r, Teams.get_team e (Teams.trim name) = Return r -> Teams.non_void r = true ->
     Teams.create e (Some pk) (Some name) =
       Return (Teams.json_error 400
         ("Team " ++ Teams.quoted (Teams.trim name) ++
          " already exists. Please choose a different name or join the existing team."))) /\
  (forall r r', Teams.get_team e (Teams.trim name) = Return r -> Teams.non_void r = false ->
     Teams.get_user_team e pk = Return r' -> Teams.non_void r' = true ->
     Teams.create e (Some pk) (Some name) = Return Teams.already_member).
Proof.
  intros Hv. rewrite (create_validated_runs e pk name Hv). split.
  - intros r Hr Hnv. rewrite Hr, Hnv. reflexivity.
  - intros r r' Hr Hnv Hr' Hnv'. rewrite Hr, Hnv.
    unfold Teams.check_user_and_prepare. rewrite Hr', Hnv'. reflexivity.
Qed.

(** The two checks of the create route fail open: when both simulations are
    rejected the route prepares the [form_team] transaction all the same, and
    the contract is left to refuse it. *)
Lemma create_fails_open (e : Teams.Env) (pk name : string) m m' :
  create_validated e pk name ->
  Teams.get_team e (Teams.trim name) = Throw m ->
  Teams.get_user_team e pk = Throw m' ->
  Teams.prepareTransaction e (Teams.form_team (Teams.trim name) [pk]) = Return tt ->
  exists b,
    Teams.create e (Some pk) (Some name) = Return (Teams.json_prepared b) /\
    Teams.xdr b = Teams.form_team (Teams.trim name) [pk].
Proof.
  intros Hv Ht Hu Hp. rewrite (create_validated_runs e pk name Hv), Ht.
  unfold Teams.check_user_and_prepare. rewrite Hu, Hp. cbn. eauto.
Qed.

(** The contract as the spec describes it resolves a prediction once: after a
    successful [resolve_prediction] a second one fails with [AlreadyResolved]
    and changes nothing. The resolution endpoint does not call it. *)
Lemma resolve_prediction_once (id : string) (cur ref cur' ref' : option Z)
    (st st' : Dao.State) :
  Dao.resolve_prediction id cur ref st = inr st' ->
  Dao.resolve_prediction id cur' ref' st' = inl Dao.AlreadyResolved /\
  Dao.exec st' (Dao.ResolvePrediction id cur' ref') = st'.
Proof.
  unfold Dao.resolve_prediction at 1.
  destruct (Dao.predictions st !! id) as [p|]; [|discriminate].
  destruct (Dao.resolved p); [discriminate|].
  destruct (Dao.valid_price cur) as [current_price|]; [|discriminate].
  destruct (Dao.valid_price ref) as [reference_price|]; [|discriminate].
  intros H. injection H as <-.
  assert (Hfail : forall s, Dao.predictions s !! id =
            Some {| Dao.team_name := Dao.team_name p; Dao.asset := Dao.asset p;
                    Dao.prediction := Dao.prediction p;
                    Dao.stake_amount := Dao.stake_amount p;
                    Dao.stake_percentage := Dao.stake_percentage p;
                    Dao.predictor := Dao.predictor p; Dao.timestamp := Dao.timestamp p;
                    Dao.resolved := true;
                    Dao.outcome :=
                      Some (Bool.eqb (Dao.prediction p)
                              (reference_price <? current_price)%Z) |} ->
            Dao.resolve_prediction id cur' ref' s = inl Dao.AlreadyResolved).
  { intros s Hs. unfold Dao.resolve_prediction. rewrite Hs. reflexivity. }
  split.
  - apply Hfail. cbn. apply lookup_insert_eq.
  - unfold Dao.exec. cbn [Dao.call]. rewrite Hfail; [reflexivity|].
    cbn. apply lookup_insert_eq.
Qed.

(** C6. [form_team] fails with [TeamAlreadyExists] whenever the name is taken
    and, the name being free, with [AlreadyInTeam] whenever a listed member
    has a membership mapping; a failed call leaves the registry as it was.
    An address mapped to team alpha that forms team beta fails with
    [AlreadyInTeam], beta is not created, and the create route already
    answers that request with its already-a-member error: in front of the
    contract, the route answers a taken name and an address that has a team
    with its two errors and prepares nothing. *)
Theorem C6_form_team_fails_and_creates_nothing
    (st : Dao.State) (team : string) (ms : list string) :
  (is_Some (Dao.teams st !! team) ->
   Dao.form_team team ms st = inl Dao.TeamAlreadyExists) /\
  (Dao.teams st !! team = None ->
   (exists m, In m ms /\ is_Some (Dao.user_teams st !! m)) ->
   Dao.form_team team ms st = inl Dao.AlreadyInTeam) /\
  (forall error, Dao.form_team team ms st = inl error ->
     Dao.exec st (Dao.FormTeam team ms) = st) /\
  (forall address,
     Dao.user_teams st !! address = Some "alpha" ->
     Dao.teams st !! "beta" = None ->
     Dao.form_team "beta" [address] st = inl Dao.AlreadyInTeam /\
     Dao.teams (Dao.exec st (Dao.FormTeam "beta" [address])) !! "beta" = None /\
     (address <> EmptyString ->
      Teams.create (Chain.team_env st) (Some address) (Some "beta")
        = Return Teams.already_member)) /\
  (forall e pk name,
     create_validated e pk name ->
     (forall r, Teams.get_team e (Teams.trim name) = Return r -> Teams.non_void r = true ->
        Teams.create e (Some pk) (Some name) =
          Return (Teams.json_error 400
            ("Team " ++ Teams.quoted (Teams.trim name) ++
             " already exists. Please choose a different name or join the existing team."))) /\
     (forall r r', Teams.get_team e (Teams.trim name) = Return r -> Teams.non_void r = false ->
        Teams.get_user_team e pk = Return r' -> Teams.non_void r' = true ->
        Teams.create e (Some pk) (Some name) = Return Teams.already_member)).
Proof.
  split; [apply form_team_taken|]. split; [apply form_team_member_mapped|].
  split; [|split; [|apply create_rejections]].
  - intros error H. unfold Dao.exec. cbn. now rewrite H.
  - intros a Ha Hbeta.
    assert (Hfail : Dao.form_team "beta" [a] st = inl Dao.AlreadyInTeam).
    { apply form_team_member_mapped; [exact Hbeta|].
      exists a. split; [now left|]. rewrite Ha. eauto. }
    split; [exact Hfail|]. split.
    + unfold Dao.exec. cbn. now rewrite Hfail.
    + intros Hne.
      assert (Hv : create_validated (Chain.team_env st) a "beta").
      { repeat split; try (cbn; congruence); vm_compute; repeat constructor. }
      destruct (create_rejections (Chain.team_env st) a "beta" Hv) as [_ H].
      apply (H {| Teams.switch_name := None |} {| Teams.switch_name := Some "scvString" |}).
      * change (Teams.trim "beta") with "beta". cbn. unfold Dao.get_team.
        rewrite Hbeta. reflexivity.
      * reflexivity.
      * cbn. unfold Dao.get_user_team. rewrite Ha. reflexivity.
      * reflexivity.
Qed.

Lemma C6_witness :
  let st := Dao.run [Dao.FormTeam "alpha" ["GM"]] Dao.empty in
  Dao.form_team "beta" ["GM"] st = inl Dao.AlreadyInTeam /\
  Dao.teams (Dao.exec st (Dao.FormTeam "beta" ["GM"])) !! "beta" = None /\
  ("GM" <> EmptyString ->
   Teams.create (Chain.team_env st) (Some "GM") (Some "beta") = Return Teams.already_member).
Proof.
  intros st.
  destruct (C6_form_team_fails_and_creates_nothing st "beta" ["GM"]) as (_ & _ & _ & H & _).
  apply (H "GM"); vm_compute; reflexivity.
Defined.

(** ** The user-team lookup *)

Lemma getUserTeam_read_only {Ledger} (e : UserTeam.Env Ledger) (l : Ledger)
    (address : option string) :
  snd (UserTeam.getUserTeam e l address) = l.
Proof.
  unfold UserTeam.getUserTeam. destruct (Js.missing address); [reflexivity|].
  destruct (UserTeam.Keypair_fromPublicKey e _); [|reflexivity].
  destruct (String.eqb _ _); [reflexivity|].
  destruct (UserTeam.new_Contract e); [|reflexivity].
  destruct (UserTeam.call_contract e l _) as [[r|]|m]; reflexivity.
Qed.

Lemma getUserTeam_reached {Ledger} (e : UserTeam.Env Ledger) (l : Ledger) (a : string) :
  reaches_contract e a ->
  fst (UserTeam.getUserTeam e l (Some a)) =
    match UserTeam.call_contract e l a with
    | Return (Some r) => r
    | _ => UserTeam.no_team (Some a) "Unable to determine team membership"
    end.
Proof.
  intros (Ha & Hkey & Hdao & Hc). unfold UserTeam.getUserTeam.
  cbn [Js.missing default from_option id].
  rewrite (eqb_false_of_ne _ _ Ha), Hkey, (eqb_false_of_ne _ _ Hdao), Hc.
  destruct (UserTeam.call_contract e l a) as [[r|]|m]; reflexivity.
Qed.

(** C9. The user-team lookup is read-only: on every call, through [GET] or
    [POST], the state of the chain after the call is the state before it. For
    an address with no membership (the contract returns void) it answers the
    explicit no-team result, [success: true] with [teamName: null], not an
    error; for an address with a membership (the contract returns the team
    name as a string) it answers that name. *)
Theorem C9_getUserTeam_reads_and_reports {Ledger} (e : UserTeam.Env Ledger) (l : Ledger) :
  (forall address request_json,
     snd (UserTeam.getUserTeam e l address) = l /\
     snd (UserTeam.GET e l address) = l /\
     snd (UserTeam.POST e l request_json) = l) /\
  (forall (a : string) (cv : UserTeam.ContractValue),
     reaches_contract e a ->
     UserTeam.simulateTransaction e l a = Return {| UserTeam.retval := Some cv |} ->
     (UserTeam.switch_name cv = "scvVoid" ->
      fst (UserTeam.getUserTeam e l (Some a)) =
        UserTeam.json_team
          {| UserTeam.success := true; UserTeam.teamName := None;
             UserTeam.address := Some a;
             UserTeam.message := "User is not a member of any team" |}) /\
     (forall team,
        team <> EmptyString ->
        UserTeam.switch_name cv = "scvString" -> UserTeam.arm cv = "str" ->
        UserTeam.value cv = UserTeam.text team \/ UserTeam.value cv = UserTeam.buffer team \/
        UserTeam.value cv = UserTeam.buffer_json team ->
        fst (UserTeam.getUserTeam e l (Some a)) =
          UserTeam.json_team
            {| UserTeam.success := true; UserTeam.teamName := Some team;
               UserTeam.address := Some a;
               UserTeam.message := "Team membership found" |})).
Proof.
  split.
  - intros address request_json. split; [apply getUserTeam_read_only|].
    split; [apply getUserTeam_read_only|].
    unfold UserTeam.POST. destruct request_json; [apply getUserTeam_read_only|reflexivity].
  - intros a cv Hreach Hsim. split.
    + intros Hvoid. rewrite (getUserTeam_reached e l a Hreach).
      unfold UserTeam.call_contract. rewrite Hsim. cbn [bind UserTeam.retval].
      rewrite Hvoid. reflexivity.
    + intros team Hne Hsw Harm Hval. rewrite (getUserTeam_reached e l a Hreach).
      unfold UserTeam.call_contract. rewrite Hsim. cbn [bind UserTeam.retval].
      rewrite Hsw. cbn [String.eqb Ascii.eqb Bool.eqb].
      unfold UserTeam.parse_team_name. rewrite Harm. cbn [String.eqb Ascii.eqb Bool.eqb].
      assert (Hname : UserTeam.or_unknown (Some team) = team).
      { unfold UserTeam.or_unknown. now rewrite (eqb_false_of_ne _ _ Hne). }
      destruct Hval as [->|[->| ->]]; rewrite Hname; reflexivity.
Qed.

Lemma C9_witness :
  let st := Dao.run [Dao.FormTeam "alpha" ["GM"]] Dao.empty in
  UserTeam.getUserTeam Chain.user_team_env st (Some "GM") =
    (UserTeam.json_team
       {| UserTeam.success := true; UserTeam.teamName := Some "alpha";
          UserTeam.address := Some "GM"; UserTeam.message := "Team membership found" |},
     st) /\
  UserTeam.getUserTeam Chain.user_team_env st (Some "GX") =
    (UserTeam.json_team
       {| UserTeam.success := true; UserTeam.teamName := None;
          UserTeam.address := Some "GX";
          UserTeam.message := "User is not a member of any team" |},
     st).
Proof.
  intros st.
  destruct (C9_getUserTeam_reads_and_reports Chain.user_team_env st) as (Hro & Hcall).
  split; apply injective_projections.
  - destruct (Hcall "GM" {| UserTeam.switch_name := "scvString"; UserTeam.arm := "str";
                            UserTeam.value := UserTeam.buffer "alpha" |}) as [_ Hteam].
    + repeat split; cbn; congruence.
    + vm_compute. reflexivity.
    + refine (Hteam "alpha" _ eq_refl eq_refl (or_intror (or_introl eq_refl))).
      discriminate.
  - exact (proj1 (Hro (Some "GM") (Return None))).
  - destruct (Hcall "GX" {| UserTeam.switch_name := "scvVoid"; UserTeam.arm := "void";
                            UserTeam.value := UserTeam.falsy |}) as [Hvoid _].
    + repeat split; cbn; congruence.
    + vm_compute. reflexivity.
    + exact (Hvoid eq_refl).
  - exact (proj1 (Hro (Some "GX") (Return None))).
Defined.

(** ** The price arithmetic on doubles *)

(** On doubles the comparisons of the source come out as on rationals at the
    constants of the source: the fallback rate, the mock prices at both ends
    of [Math.random()] for the three base prices, the least parsed price, the
    prices of scenario B and the mock prices of the [catch] block. *)
Example binary64_discount_is_a_rise :
  Binary64.actualPriceWentUp Binary64.fallback_rate = true /\
  Binary64.actualPriceWentUp Binary64.least_parsed_price = true /\
  forallb (fun base =>
             Binary64.actualPriceWentUp
               (Binary64.generateMockPrice base Binary64.least_random) &&
             Binary64.actualPriceWentUp
               (Binary64.generateMockPrice base Binary64.greatest_random))
          [Binary64.reference_B; 45000%float; 2500%float; 1%float] = true.
Proof. repeat split; vm_compute; reflexivity. Qed.

Example binary64_comparisons :
  (Binary64.reference_B <? Binary64.current_B)%float = true /\
  (Binary64.reference_B <? Binary64.reference_B)%float = false /\
  (1 <? Binary64.mock_up)%float = true /\
  (1 <? Binary64.mock_down)%float = false.
Proof. repeat split; vm_compute; reflexivity. Qed.

(** * Further properties *)

(** ** The parser of the Reflector client *)

Lemma read_entry_skips (acc : Q * Q) (entry : Reflector.MapEntry) :
  read_by_loop entry = false -> Reflector.read_entry acc entry = acc.
Proof.
  unfold read_by_loop, Reflector.read_entry. destruct acc as [price timestamp].
  destruct (Reflector.val_truthy _); rewrite ?andb_true_r, ?andb_false_r.
  - intros H. apply orb_false_iff in H as [-> ->]. reflexivity.
  - reflexivity.
Qed.

Lemma fold_read_entry_filter (priceMap : list Reflector.MapEntry) (acc : Q * Q) :
  fold_left Reflector.read_entry (List.filter read_by_loop priceMap) acc =
  fold_left Reflector.read_entry priceMap acc.
Proof.
  revert acc. induction priceMap as [|entry priceMap IH]; intros acc; [reflexivity|].
  cbn [List.filter fold_left]. destruct (read_by_loop entry) eqn:E.
  - cbn [fold_left]. apply IH.
  - rewrite (read_entry_skips acc entry E). apply IH.
Qed.

Lemma fold_read_entry_none (priceMap : list Reflector.MapEntry) (acc : Q * Q) :
  forallb (fun entry => negb (read_by_loop entry)) priceMap = true ->
  fold_left Reflector.read_entry priceMap acc = acc.
Proof.
  revert acc. induction priceMap as [|entry priceMap IH]; intros acc H; [reflexivity|].
  cbn in H. apply andb_true_iff in H as [He H]. apply negb_true_iff in He.
  cbn [fold_left]. rewrite (read_entry_skips acc entry He). now apply IH.
Qed.

(** X1. Of the map the oracle returns, [getLastPrice] reads the entries
    keyed [price] and [timestamp] whose value is truthy and nothing else:
    dropping every other entry changes nothing, a map without such an entry
    parses to the price 0 at the current time, and of several entries with
    one key the last decides (a price is divided by 10^14, a timestamp is
    multiplied by 1000). *)
Theorem parse_price_reads_the_last_price_and_timestamp
    (now : Q) (priceMap : list Reflector.MapEntry) :
  Reflector.parse_price now (Reflector.cvMap (Some (List.filter read_by_loop priceMap)))
    = Reflector.parse_price now (Reflector.cvMap (Some priceMap)) /\
  (forallb (fun entry => negb (read_by_loop entry)) priceMap = true ->
   Reflector.parse_price now (Reflector.cvMap (Some priceMap)) = (0%Q, now)) /\
  (forall v : Reflector.ScvNumber,
     Reflector.val_truthy (Some v) = true ->
     Reflector.parse_price now (Reflector.cvMap (Some
       (priceMap ++ [{| Reflector.key_value := Js.str "price"; Reflector.val := Some v |}])%list))
     = ((Reflector.parseScvValue v / Reflector.e14)%Q,
        snd (Reflector.parse_price now (Reflector.cvMap (Some priceMap)))) /\
     Reflector.parse_price now (Reflector.cvMap (Some
       (priceMap ++ [{| Reflector.key_value := Js.str "timestamp"; Reflector.val := Some v |}])%list))
     = (fst (Reflector.parse_price now (Reflector.cvMap (Some priceMap))),
        (Reflector.parseScvValue v * inject_Z 1000)%Q)).
Proof.
  split; [|split].
  - cbn [Reflector.parse_price]. apply fold_read_entry_filter.
  - intros H. cbn [Reflector.parse_price]. now apply fold_read_entry_none.
  - intros v Hv. cbn [Reflector.parse_price]. rewrite !fold_left_app. cbn [fold_left].
    destruct (fold_left Reflector.read_entry priceMap (0%Q, now)) as [price timestamp].
    unfold Reflector.read_entry. cbn [Reflector.key_value Reflector.val].
    rewrite Hv. split; reflexivity.
Qed.

Lemma parse_price_reads_the_last_price_and_timestamp_witness :
  Reflector.parse_price (inject_Z 1700000000000) (Reflector.cvMap (Some
    ([{| Reflector.key_value := Js.str "price";
         Reflector.val := Some (Reflector.scvI128 (Some 107000000000000%Z)) |};
      {| Reflector.key_value := Js.str "decimals";
         Reflector.val := Some (Reflector.scvU64 (Some 14%Z)) |}]
     ++ [{| Reflector.key_value := Js.str "price";
            Reflector.val := Some (Reflector.scvI128 (Some 108500000000000%Z)) |}])%list))
  = ((inject_Z 108500000000000 / Reflector.e14)%Q, inject_Z 1700000000000).
Proof.
  destruct (parse_price_reads_the_last_price_and_timestamp (inject_Z 1700000000000)
    [{| Reflector.key_value := Js.str "price";
        Reflector.val := Some (Reflector.scvI128 (Some 107000000000000%Z)) |};
     {| Reflector.key_value := Js.str "decimals";
        Reflector.val := Some (Reflector.scvU64 (Some 14%Z)) |}]) as (_ & _ & H).
  exact (proj1 (H (Reflector.scvI128 (Some 108500000000000%Z)) eq_refl)).
Defined.

(** ** The parser of the stored prediction *)

(** X2. The stored prediction counts as found exactly when the simulation
    has a result that [JSON.stringify] accepts and whose value array holds
    no [null] element: a result that cannot be serialized, or a single
    [null] element anywhere in the array, makes the endpoint answer
    [PredictionNotSubmitted] with no outcome, like a missing result, and
    nothing else in the stored record does. *)
Theorem null_element_means_not_submitted :
  (forall dataMap,
     fst (Resolve.parse_prediction (Some (Resolve.valueArray dataMap)))
       = negb (existsb is_nullItem dataMap)) /\
  (forall result,
     fst (Resolve.parse_prediction result) = false <->
     result = None \/
     result = Some Resolve.notSerializable \/
     exists dataMap, result = Some (Resolve.valueArray dataMap) /\
                     existsb is_nullItem dataMap = true) /\
  (forall e id result,
     reaches_chain e id ->
     Resolve.getLatestLedger e = Return tt ->
     Resolve.simulateTransaction e id = Return (Resolve.simSuccess result) ->
     fst (Resolve.parse_prediction result) = false ->
     Resolve.GET e (Some id) = Return (Resolve.json_not_submitted id) /\
     Resolve.outcome_of (Resolve.json_not_submitted id) = None).
Proof.
  split; [exact parse_prediction_exists|]. split.
  - intros [[| | |dataMap]|]; split.
    + intros _. right. now left.
    + reflexivity.
    + discriminate.
    + intros [H|[H|(l & H & _)]]; discriminate.
    + discriminate.
    + intros [H|[H|(l & H & _)]]; discriminate.
    + rewrite parse_prediction_exists. intros H. right. right. exists dataMap.
      split; [reflexivity|]. now apply negb_false_iff.
    + intros [H|[H|(l & H & Hl)]]; try discriminate. injection H as <-.
      rewrite parse_prediction_exists, Hl. reflexivity.
    + intros _. now left.
    + reflexivity.
  - intros e id result (Hid & Hdao & Href & Hc) Hl Hsim Hparse.
    split; [|reflexivity].
    unfold Resolve.GET. cbn [Js.missing default from_option Datatypes.id].
    rewrite (eqb_false_of_ne _ _ Hid), (eqb_false_of_ne _ _ Hdao), (eqb_false_of_ne _ _ Href).
    cbn [orb]. cbv zeta. rewrite Hc. cbn [bind].
    unfold Resolve.GET_try. rewrite Hl. cbn [bind]. rewrite Hsim. cbn [bind].
    destruct (Resolve.parse_prediction result) as [found p]. cbn in Hparse. subst found.
    reflexivity.
Qed.

Lemma null_element_means_not_submitted_witness :
  Resolve.GET
    (Cases.resolve_env (Return tt)
       (Return (Resolve.simSuccess (Some Cases.with_null_element))))
    (Some "p1")
  = Return (Resolve.json_not_submitted "p1").
Proof.
  destruct null_element_means_not_submitted as (_ & _ & H).
  refine (proj1 (H (Cases.resolve_env (Return tt)
                      (Return (Resolve.simSuccess (Some Cases.with_null_element))))
                   "p1" (Some Cases.with_null_element) _ eq_refl eq_refl eq_refl)).
  repeat split; cbn; congruence.
Defined.

(** ** The resolution endpoint when the chain cannot be read *)

Lemma substring_nothing (m : nat) (s : string) : String.substring m 0 s = EmptyString.
Proof. revert m. induction s as [|c s IH]; intros [|m]; cbn; auto. Qed.

Lemma substring_append_l (a b : string) (m n : nat) :
  String.length (String.substring m n a) = n ->
  String.substring m n (a ++ b) = String.substring m n a.
Proof.
  revert m n. induction a as [|c a IH]; intros m n H.
  - assert (n = 0%nat) as -> by (destruct m, n; cbn in H; congruence).
    now rewrite !substring_nothing.
  - unfold_append. destruct m as [|m].
    + destruct n as [|n]; [reflexivity|]. cbn in *. f_equal. apply IH. congruence.
    + cbn in *. now apply IH.
Qed.

(** A string found in a prefix is found in the whole. *)
Lemma includes_append_l (a b sub : string) :
  Js.includes a sub = true -> Js.includes (a ++ b) sub = true.
Proof.
  unfold Js.includes. destruct (String.index 0 sub a) as [m|] eqn:Ea; [|discriminate].
  intros _. destruct (String.index 0 sub (a ++ b)) eqn:Eab; [reflexivity|]. exfalso.
  pose proof (String.index_correct1 _ _ _ _ Ea) as Hm.
  destruct sub as [|c sub].
  - apply String.index_correct4 in Eab. lia.
  - apply (String.index_correct3 0 m _ _ Eab); [discriminate|lia|].
    rewrite substring_append_l; [exact Hm|]. now rewrite Hm.
Qed.

(** X3. When the stored prediction cannot be read (the ledger read or the
    simulation is rejected, or the simulation reports an error) the endpoint
    still answers an outcome: a guess, marked [resolvedViaContract: false],
    with [rewardsDistributed: true] whatever the outcome and with the error
    message. The predicted direction is taken to be a rise when the id
    contains [up], and drawn otherwise; the ids the preparation endpoint
    makes begin with the team name, so that for a team whose name contains
    [up] the outcome is the drawn price movement whatever was predicted. *)
Theorem unreadable_prediction_is_resolved_by_guess :
  (forall e id contractError,
     reaches_chain e id -> read_fails e id contractError ->
     Resolve.GET e (Some id) = Return (Resolve.GET_catch e id contractError)) /\
  (forall e id contractError,
     exists body,
       Resolve.GET_catch e id contractError = Resolve.json_resolved body /\
       Resolve.resolvedViaContract body = false /\
       Resolve.rewardsDistributed body = true /\
       Resolve.contractError body = Some contractError /\
       Resolve.outcome body =
         Bool.eqb (Js.includes id "up" || Js.gt (Resolve.Math_random_2 e) (1 # 2))
                  (Js.gt (Resolve.Math_random_1 e) (1 # 2)) /\
       (Js.includes id "up" = true ->
        Resolve.outcome body = Js.gt (Resolve.Math_random_1 e) (1 # 2))) /\
  (forall team now random_36,
     Js.includes team "up" = true ->
     Js.includes (Prepare.make_predictionId team now random_36) "up" = true).
Proof.
  split; [|split].
  - intros e id m (Hid & Hdao & Href & Hc) Hfail.
    unfold Resolve.GET. cbn [Js.missing default from_option Datatypes.id].
    rewrite (eqb_false_of_ne _ _ Hid), (eqb_false_of_ne _ _ Hdao), (eqb_false_of_ne _ _ Href).
    cbn [orb]. cbv zeta. rewrite Hc. cbn [bind]. unfold Resolve.GET_try.
    destruct Hfail as [Hl|[Hl [Hs|(error & Hs & ->)]]]; rewrite Hl; cbn [bind try_catch];
      try reflexivity; rewrite Hs; reflexivity.
  - intros e id m. eexists. split; [reflexivity|]. cbn.
    repeat split.
    + destruct (Js.gt (Resolve.Math_random_1 e) (1 # 2)); reflexivity.
    + intros ->. cbn. destruct (Js.gt (Resolve.Math_random_1 e) (1 # 2)); reflexivity.
  - intros team now random_36 H. unfold Prepare.make_predictionId.
    now apply includes_append_l.
Qed.

Lemma unreadable_prediction_is_resolved_by_guess_witness :
  let id := Prepare.make_predictionId "group" 1700000000000 "0.4fzyo82mvyr" in
  Resolve.GET (Cases.resolve_env (Throw "fetch failed") (Throw "unused")) (Some id)
    = Return (Resolve.GET_catch (Cases.resolve_env (Throw "fetch failed") (Throw "unused"))
                id "fetch failed") /\
  Js.includes id "up" = true.
Proof.
  intros id. destruct unreadable_prediction_is_resolved_by_guess as (H1 & _ & H3). split.
  - apply H1; [repeat split; cbn; vm_compute; congruence|]. left. reflexivity.
  - apply H3. vm_compute. reflexivity.
Defined.

(** ** Doubles *)

Lemma pow2_pos (e : Z) : (0 < Double.pow2 e)%Q.
Proof.
  unfold Double.pow2. destruct (0 <=? e)%Z eqn:E.
  - apply Z.leb_le in E. change 0%Q with (inject_Z 0). rewrite <- Zlt_Qlt.
    apply Z.pow_pos_nonneg; lia.
  - apply Z.leb_gt in E.
    assert (H : (0 < 2 ^ (- e))%Z) by (apply Z.pow_pos_nonneg; lia).
    apply Qlt_shift_div_l.
    + change 0%Q with (inject_Z 0). now rewrite <- Zlt_Qlt.
    + rewrite Qmult_0_l. reflexivity.
Qed.

Lemma pow2_small (e : Z) : (e <= (-52))%Z -> (Double.pow2 e <= (1 # 4503599627370496))%Q.
Proof.
  intros He. unfold Double.pow2. destruct (0 <=? e)%Z eqn:E; [apply Z.leb_le in E; lia|].
  assert (H : (2 ^ 52 <= 2 ^ (- e))%Z) by (apply Z.pow_le_mono_r; lia).
  assert (Hpos : (0 < 2 ^ (- e))%Z) by (apply Z.pow_pos_nonneg; lia).
  apply Qle_shift_div_r.
  - change 0%Q with (inject_Z 0). now rewrite <- Zlt_Qlt.
  - rewrite Zle_Qle in H. change (inject_Z (2 ^ 52)) with (4503599627370496 # 1) in H.
    generalize dependent (inject_Z (2 ^ (- e))). intros q Hq. lra.
Qed.

Lemma nearest_even_near (y : Q) :
  (y - (1 # 2) <= inject_Z (Double.nearest_even y))%Q /\
  (inject_Z (Double.nearest_even y) <= y + (1 # 2))%Q.
Proof.
  unfold Double.nearest_even.
  pose proof (Qfloor_le y) as Hlo. pose proof (Qlt_floor y) as Hhi.
  rewrite inject_Z_plus in Hhi. change (inject_Z 1) with 1%Q in Hhi.
  destruct (Qcompare (y - inject_Z (Qfloor y)) (1 # 2)) eqn:E.
  - apply Qeq_alt in E. destruct (Z.even (Qfloor y)).
    + split; lra.
    + rewrite inject_Z_plus. change (inject_Z 1) with 1%Q. split; lra.
  - apply Qlt_alt in E. split; lra.
  - apply Qgt_alt in E. rewrite inject_Z_plus. change (inject_Z 1) with 1%Q. split; lra.
Qed.

Lemma floor_log2_small (a : Q) : (0 < a)%Q -> (a < 2)%Q -> (Double.floor_log2 a <= 0)%Z.
Proof.
  destruct a as [n d]. unfold Qlt. cbn [Qnum Qden]. intros Hpos Hlt.
  assert (Hn : (0 < n)%Z) by lia.
  unfold Double.floor_log2. cbn [Qnum Qden].
  destruct (Z.log2_spec n Hn) as [Hn1 Hn2].
  destruct (Z.log2_spec (Z.pos d) (Pos2Z.is_pos d)) as [Hd1 Hd2].
  set (ln := Z.log2 n) in *. set (ld := Z.log2 (Z.pos d)) in *.
  assert (Hln : (0 <= ln)%Z) by apply Z.log2_nonneg.
  assert (Hld : (0 <= ld)%Z) by apply Z.log2_nonneg.
  assert (Hk : (ln - ld <= 1)%Z).
  { destruct (Z_le_gt_dec (ln - ld) 1)%Z as [H|H]; [exact H|exfalso].
    assert (Hpow : (2 ^ (ld + 2) <= 2 ^ ln)%Z) by (apply Z.pow_le_mono_r; lia).
    unfold Z.succ in Hd2. rewrite Z.pow_add_r in Hd2, Hpow by lia. lia. }
  destruct (Qle_bool _ _) eqn:T; [|lia].
  destruct (Z.eq_dec (ln - ld) 1)%Z as [Hone|Hone]; [exfalso|lia].
  rewrite Hone in T. apply Qle_bool_iff in T. unfold Qle in T. cbn in T. lia.
Qed.

(** Rounding a number below 2 in magnitude moves it by half a unit in the
    last place of [1, 2) at most. *)
Lemma round_near (x : Q) :
  (Qabs x < 2)%Q ->
  (x - Double.half_ulp <= Double.round x)%Q /\ (Double.round x <= x + Double.half_ulp)%Q.
Proof.
  intros Hx. unfold Double.round, Double.half_ulp.
  destruct (Qeq_bool (Qabs x) 0) eqn:Hz.
  - apply Qeq_bool_iff in Hz.
    assert (x == 0)%Q.
    { destruct (Qabs_Qle_condition x 0) as [H _].
      destruct (H ltac:(rewrite Hz; apply Qle_refl)). lra. }
    split; lra.
  - assert (Ha : (0 < Qabs x)%Q).
    { pose proof (Qabs_nonneg x) as H. apply Qeq_bool_neq in Hz.
      apply Qle_lteq in H as [H|H]; [exact H|]. exfalso. apply Hz. now symmetry. }
    pose proof (floor_log2_small (Qabs x) Ha Hx) as Hk.
    set (e := Z.max (Double.floor_log2 (Qabs x) - 52) (-1074)).
    assert (He : (e <= (-52))%Z) by (unfold e; lia).
    pose proof (pow2_pos e) as HP. pose proof (pow2_small e He) as HP'.
    set (P := Double.pow2 e) in *.
    destruct (nearest_even_near (Qabs x / P)) as [Hlo Hhi].
    set (M := inject_Z (Double.nearest_even (Qabs x / P))) in *.
    assert (Hy : (Qabs x / P * P == Qabs x)%Q) by (field; lra).
    assert (H1 : (Qabs x - P * (1 # 2) <= M * P)%Q).
    { rewrite <- Hy at 1. nra. }
    assert (H2 : (M * P <= Qabs x + P * (1 # 2))%Q).
    { rewrite <- Hy at 1. nra. }
    destruct (Qle_bool 0 x) eqn:Hs.
    + apply Qle_bool_iff in Hs. rewrite (Qabs_pos x Hs) in H1, H2. fold M. split; lra.
    + assert (Hneg : (x < 0)%Q).
      { apply Qnot_le_lt. intros H. apply Qle_bool_iff in H. congruence. }
      rewrite (Qabs_neg x) in H1, H2 by lra.
      rewrite inject_Z_opp. fold M. split; lra.
Qed.

Lemma literal_half : (Double.literal (1 # 2) == 1 # 2)%Q.
Proof. vm_compute. reflexivity. Qed.

Lemma literal_fiftieth :
  (Double.literal (2 # 100) == 5764607523034235 # 288230376151711744)%Q.
Proof. vm_compute. reflexivity. Qed.

Lemma Qabs_below (x b : Q) : (- b < x)%Q -> (x < b)%Q -> (Qabs x < b)%Q.
Proof. intros H1 H2. apply Qabs_case; intros _; lra. Qed.

(** The price computed on doubles is within five half units in the last
    place of the exact one. *)
Lemma mock_price_near (base r : Q) :
  (0 <= r)%Q -> (r < 1)%Q -> (1 <= base)%Q -> (base <= 11 # 10)%Q ->
  (base + (r - (1 # 2)) * (2 # 100) - (5 # 9007199254740992)
     <= Resolve.mock_price base r)%Q /\
  (Resolve.mock_price base r
     <= base + (r - (1 # 2)) * (2 # 100) + (5 # 9007199254740992))%Q.
Proof.
  intros Hr0 Hr1 Hb0 Hb1.
  unfold Resolve.mock_price, Double.add, Double.mul, Double.sub.
  pose proof literal_half as Hh. pose proof literal_fiftieth as Hc.
  set (h := Double.literal (1 # 2)) in *.
  set (c := Double.literal (2 # 100)) in *.
  assert (Hk : (base - Double.half_ulp <= Double.literal base)%Q /\
               (Double.literal base <= base + Double.half_ulp)%Q).
  { apply round_near, Qabs_below; lra. }
  set (k := Double.literal base) in *.
  assert (Ha : (r - h - Double.half_ulp <= Double.round (r - h))%Q /\
               (Double.round (r - h) <= r - h + Double.half_ulp)%Q).
  { apply round_near, Qabs_below; lra. }
  set (a := Double.round (r - h)) in *.
  assert (Hm : (a * c - Double.half_ulp <= Double.round (a * c))%Q /\
               (Double.round (a * c) <= a * c + Double.half_ulp)%Q).
  { apply round_near, Qabs_below; rewrite Hc; unfold Double.half_ulp in Ha; lra. }
  set (b := Double.round (a * c)) in *.
  rewrite Hc in Hm.
  assert (Hs : (k + b - Double.half_ulp <= Double.round (k + b))%Q /\
               (Double.round (k + b) <= k + b + Double.half_ulp)%Q).
  { apply round_near, Qabs_below; unfold Double.half_ulp in *; lra. }
  unfold Double.half_ulp in *. lra.
Qed.

(** ** The mock resolution *)

(** X4. [mockResolution] computes on doubles a current price around
    1.08 and a reference price around 1.07, each within five half units in
    the last place (5 x 2^-53) of [base + (draw - 0.5) * 0.02], and reports
    the prediction correct exactly when the first price is above the
    second, with the rewards distributed in either case. The second draw
    being less than half above the first by a margin of 2^-40 makes the
    outcome [true], and more than half above by the margin makes it
    [false]. On the line between, where the exact prices are equal, the
    rounding decides: the draws 0.25 and 0.75 give [true], the draws 0
    and 0.5 give [false]. *)
Theorem mockResolution_outcome_of_two_draws (id : string) (random_1 random_2 : Q) :
  exists body,
    Resolve.mockResolution id random_1 random_2 = Resolve.json_resolved body /\
    Resolve.outcome body = Js.gt (Resolve.currentPrice body) (Resolve.historicalPrice body) /\
    Resolve.rewardsDistributed body = true /\
    (Js.is_random random_1 -> Js.is_random random_2 ->
     ((108 # 100) + (random_1 - (1 # 2)) * (2 # 100) - (5 # 9007199254740992)
        <= Resolve.currentPrice body)%Q /\
     (Resolve.currentPrice body
        <= (108 # 100) + (random_1 - (1 # 2)) * (2 # 100) + (5 # 9007199254740992))%Q /\
     ((107 # 100) + (random_2 - (1 # 2)) * (2 # 100) - (5 # 9007199254740992)
        <= Resolve.historicalPrice body)%Q /\
     (Resolve.historicalPrice body
        <= (107 # 100) + (random_2 - (1 # 2)) * (2 # 100) + (5 # 9007199254740992))%Q /\
     ((random_2 + (1 # 1099511627776) <= random_1 + (1 # 2))%Q ->
      Resolve.outcome body = true) /\
     ((random_1 + (1 # 2) + (1 # 1099511627776) <= random_2)%Q ->
      Resolve.outcome body = false)) /\
    Resolve.outcome_of (Resolve.mockResolution id (1 # 4) (3 # 4)) = Some true /\
    Resolve.outcome_of (Resolve.mockResolution id 0 (1 # 2)) = Some false.
Proof.
  eexists. split; [reflexivity|].
  cbn [Resolve.outcome Resolve.currentPrice Resolve.historicalPrice
       Resolve.rewardsDistributed].
  split; [reflexivity|]. split; [reflexivity|]. split; [|split; vm_compute; reflexivity].
  intros [H1 H1'] [H2 H2'].
  assert (Hb : (1 <= 108 # 100)%Q /\ (108 # 100 <= 11 # 10)%Q /\
               (1 <= 107 # 100)%Q /\ (107 # 100 <= 11 # 10)%Q)
    by (repeat split; discriminate).
  destruct Hb as (Hb1 & Hb2 & Hb3 & Hb4).
  destruct (mock_price_near (108 # 100) random_1 H1 H1' Hb1 Hb2) as [Hc1 Hc2].
  destruct (mock_price_near (107 # 100) random_2 H2 H2' Hb3 Hb4) as [Hh1 Hh2].
  repeat split; try assumption.
  - intros H. apply gt_iff. lra.
  - intros H. apply gt_false_iff. lra.
Qed.

Lemma mockResolution_outcome_of_two_draws_witness :
  exists body,
    Resolve.mockResolution "p1" (1 # 2) (9 # 10) = Resolve.json_resolved body /\
    Resolve.outcome body = true.
Proof.
  destruct (mockResolution_outcome_of_two_draws "p1" (1 # 2) (9 # 10))
    as (body & Hbody & _ & _ & H & _).
  exists body. split; [exact Hbody|].
  apply H; [split; lra|split; lra|]. lra.
Defined.

(** ** The first resolution endpoint *)

(** The body of a mock resolution. *)
Lemma mockResolution_body (id : string) (random_1 random_2 : Q) :
  exists body,
    Resolve.mockResolution id random_1 random_2 = Resolve.json_resolved body /\
    Resolve.outcome body = Js.gt (Resolve.currentPrice body) (Resolve.historicalPrice body) /\
    Resolve.rewardsDistributed body = true /\
    Resolve.contractData body = None /\
    Resolve.resolvedViaContract body = false /\
    Resolve.predictionId body = id.
Proof.
  eexists. split; [reflexivity|].
  cbn [Resolve.outcome Resolve.currentPrice Resolve.historicalPrice
       Resolve.rewardsDistributed Resolve.contractData Resolve.resolvedViaContract
       Resolve.predictionId].
  repeat split.
Qed.

(** X5. The first resolution endpoint always answers, and in every answer
    that carries an outcome the outcome is the comparison of the two prices
    of the answer, with the rewards reported distributed: when the simulation
    succeeds the outcome is one draw of [Math.random()] and the prices are
    made to fit it (1.1 or 0.9 against 1.0), and when it fails the answer is
    that of [mockResolution]. The stored prediction decides nothing. *)
Theorem first_endpoint_outcome_fits_its_prices (e : ResolveV1.Env) (pid : option string) :
  (exists r, ResolveV1.GET e pid = Return r) /\
  (forall body,
     ResolveV1.GET e pid = Return (Resolve.json_resolved body) ->
     Resolve.outcome body = Js.gt (Resolve.currentPrice body) (Resolve.historicalPrice body) /\
     Resolve.rewardsDistributed body = true /\
     Resolve.contractData body = None /\
     (Resolve.resolvedViaContract body = true ->
      Resolve.outcome body = Js.gt (ResolveV1.Math_random e 0) (1 # 2)) /\
     (Resolve.resolvedViaContract body = false ->
      Resolve.json_resolved body =
        Resolve.mockResolution (Resolve.predictionId body)
          (ResolveV1.Math_random e 0) (ResolveV1.Math_random e 1))).
Proof.
  unfold ResolveV1.GET. destruct (Js.missing pid); cbn [try_catch].
  { split; [eauto|discriminate]. }
  destruct (_ || _); cbn [try_catch]. { split; [eauto|discriminate]. }
  destruct (ResolveV1.new_Contract e) as [[]|m]; cbn [bind try_catch];
    [|split; [eauto|discriminate]].
  unfold ResolveV1.GET_try.
  destruct (ResolveV1.simulateTransaction e _) as [[[|]]|m]; cbn [bind try_catch ResolveV1.has_error].
  - split; [eauto|]. intros body H. apply Return_inj in H.
    match type of H with
    | Resolve.mockResolution ?i ?r1 ?r2 = _ =>
        destruct (mockResolution_body i r1 r2) as (b & Hb & Ho & Hrew & Hcd & Hvia & Hid)
    end.
    rewrite Hb in H. injection H as <-.
    repeat split; auto; [congruence|]. intros _. now rewrite Hid.
  - split; [eauto|]. intros body H. apply Return_inj in H. injection H as <-. cbn.
    repeat split; try discriminate.
    destruct (Js.gt (ResolveV1.Math_random e 0) (1 # 2)); reflexivity.
  - split; [eauto|]. intros body H. apply Return_inj in H.
    match type of H with
    | Resolve.mockResolution ?i ?r1 ?r2 = _ =>
        destruct (mockResolution_body i r1 r2) as (b & Hb & Ho & Hrew & Hcd & Hvia & Hid)
    end.
    rewrite Hb in H. injection H as <-.
    repeat split; auto; [congruence|]. intros _. now rewrite Hid.
Qed.

Lemma first_endpoint_outcome_fits_its_prices_witness :
  exists body,
    ResolveV1.GET (Cases.resolve_v1_env (Return {| ResolveV1.has_error := false |}))
      (Some "p1") = Return (Resolve.json_resolved body) /\
    Resolve.outcome body = true /\
    Resolve.outcome body = Js.gt (Resolve.currentPrice body) (Resolve.historicalPrice body).
Proof.
  pose proof (proj2 (first_endpoint_outcome_fits_its_prices
                       (Cases.resolve_v1_env (Return {| ResolveV1.has_error := false |}))
                       (Some "p1"))) as H.
  eexists. split; [vm_compute; reflexivity|]. split; [reflexivity|].
  refine (proj1 (H _ _)). vm_compute. reflexivity.
Defined.

(** ** The transaction-preparation endpoint on other percentages and teams *)

Lemma BigInt_of_fraction (q : Q) :
  ~ is_integer q ->
  Prepare.BigInt (Some q) =
    Throw "The number cannot be converted to a BigInt because it is not an integer".
Proof.
  intros Hq. unfold Prepare.BigInt.
  destruct (Z.pos (Qden (Qred q)) =? 1)%Z eqn:E; [|reflexivity].
  exfalso. apply Hq. exists (Qnum (Qred q)).
  rewrite <- (Qred_correct q) at 1. destruct (Qred q) as [n d]. cbn [Qnum Qden] in *.
  apply Z.eqb_eq in E. injection E as ->. reflexivity.
Qed.

(** X6. A stake percentage that passes the range check without being an
    integer (2.5, say), and a request with no stake percentage at all, is not
    answered with a validation error: the conversion to a bigint throws and
    the outer handler answers status 500, "Transaction preparation failed". *)
Theorem percentage_that_is_no_integer_is_a_server_error
    (e : Prepare.Env) body pk team p :
  ready e body pk team p ->
  Prepare.stakePercentage body = None \/
  (exists q, Prepare.stakePercentage body = Some q /\
             (0 <= q)%Q /\ (q <= inject_Z 100)%Q /\ ~ is_integer q) ->
  exists m,
    Prepare.POST e (Return body) =
      Return (Prepare.json_error 500 ("Transaction preparation failed: " ++ m)).
Proof.
  intros Hready [Hnone|(q & Hq & H0 & H100 & Hfrac)].
  - exists "Cannot convert undefined to a BigInt".
    rewrite (POST_fraction_rejected e body pk team p
               "Cannot convert undefined to a BigInt" Hready);
      rewrite ?Hnone; reflexivity.
  - exists "The number cannot be converted to a BigInt because it is not an integer".
    rewrite (POST_fraction_rejected e body pk team p
               "The number cannot be converted to a BigInt because it is not an integer"
               Hready); rewrite ?Hq.
    + reflexivity.
    + cbn. destruct (Js.lt q 0) eqn:E; [|reflexivity]. apply lt_iff in E. lra.
    + cbn. now apply gt_false_iff.
    + now apply BigInt_of_fraction.
Qed.

Lemma percentage_that_is_no_integer_is_a_server_error_witness :
  exists m,
    Prepare.POST (Sample.prepare_env 1700000000000 "0.4fzyo82mvyr" true)
      (Return (Sample.request (5 # 2))) =
      Return (Prepare.json_error 500 ("Transaction preparation failed: " ++ m)).
Proof.
  apply (percentage_that_is_no_integer_is_a_server_error
           (Sample.prepare_env 1700000000000 "0.4fzyo82mvyr" true)
           (Sample.request (5 # 2)) "GALICE" "alpha"
           {| Prepare.asset := "EUR/USD"; Prepare.direction := true |}).
  - repeat split; cbn; congruence.
  - right. exists (5 # 2). split; [reflexivity|]. split; [lra|]. split; [vm_compute; congruence|].
    intros [z Hz]. unfold Qeq in Hz. cbn in Hz. lia.
Defined.

(** X7. When the [get_team] simulation reports an error or is rejected, the
    endpoint does not prepare the prediction: the transaction it answers
    forms the team with the caller as its only member, the answer says so in
    [operationType] and still carries a fresh prediction id. The asset, the
    direction and the stake of the request leave no trace: any other valid
    request of the same caller for the same team gets the same answer. *)
Theorem team_not_shown_is_formed_instead_of_predicting
    (e : Prepare.Env) body pk team p (q : Q) (pct : Z) :
  ready e body pk team p ->
  Prepare.stakePercentage body = Some q -> (q == inject_Z pct)%Q -> (1 <= pct <= 100)%Z ->
  team_not_shown e team ->
  Prepare.prepareTransaction e (Prepare.form_team team [pk]) = Return tt ->
  Prepare.POST e (Return body) =
    Return (Prepare.json_prepared
      {| Prepare.xdr := Prepare.form_team team [pk];
         Prepare.networkPassphrase := Prepare.STELLAR_NETWORK_PASSPHRASE e;
         Prepare.predictionId :=
           Prepare.make_predictionId team (Prepare.Date_now e)
             (Prepare.Math_random_toString_36 e);
         Prepare.operationType := "form_team" |}) /\
  (forall body' p' q' pct',
     ready e body' pk team p' ->
     Prepare.stakePercentage body' = Some q' -> (q' == inject_Z pct')%Q ->
     (1 <= pct' <= 100)%Z ->
     Prepare.POST e (Return body') = Prepare.POST e (Return body)).
Proof.
  assert (Hone : forall body p q pct,
    ready e body pk team p ->
    Prepare.stakePercentage body = Some q -> (q == inject_Z pct)%Q -> (1 <= pct <= 100)%Z ->
    team_not_shown e team ->
    Prepare.prepareTransaction e (Prepare.form_team team [pk]) = Return tt ->
    Prepare.POST e (Return body) =
      Return (Prepare.json_prepared
        {| Prepare.xdr := Prepare.form_team team [pk];
           Prepare.networkPassphrase := Prepare.STELLAR_NETWORK_PASSPHRASE e;
           Prepare.predictionId :=
             Prepare.make_predictionId team (Prepare.Date_now e)
               (Prepare.Math_random_toString_36 e);
           Prepare.operationType := "form_team" |})).
  { clear. intros body p q pct Hready Hq Hint Hrange Hteam Hprep.
    assert (Hrange' : (0 <= pct <= 100)%Z) by lia.
    destruct (range_flags q pct Hint Hrange') as [Hb Ha].
    pose proof (POST_ready e body pk team p pct Hready) as HP.
    rewrite Hq in HP. specialize (HP Hb Ha (BigInt_integer q pct Hint)).
    rewrite HP, stake_amount_kaleBalance.
    assert (Hpos : (10000000 * pct <=? 0)%Z = false) by (apply Z.leb_gt; lia).
    rewrite Hpos. unfold Prepare.build_operation.
    destruct Hteam as [Hsim|[m Hsim]]; rewrite Hsim; cbn [Prepare.has_error negb];
      rewrite Hprep; reflexivity. }
  intros Hready Hq Hint Hrange Hteam Hprep. split; [eauto|].
  intros body' p' q' pct' Hready' Hq' Hint' Hrange'.
  rewrite (Hone body p q pct), (Hone body' p' q' pct'); auto.
Qed.

Lemma team_not_shown_is_formed_instead_of_predicting_witness :
  Prepare.POST (Sample.prepare_env 1700000000000 "0.4fzyo82mvyr" false)
    (Return (Sample.request (inject_Z 50))) =
    Return (Prepare.json_prepared
      {| Prepare.xdr := Prepare.form_team "alpha" ["GALICE"];
         Prepare.networkPassphrase := "Test SDF Network ; September 2015";
         Prepare.predictionId := "alpha_1700000000000_82mvyr";
         Prepare.operationType := "form_team" |}).
Proof.
  refine (proj1 (team_not_shown_is_formed_instead_of_predicting
                   (Sample.prepare_env 1700000000000 "0.4fzyo82mvyr" false)
                   (Sample.request (inject_Z 50)) "GALICE" "alpha"
                   {| Prepare.asset := "EUR/USD"; Prepare.direction := true |}
                   (inject_Z 50) 50 _ eq_refl (Qeq_refl _) _ _ eq_refl)).
  - repeat split; cbn; congruence.
  - lia.
  - left. reflexivity.
Defined.

(** ** The user-team lookup when the contract cannot be asked *)

Lemma or_unknown_is_a_name (actualTeamName : option string) :
  UserTeam.or_unknown actualTeamName <> EmptyString.
Proof.
  unfold UserTeam.or_unknown. destruct actualTeamName as [s|]; [|discriminate].
  destruct (String.eqb s EmptyString) eqn:E; [discriminate|].
  intros ->. discriminate E.
Qed.

(** X8. Once the address is a valid key and the contract is configured, the
    user-team lookup answers [success: true] whatever happens: a team name
    only when the simulation returned a value that is not void, and then
    never an empty one ([unknown-team] when the value does not parse), and
    otherwise no team. A rejected simulation, or a result without a return
    value, is answered like an address without a team, apart from the
    message. *)
Theorem lookup_answers_success_whatever_happens
    {Ledger} (e : UserTeam.Env Ledger) (l : Ledger) (a : string) :
  a <> EmptyString ->
  UserTeam.Keypair_fromPublicKey e a = Return tt ->
  UserTeam.DAO_CONTRACT_ID e <> EmptyString ->
  (exists body,
     fst (UserTeam.getUserTeam e l (Some a)) = UserTeam.json_team body /\
     UserTeam.success body = true /\
     match UserTeam.teamName body with
     | Some name =>
         name <> EmptyString /\
         UserTeam.message body = "Team membership found" /\
         exists cv,
           UserTeam.simulateTransaction e l a = Return {| UserTeam.retval := Some cv |} /\
           UserTeam.switch_name cv <> "scvVoid"
     | None =>
         UserTeam.message body = "User is not a member of any team" \/
         UserTeam.message body = "Unable to determine team membership"
     end) /\
  (UserTeam.new_Contract e = Return tt ->
   (exists m, UserTeam.simulateTransaction e l a = Throw m) \/
   UserTeam.simulateTransaction e l a = Return {| UserTeam.retval := None |} ->
   fst (UserTeam.getUserTeam e l (Some a)) =
     UserTeam.json_team
       {| UserTeam.success := true; UserTeam.teamName := None;
          UserTeam.address := Some a;
          UserTeam.message := "Unable to determine team membership" |}).
Proof.
  intros Ha Hkey Hdao. unfold UserTeam.getUserTeam.
  cbn [Js.missing default from_option Datatypes.id].
  rewrite (eqb_false_of_ne _ _ Ha), Hkey, (eqb_false_of_ne _ _ Hdao).
  unfold UserTeam.call_contract, UserTeam.no_team. split.
  - assert (Hnone : forall message,
      message = "User is not a member of any team" \/
      message = "Unable to determine team membership" ->
      exists body,
        UserTeam.json_team
          {| UserTeam.success := true; UserTeam.teamName := None;
             UserTeam.address := Some a; UserTeam.message := message |}
          = UserTeam.json_team body /\
        UserTeam.success body = true /\
        match UserTeam.teamName body with
        | Some name =>
            name <> EmptyString /\
            UserTeam.message body = "Team membership found" /\
            exists cv,
              UserTeam.simulateTransaction e l a = Return {| UserTeam.retval := Some cv |} /\
              UserTeam.switch_name cv <> "scvVoid"
        | None =>
            UserTeam.message body = "User is not a member of any team" \/
            UserTeam.message body = "Unable to determine team membership"
        end).
    { intros message Hm. eexists. split; [reflexivity|]. split; [reflexivity|]. exact Hm. }
    destruct (UserTeam.new_Contract e) as [[]|m0]; [|apply Hnone; now left].
    destruct (UserTeam.simulateTransaction e l a) as [[[cv|]]|m] eqn:Hsim;
      cbn [bind UserTeam.retval fst]; try (apply Hnone; now right).
    destruct (String.eqb (UserTeam.switch_name cv) "scvVoid") eqn:Hvoid;
      cbn [fst]; [apply Hnone; now left|].
    eexists. cbn. split; [reflexivity|]. split; [reflexivity|].
    split; [apply or_unknown_is_a_name|]. split; [reflexivity|].
    exists cv. split; [reflexivity|]. now apply String.eqb_neq.
  - intros -> [[m Hsim]| Hsim]; rewrite Hsim; reflexivity.
Qed.

Lemma lookup_answers_success_whatever_happens_witness :
  fst (UserTeam.getUserTeam Cases.lookup_env_down tt (Some "GM")) =
    UserTeam.json_team
      {| UserTeam.success := true; UserTeam.teamName := None;
         UserTeam.address := Some "GM";
         UserTeam.message := "Unable to determine team membership" |}.
Proof.
  apply (lookup_answers_success_whatever_happens Cases.lookup_env_down tt "GM");
    try (cbn; congruence).
  left. exists "fetch failed". reflexivity.
Defined.

(** ** The team routes and white space *)

Lemma trim_start_pad (pad s : string) :
  forall_chars Teams.is_space pad = true -> Teams.trim_start (pad ++ s) = Teams.trim_start s.
Proof.
  induction pad as [|c pad IH]; unfold_append; [reflexivity|].
  cbn [forall_chars]. intros H. apply andb_true_iff in H as [Hc H].
  cbn [Teams.trim_start]. rewrite Hc. now apply IH.
Qed.

Lemma trim_start_of_white_space (pad : string) :
  forall_chars Teams.is_space pad = true -> Teams.trim_start pad = EmptyString.
Proof.
  induction pad as [|c pad IH]; [reflexivity|].
  cbn [forall_chars]. intros H. apply andb_true_iff in H as [Hc H].
  cbn [Teams.trim_start]. rewrite Hc. now apply IH.
Qed.

(** After the leading white space is gone, trailing white space is still
    there, unless nothing else was. *)
Lemma trim_start_before_pad (s pad : string) :
  forall_chars Teams.is_space pad = true ->
  exists pad', forall_chars Teams.is_space pad' = true /\
               Teams.trim_start (s ++ pad) = Teams.trim_start s ++ pad'.
Proof.
  intros Hpad. induction s as [|c s IH]; unfold_append.
  - exists EmptyString. split; [reflexivity|].
    now rewrite (trim_start_of_white_space pad Hpad).
  - cbn [Teams.trim_start]. destruct (Teams.is_space c); [exact IH|].
    exists pad. split; [exact Hpad|]. now unfold_append.
Qed.

Lemma rev_string_append (a b acc : string) :
  Teams.rev_string (a ++ b) acc = Teams.rev_string b (Teams.rev_string a acc).
Proof.
  revert acc. induction a as [|c a IH]; intros acc; unfold_append; [reflexivity|].
  cbn [Teams.rev_string]. apply IH.
Qed.

Lemma rev_string_acc (a acc : string) :
  Teams.rev_string a acc = Teams.rev_string a EmptyString ++ acc.
Proof.
  revert acc. induction a as [|c a IH]; intros acc; cbn [Teams.rev_string]; [reflexivity|].
  rewrite (IH (String c acc)), (IH (String c EmptyString)), append_assoc. reflexivity.
Qed.

Lemma forall_chars_rev_string (f : ascii -> bool) (a acc : string) :
  forall_chars f a = true -> forall_chars f acc = true ->
  forall_chars f (Teams.rev_string a acc) = true.
Proof.
  revert acc. induction a as [|c a IH]; intros acc Ha Hacc; cbn [Teams.rev_string]; [exact Hacc|].
  cbn [forall_chars] in Ha. apply andb_true_iff in Ha as [Hc Ha].
  apply IH; [exact Ha|]. cbn [forall_chars]. now rewrite Hc, Hacc.
Qed.

Lemma trim_pad (before s after : string) :
  forall_chars Teams.is_space before = true ->
  forall_chars Teams.is_space after = true ->
  Teams.trim (before ++ s ++ after) = Teams.trim s.
Proof.
  intros Hb Ha. unfold Teams.trim. rewrite (trim_start_pad before _ Hb).
  destruct (trim_start_before_pad s after Ha) as (pad & Hpad & ->).
  rewrite rev_string_append.
  rewrite (rev_string_acc pad (Teams.rev_string (Teams.trim_start s) EmptyString)).
  rewrite trim_start_pad; [reflexivity|].
  now apply forall_chars_rev_string.
Qed.

Lemma append_not_empty (a b c : string) : b <> EmptyString -> a ++ b ++ c <> EmptyString.
Proof.
  intros Hb. destruct a as [|x a]; unfold_append; [|discriminate].
  destruct b as [|y b]; [congruence|]. unfold_append. discriminate.
Qed.

(** X9. White space around the team name is insignificant to both team
    routes: a name with ASCII white space (space, tab, line feed, vertical
    tab, form feed, carriage return) added before and after it gets the
    answer of the name itself, from the create route and from the join
    route. *)
Theorem white_space_around_team_name_is_insignificant
    (e : Teams.Env) (publicKey : option string) (before name after : string) :
  forall_chars Teams.is_space before = true ->
  forall_chars Teams.is_space after = true ->
  name <> EmptyString ->
  Teams.trim (before ++ name ++ after) = Teams.trim name /\
  Teams.create e publicKey (Some (before ++ name ++ after))
    = Teams.create e publicKey (Some name) /\
  Teams.join e publicKey (Some (before ++ name ++ after))
    = Teams.join e publicKey (Some name).
Proof.
  intros Hb Ha Hname. pose proof (trim_pad before name after Hb Ha) as Htrim.
  pose proof (append_not_empty before name after Hname) as Hlong.
  split; [exact Htrim|].
  unfold Teams.create, Teams.join. cbn [Js.missing default from_option Datatypes.id].
  rewrite (eqb_false_of_ne _ _ Hname), (eqb_false_of_ne _ _ Hlong), Htrim.
  split; reflexivity.
Qed.

Lemma white_space_around_team_name_is_insignificant_witness :
  Teams.create (Cases.teams_env (Throw "fetch failed")) (Some "GM") (Some "  alpha ")
    = Teams.create (Cases.teams_env (Throw "fetch failed")) (Some "GM") (Some "alpha").
Proof.
  refine (proj1 (proj2 (white_space_around_team_name_is_insignificant
                          (Cases.teams_env (Throw "fetch failed")) (Some "GM")
                          "  " "alpha" " " eq_refl eq_refl _))).
  discriminate.
Defined.

(** ** What the team routes prepare *)

Lemma check_user_and_prepare_inv (e : Teams.Env) (pk team message : string) b :
  Teams.check_user_and_prepare e pk team message = Return (Teams.json_prepared b) ->
  Teams.xdr b = Teams.form_team team [pk] /\ Teams.teamName b = team /\
  Teams.networkPassphrase b = Teams.STELLAR_NETWORK_PASSPHRASE e /\
  Teams.message b = message.
Proof.
  unfold Teams.check_user_and_prepare.
  destruct (match Teams.get_user_team e pk with Return _ => _ | Throw _ => _ end);
    [discriminate|].
  destruct (Teams.prepareTransaction e _) as [[]|m]; cbn [bind]; [|discriminate].
  intros H. apply Return_inj in H. injection H as <-. repeat split.
Qed.

Lemma create_prepared_inv (e : Teams.Env) (publicKey teamName : option string) b :
  Teams.create e publicKey teamName = Return (Teams.json_prepared b) ->
  exists pk name,
    publicKey = Some pk /\ teamName = Some name /\
    Teams.xdr b = Teams.form_team (Teams.trim name) [pk] /\
    Teams.teamName b = Teams.trim name /\
    Teams.networkPassphrase b = Teams.STELLAR_NETWORK_PASSPHRASE e /\
    (2 <= String.length (Teams.trim name) <= 32)%nat.
Proof.
  unfold Teams.create. destruct publicKey as [pk|]; [|discriminate].
  destruct teamName as [name|]; [|cbn; rewrite orb_true_r; discriminate].
  destruct (_ || _); cbn [try_catch default from_option Datatypes.id]; [discriminate|].
  cbv zeta. destruct (_ || _) eqn:Hlen; [discriminate|].
  destruct (Teams.Keypair_fromPublicKey e pk) as [[]|m]; [|discriminate].
  destruct (String.eqb _ _); [discriminate|].
  destruct (Teams.loadAccount e pk) as [[]|m]; [|discriminate].
  destruct (Teams.new_Contract e) as [[]|m]; cbn [bind try_catch]; [|discriminate].
  destruct (match Teams.get_team e _ with Return _ => _ | Throw _ => _ end);
    [discriminate|].
  destruct (Teams.check_user_and_prepare e pk _ _) as [r|m] eqn:Hcheck;
    cbn [try_catch]; [|discriminate].
  intros H. apply Return_inj in H. subst r.
  destruct (check_user_and_prepare_inv _ _ _ _ _ Hcheck) as (Hx & Ht & Hn & _).
  exists pk, name. repeat split; auto.
  - apply orb_false_iff in Hlen as [H _]. now apply Nat.ltb_ge in H.
  - apply orb_false_iff in Hlen as [_ H]. now apply Nat.ltb_ge in H.
Qed.

Lemma join_prepared_inv (e : Teams.Env) (publicKey teamName : option string) b :
  Teams.join e publicKey teamName = Return (Teams.json_prepared b) ->
  exists pk name,
    publicKey = Some pk /\ teamName = Some name /\
    Teams.xdr b = Teams.form_team (Teams.trim name) [pk] /\
    Teams.teamName b = Teams.trim name /\
    Teams.networkPassphrase b = Teams.STELLAR_NETWORK_PASSPHRASE e.
Proof.
  unfold Teams.join. destruct publicKey as [pk|]; [|discriminate].
  destruct teamName as [name|]; [|cbn; rewrite orb_true_r; discriminate].
  destruct (_ || _); cbn [try_catch default from_option Datatypes.id]; [discriminate|].
  cbv zeta.
  destruct (Teams.Keypair_fromPublicKey e pk) as [[]|m]; [|discriminate].
  destruct (String.eqb _ _); [discriminate|].
  destruct (Teams.loadAccount e pk) as [[]|m]; [|discriminate].
  destruct (Teams.new_Contract e) as [[]|m]; cbn [bind try_catch]; [|discriminate].
  destruct (Teams.get_team e _) as [r0|m]; [|discriminate].
  destruct (Teams.is_void r0); [discriminate|].
  destruct (Teams.check_user_and_prepare e pk _ _) as [r|m] eqn:Hcheck;
    cbn [try_catch]; [|discriminate].
  intros H. apply Return_inj in H. subst r.
  destruct (check_user_and_prepare_inv _ _ _ _ _ Hcheck) as (Hx & Ht & Hn & _).
  exists pk, name. repeat split; auto.
Qed.

(** X10. Whatever the create route prepares is a [form_team] call for the
    trimmed name, of 2 to 32 characters, with the caller as the only member;
    whatever the join route prepares is a [form_team] call of the same shape
    for the name to join. When both routes prepare a transaction for one
    request, it is the same transaction: joining adds nobody to a team, it
    forms the team anew. *)
Theorem join_prepares_the_transaction_of_create
    (e : Teams.Env) (publicKey teamName : option string) :
  (forall b,
     Teams.create e publicKey teamName = Return (Teams.json_prepared b) ->
     exists pk name,
       publicKey = Some pk /\ teamName = Some name /\
       Teams.xdr b = Teams.form_team (Teams.trim name) [pk] /\
       Teams.teamName b = Teams.trim name /\
       (2 <= String.length (Teams.teamName b) <= 32)%nat) /\
  (forall b,
     Teams.join e publicKey teamName = Return (Teams.json_prepared b) ->
     exists pk name,
       publicKey = Some pk /\ teamName = Some name /\
       Teams.xdr b = Teams.form_team (Teams.trim name) [pk] /\
       Teams.teamName b = Teams.trim name) /\
  (forall b b',
     Teams.create e publicKey teamName = Return (Teams.json_prepared b) ->
     Teams.join e publicKey teamName = Return (Teams.json_prepared b') ->
     Teams.xdr b' = Teams.xdr b /\
     Teams.teamName b' = Teams.teamName b /\
     Teams.networkPassphrase b' = Teams.networkPassphrase b).
Proof.
  split; [|split].
  - intros b H. destruct (create_prepared_inv e _ _ b H) as (pk & name & ? & ? & ? & Ht & _ & ?).
    exists pk, name. rewrite Ht. auto.
  - intros b H. destruct (join_prepared_inv e _ _ b H) as (pk & name & ? & ? & ? & ? & _).
    exists pk, name. auto.
  - intros b b' Hc Hj.
    destruct (create_prepared_inv e _ _ b Hc) as (pk & name & -> & -> & Hx & Ht & Hn & _).
    destruct (join_prepared_inv e _ _ b' Hj) as (pk' & name' & Hpk & Hname & Hx' & Ht' & Hn').
    injection Hpk as <-. injection Hname as <-. rewrite Hx, Hx', Ht, Ht', Hn, Hn'. auto.
Qed.

Lemma join_prepares_the_transaction_of_create_witness :
  exists b b',
    Teams.create (Cases.teams_env (Return {| Teams.switch_name := None |}))
      (Some "GM") (Some "alpha") = Return (Teams.json_prepared b) /\
    Teams.join (Cases.teams_env (Return {| Teams.switch_name := None |}))
      (Some "GM") (Some "alpha") = Return (Teams.json_prepared b') /\
    Teams.xdr b' = Teams.xdr b /\
    Teams.xdr b = Teams.form_team "alpha" ["GM"].
Proof.
  pose proof (proj2 (proj2 (join_prepares_the_transaction_of_create
                              (Cases.teams_env (Return {| Teams.switch_name := None |}))
                              (Some "GM") (Some "alpha")))) as H.
  eexists. eexists. split; [vm_compute; reflexivity|]. split; [vm_compute; reflexivity|].
  split; [|reflexivity].
  refine (proj1 (H _ _ _ _)); vm_compute; reflexivity.
Defined.

Lemma join_validated_runs (e : Teams.Env) (pk name : string) :
  create_validated e pk name ->
  Teams.join e (Some pk) (Some name) =
    match Teams.get_team e (Teams.trim name) with
    | Throw _ =>
        Return (Teams.json_error 400
          ("Team " ++ Teams.quoted (Teams.trim name) ++ " does not exist"))
    | Return teamResult =>
        if Teams.is_void teamResult then
          Return (Teams.json_error 400
            ("Team " ++ Teams.quoted (Teams.trim name) ++
             " does not exist. Please check the team name or create a new team."))
        else join_goes_on e pk name
    end.
Proof.
  intros (Hpk & Hname & _ & Hkey & Hdao & Hacc & Hc).
  unfold Teams.join, join_goes_on. cbn [Js.missing default from_option Datatypes.id].
  rewrite (eqb_false_of_ne _ _ Hpk), (eqb_false_of_ne _ _ Hname). cbn [orb]. cbv zeta.
  rewrite Hkey, (eqb_false_of_ne _ _ Hdao), Hacc, Hc. cbn [bind].
  destruct (Teams.get_team e (Teams.trim name)) as [r|m]; [|reflexivity].
  destruct (Teams.is_void r); reflexivity.
Qed.

(** X11. The two team routes read the [get_team] simulation differently.
    A rejected simulation stops the join route (the team "does not exist")
    and lets the create route go on; a void value stops the join route and
    lets the create route go on; any other value stops the create route (the
    team "already exists") and lets the join route go on; and a result that
    carries no return value stops neither: both routes go on to the
    membership check and the [form_team] transaction. *)
Theorem team_routes_read_the_team_simulation_differently
    (e : Teams.Env) (pk name : string) :
  create_validated e pk name ->
  (forall m,
     Teams.get_team e (Teams.trim name) = Throw m ->
     Teams.join e (Some pk) (Some name) =
       Return (Teams.json_error 400
         ("Team " ++ Teams.quoted (Teams.trim name) ++ " does not exist")) /\
     Teams.create e (Some pk) (Some name) = create_goes_on e pk name) /\
  (forall r,
     Teams.get_team e (Teams.trim name) = Return r ->
     (Teams.is_void r = true ->
      Teams.join e (Some pk) (Some name) =
        Return (Teams.json_error 400
          ("Team " ++ Teams.quoted (Teams.trim name) ++
           " does not exist. Please check the team name or create a new team.")) /\
      Teams.create e (Some pk) (Some name) = create_goes_on e pk name) /\
     (Teams.non_void r = true ->
      Teams.create e (Some pk) (Some name) =
        Return (Teams.json_error 400
          ("Team " ++ Teams.quoted (Teams.trim name) ++
           " already exists. Please choose a different name or join the existing team.")) /\
      Teams.join e (Some pk) (Some name) = join_goes_on e pk name) /\
     (Teams.switch_name r = None ->
      Teams.create e (Some pk) (Some name) = create_goes_on e pk name /\
      Teams.join e (Some pk) (Some name) = join_goes_on e pk name)).
Proof.
  intros Hv. rewrite (create_validated_runs e pk name Hv), (join_validated_runs e pk name Hv).
  fold (create_goes_on e pk name). split.
  - intros m ->. split; reflexivity.
  - intros r ->. unfold Teams.is_void, Teams.non_void.
    destruct (Teams.switch_name r) as [s|]; [|repeat split; discriminate].
    destruct (String.eqb s "scvVoid"); repeat split; discriminate.
Qed.

Lemma team_routes_read_the_team_simulation_differently_witness :
  Teams.create (Cases.teams_env (Return {| Teams.switch_name := None |}))
    (Some "GM") (Some "alpha")
  = create_goes_on (Cases.teams_env (Return {| Teams.switch_name := None |})) "GM" "alpha" /\
  Teams.join (Cases.teams_env (Return {| Teams.switch_name := None |}))
    (Some "GM") (Some "alpha")
  = join_goes_on (Cases.teams_env (Return {| Teams.switch_name := None |})) "GM" "alpha".
Proof.
  assert (Hv : create_validated (Cases.teams_env (Return {| Teams.switch_name := None |}))
                 "GM" "alpha").
  { repeat split; try (cbn; congruence); vm_compute; repeat constructor. }
  destruct (team_routes_read_the_team_simulation_differently
              (Cases.teams_env (Return {| Teams.switch_name := None |})) "GM" "alpha" Hv)
    as [_ H].
  exact (proj2 (proj2 (H {| Teams.switch_name := None |} eq_refl)) eq_refl).
Defined.

(** ** The oracle-price endpoint *)

Lemma own_property_in (literal : list (string * Q)) (key : string) (q : Q) :
  JsObject.own_property literal key = Some q -> In q (map snd literal).
Proof.
  induction literal as [|[k v] literal IH]; cbn; [discriminate|].
  destruct (JsObject.own_property literal key) as [q'|].
  - intros H. right. now apply IH.
  - destruct (String.eqb k key); [|discriminate]. intros H. injection H as <-. now left.
Qed.

Lemma mockPrices_positive (asset : string) (base : Q) :
  JsObject.get OraclePrice.mockPrices asset = JsObject.own base -> (0 < base)%Q.
Proof.
  unfold JsObject.get.
  destruct (JsObject.own_property OraclePrice.mockPrices asset) as [q|] eqn:E;
    [|destruct (existsb _ _); discriminate].
  intros H. injection H as <-. apply own_property_in in E. cbn in E.
  repeat (destruct E as [<-|E]; [reflexivity|]). contradiction.
Qed.

Lemma positive_is_truthy (q : Q) : (0 < q)%Q -> JsObject.truthy (JsObject.own q) = true.
Proof.
  intros H. cbn. unfold Js.Qeqb. destruct (Qle_bool q 0) eqn:E; [|reflexivity].
  apply Qle_bool_iff in E. lra.
Qed.

Lemma POST_named_asset (e : OraclePrice.Env) (asset : string) :
  asset <> EmptyString ->
  OraclePrice.POST e (Return (Some asset)) =
    Return
      match (if String.eqb (OraclePrice.REFLECTOR_CONTRACT_ID e) EmptyString then None
             else match OraclePrice.oracle_try e asset with
                  | Return answer => answer
                  | Throw _ => None
                  end) with
      | Some response => response
      | None => OraclePrice.mock e asset
      end.
Proof.
  intros Ha. unfold OraclePrice.POST. cbn [bind Js.missing default from_option Datatypes.id].
  rewrite (eqb_false_of_ne _ _ Ha). cbv zeta.
  destruct (if String.eqb _ _ then _ else _); reflexivity.
Qed.

Lemma oracle_try_answers (e : OraclePrice.Env) (asset : string) response :
  OraclePrice.oracle_try e asset = Return (Some response) ->
  exists body, response = OraclePrice.json_price body /\
               OraclePrice.success body = true /\
               OraclePrice.source body = "Reflector Oracle".
Proof.
  unfold OraclePrice.oracle_try.
  destruct (OraclePrice.new_Contract e) as [[]|m]; cbn [bind]; [|discriminate].
  destruct (OraclePrice.simulateTransaction e _) as [[[[|[|n|]|]|]]|m]; cbn [bind OraclePrice.retval];
    try discriminate; intros H; apply Return_inj in H; injection H as <-; eauto.
Qed.

(** X12. The oracle-price endpoint answers every named asset with
    [success: true]: with the oracle's answer, or else with a price from its
    table. With no oracle configured it is the table price; that price is
    the table entry of the asset moved by less than half a percent, the
    entry of EUR/USD (1.0856) for an asset the table does not list, and not
    a number for an asset named like a property every object inherits
    ([toString], [constructor], ...). *)
Theorem oracle_price_falls_back_to_the_table (e : OraclePrice.Env) (asset : string) :
  asset <> EmptyString ->
  (exists body,
     OraclePrice.POST e (Return (Some asset)) = Return (OraclePrice.json_price body) /\
     OraclePrice.success body = true /\
     (OraclePrice.source body = "Reflector Oracle" \/
      OraclePrice.json_price body = OraclePrice.mock e asset)) /\
  (OraclePrice.REFLECTOR_CONTRACT_ID e = EmptyString ->
   OraclePrice.POST e (Return (Some asset)) = Return (OraclePrice.mock e asset)) /\
  (Js.is_random (OraclePrice.Math_random e) ->
   exists body,
     OraclePrice.mock e asset = OraclePrice.json_price body /\
     OraclePrice.source body = "Mock Oracle (Reflector Simulation)" /\
     match JsObject.get OraclePrice.mockPrices asset with
     | JsObject.own base =>
         exists p, OraclePrice.price body = JsObject.finite p /\
                   (base * (995 # 1000) <= p)%Q /\ (p < base * (1005 # 1000))%Q /\
                   (0 < p)%Q
     | JsObject.absent =>
         exists p, OraclePrice.price body = JsObject.finite p /\
                   ((10856 # 10000) * (995 # 1000) <= p)%Q /\
                   (p < (10856 # 10000) * (1005 # 1000))%Q
     | JsObject.inherited => OraclePrice.price body = JsObject.NaN
     end).
Proof.
  intros Ha. rewrite (POST_named_asset e asset Ha). split; [|split].
  - destruct (String.eqb _ _); [eexists; split; [reflexivity|]; split; [reflexivity|now right]|].
    destruct (OraclePrice.oracle_try e asset) as [[response|]|m] eqn:Htry;
      try (eexists; split; [reflexivity|]; split; [reflexivity|now right]).
    destruct (oracle_try_answers e asset response Htry) as (body & -> & Hs & Hsrc).
    exists body. auto.
  - intros ->. reflexivity.
  - intros [H0 H1]. eexists. split; [reflexivity|]. split; [reflexivity|].
    cbn [OraclePrice.price]. unfold OraclePrice.basePrice.
    destruct (JsObject.get OraclePrice.mockPrices asset) as [base| |] eqn:Hget.
    + pose proof (mockPrices_positive asset base Hget) as Hpos.
      unfold JsObject.or. rewrite (positive_is_truthy base Hpos). cbn.
      eexists. split; [reflexivity|].
      set (f := (1 + (OraclePrice.Math_random e - (1 # 2)) * (1 # 100))%Q).
      assert (Hf : (995 # 1000 <= f)%Q /\ (f < 1005 # 1000)%Q) by (unfold f; split; lra).
      destruct Hf as [Hf0 Hf1]. repeat split.
      * now apply Qmult_le_l.
      * now apply Qmult_lt_l.
      * apply Qmult_lt_0_compat; [exact Hpos|lra].
    + reflexivity.
    + cbn. eexists. split; [reflexivity|]. split; lra.
Qed.

Lemma oracle_price_falls_back_to_the_table_witness :
  OraclePrice.POST Cases.oracle_price_env_unset (Return (Some "DOGE/USD"))
    = Return (OraclePrice.mock Cases.oracle_price_env_unset "DOGE/USD") /\
  exists body,
    OraclePrice.mock Cases.oracle_price_env_unset "toString" = OraclePrice.json_price body /\
    OraclePrice.price body = JsObject.NaN.
Proof.
  split.
  - apply (oracle_price_falls_back_to_the_table Cases.oracle_price_env_unset "DOGE/USD");
      [discriminate|reflexivity].
  - destruct (oracle_price_falls_back_to_the_table Cases.oracle_price_env_unset "toString")
      as (_ & _ & H); [discriminate|].
    destruct H as (body & Hbody & _ & Hprice); [split; vm_compute; congruence|].
    exists body. split; [exact Hbody|]. exact Hprice.
Defined.

Lemma getLastPrice_on_i128 (o : Reflector.Oracle) (asset : string) (raw : option Z) :
  Reflector.new_Contract o = Return tt ->
  Reflector.simulateTransaction o
    = Return {| Reflector.retval := Some (Reflector.cvI128 raw) |} ->
  Reflector.toISOString (Reflector.Date_now o) = Return tt ->
  Reflector.getLastPrice o asset =
    if Js.gt (Reflector.parseScvValue (Reflector.scvI128 raw) / Reflector.e14) 0
    then Return {| Reflector.price :=
                     (Reflector.parseScvValue (Reflector.scvI128 raw) / Reflector.e14)%Q;
                   Reflector.timestamp := Reflector.Date_now o |}
    else Return (Reflector.mock o asset).
Proof.
  intros Hc Hsim Ht. unfold Reflector.getLastPrice, Reflector.getLastPrice_try.
  rewrite Hc. cbn [bind]. rewrite Hsim. cbn [bind Reflector.retval Reflector.parse_price].
  destruct (Js.gt _ 0); [rewrite Ht|]; reflexivity.
Qed.

Lemma e14_positive : (0 < Reflector.e14)%Q.
Proof. reflexivity. Qed.

Lemma scaled_price_sign (n : Z) :
  Js.gt (inject_Z n / Reflector.e14) 0 = true <-> (0 < n)%Z.
Proof.
  rewrite gt_iff. split.
  - intros H. destruct (Z.lt_ge_cases 0 n) as [Hn|Hn]; [exact Hn|]. exfalso.
    assert (Hle : (inject_Z n / Reflector.e14 <= 0)%Q).
    { apply Qle_shift_div_r; [exact e14_positive|].
      rewrite Qmult_0_l. change 0%Q with (inject_Z 0). now rewrite <- Zle_Qle. }
    lra.
  - intros Hn. apply Qlt_shift_div_l; [exact e14_positive|].
    rewrite Qmult_0_l. change 0%Q with (inject_Z 0). now rewrite <- Zlt_Qlt.
Qed.

(** X13. On one and the same answer of the oracle, an i128, the oracle-price
    endpoint and the Reflector client of the resolution endpoint agree only
    on a positive price: the value divided by 10^14. A value that is zero or
    negative is served as it is by the endpoint, as a price of the oracle,
    where the client discards it for a mock price; a value that does not
    parse is served as not-a-number by the endpoint; a falsy value sends both
    to their mock prices. *)
Theorem oracle_price_endpoint_serves_what_the_client_discards
    (e : OraclePrice.Env) (o : Reflector.Oracle) (asset : string)
    (v : OraclePrice.I128Value) :
  asset <> EmptyString ->
  OraclePrice.REFLECTOR_CONTRACT_ID e <> EmptyString ->
  OraclePrice.new_Contract e = Return tt ->
  OraclePrice.simulateTransaction e (OraclePrice.assetParam asset)
    = Return {| OraclePrice.retval := Some (OraclePrice.scvI128 v) |} ->
  Reflector.new_Contract o = Return tt ->
  Reflector.simulateTransaction o
    = Return {| Reflector.retval := Some (Reflector.cvI128 (OraclePrice.as_raw v)) |} ->
  Reflector.toISOString (Reflector.Date_now o) = Return tt ->
  match v with
  | OraclePrice.parses n =>
      OraclePrice.POST e (Return (Some asset)) =
        Return (OraclePrice.json_price
          {| OraclePrice.asset := asset;
             OraclePrice.price := JsObject.finite (inject_Z n / Reflector.e14);
             OraclePrice.timestamp := OraclePrice.Date_now e;
             OraclePrice.source := "Reflector Oracle";
             OraclePrice.success := true |}) /\
      ((0 < n)%Z ->
       Reflector.getLastPrice o asset =
         Return {| Reflector.price := (inject_Z n / Reflector.e14)%Q;
                   Reflector.timestamp := Reflector.Date_now o |}) /\
      ((n <= 0)%Z ->
       (inject_Z n / Reflector.e14 <= 0)%Q /\
       Reflector.getLastPrice o asset = Return (Reflector.mock o asset))
  | OraclePrice.unparsable =>
      OraclePrice.POST e (Return (Some asset)) =
        Return (OraclePrice.json_price
          {| OraclePrice.asset := asset;
             OraclePrice.price := JsObject.NaN;
             OraclePrice.timestamp := OraclePrice.Date_now e;
             OraclePrice.source := "Reflector Oracle";
             OraclePrice.success := true |}) /\
      Reflector.getLastPrice o asset = Return (Reflector.mock o asset)
  | OraclePrice.falsyValue =>
      OraclePrice.POST e (Return (Some asset)) = Return (OraclePrice.mock e asset) /\
      Reflector.getLastPrice o asset = Return (Reflector.mock o asset)
  end.
Proof.
  intros Ha Hid Hc Hsim Hc' Hsim' Ht.
  rewrite (POST_named_asset e asset Ha), (eqb_false_of_ne _ _ Hid).
  rewrite (getLastPrice_on_i128 o asset _ Hc' Hsim' Ht).
  unfold OraclePrice.oracle_try. rewrite Hc. cbn [bind]. rewrite Hsim.
  cbn [bind OraclePrice.retval].
  destruct v as [|n|]; cbn [OraclePrice.as_raw Reflector.parseScvValue].
  - split; reflexivity.
  - split; [reflexivity|]. split.
    + intros Hn. apply scaled_price_sign in Hn. now rewrite Hn.
    + intros Hn. destruct (Js.gt (inject_Z n / Reflector.e14) 0) eqn:E.
      * apply scaled_price_sign in E. lia.
      * split; [now apply gt_false_iff|reflexivity].
  - split; reflexivity.
Qed.

Lemma oracle_price_endpoint_serves_what_the_client_discards_witness :
  OraclePrice.POST (Cases.oracle_price_env (OraclePrice.parses (-5))) (Return (Some "EUR/USD")) =
    Return (OraclePrice.json_price
      {| OraclePrice.asset := "EUR/USD";
         OraclePrice.price := JsObject.finite (inject_Z (-5) / Reflector.e14);
         OraclePrice.timestamp := inject_Z 1700000000000;
         OraclePrice.source := "Reflector Oracle";
         OraclePrice.success := true |}) /\
  Reflector.getLastPrice (Cases.client_oracle (OraclePrice.parses (-5))) "EUR/USD"
    = Return (Reflector.mock (Cases.client_oracle (OraclePrice.parses (-5))) "EUR/USD").
Proof.
  assert (Hne : "EUR/USD" <> EmptyString) by discriminate.
  assert (Hid : "CREFLECTOR" <> EmptyString) by discriminate.
  assert (Hle : (-5 <= 0)%Z) by lia.
  destruct (oracle_price_endpoint_serves_what_the_client_discards
              (Cases.oracle_price_env (OraclePrice.parses (-5)))
              (Cases.client_oracle (OraclePrice.parses (-5)))
              "EUR/USD" (OraclePrice.parses (-5)) Hne Hid eq_refl eq_refl eq_refl eq_refl eq_refl)
    as (H1 & _ & H3).
  split; [exact H1|]. exact (proj2 (H3 Hle)).
Defined.

(** ** The price chart *)

Lemma loop_length (e : Dashboard.Env) (timeframe : string) (basePrice : JsObject.Number)
    (i draw : nat) :
  List.length (Dashboard.loop e timeframe basePrice i draw) = S i.
Proof.
  revert draw. induction i as [|i IH]; intros draw; cbn [Dashboard.loop List.length];
    [reflexivity|]. now rewrite IH.
Qed.

(** The point at index [k] is the one the loop makes at [i - k], with the
    draws [2k] and [2k + 1] after the first. *)
Lemma loop_lookup (e : Dashboard.Env) (timeframe : string) (basePrice : JsObject.Number)
    (i draw k : nat) :
  (k <= i)%nat ->
  Dashboard.loop e timeframe basePrice i draw !! k
    = Some (Dashboard.point e timeframe basePrice (i - k) (draw + 2 * k)).
Proof.
  revert draw k. induction i as [|i IH]; intros draw k Hk.
  - assert (k = 0%nat) as -> by lia. cbn. do 2 f_equal. lia.
  - destruct k as [|k]; cbn [Dashboard.loop lookup list_lookup].
    + do 2 f_equal. lia.
    + rewrite IH by lia. do 2 f_equal; lia.
Qed.

Lemma loop_elements (e : Dashboard.Env) (timeframe : string) (basePrice : JsObject.Number)
    (i draw : nat) (d : Dashboard.PriceData) :
  In d (Dashboard.loop e timeframe basePrice i draw) ->
  exists j k, d = Dashboard.point e timeframe basePrice j k.
Proof.
  revert draw. induction i as [|i IH]; intros draw; cbn [Dashboard.loop In].
  - intros [<-|[]]. eauto.
  - intros [<-|H]; [eauto|]. now apply IH in H.
Qed.

Lemma interval_positive (timeframe : string) : (0 < Dashboard.interval timeframe)%Q.
Proof.
  unfold Dashboard.interval. repeat (destruct (String.eqb timeframe _); [reflexivity|]).
  reflexivity.
Qed.

(** X14. The chart holds one point more than the number [getDataPoints]
    gives for the time frame (61, 25, 169 and 721 points), whatever the
    asset. Its timestamps are one interval apart and rise strictly, from
    [points] intervals before the current time to the current time itself.
    With the intervals of the source the 1H and 24H charts span an hour and
    a day, and the 7D and 30D charts span 168 and 5040 days. *)
Theorem chart_has_one_point_more_than_asked
    (e : Dashboard.Env) (timeframe : string) (points : nat) (basePrice : JsObject.Number) :
  List.length (Dashboard.generateMockData e timeframe points basePrice) = S points /\
  (forall k, (k <= points)%nat ->
     exists d,
       Dashboard.generateMockData e timeframe points basePrice !! k = Some d /\
       Dashboard.timestamp d =
         (Dashboard.Date_now e
          - inject_Z (Z.of_nat (points - k)) * Dashboard.interval timeframe)%Q) /\
  (exists d,
     Dashboard.generateMockData e timeframe points basePrice !! points = Some d /\
     (Dashboard.timestamp d == Dashboard.Date_now e)%Q) /\
  (forall j k d d',
     (j < k)%nat ->
     Dashboard.generateMockData e timeframe points basePrice !! j = Some d ->
     Dashboard.generateMockData e timeframe points basePrice !! k = Some d' ->
     (Dashboard.timestamp d < Dashboard.timestamp d')%Q) /\
  (forall asset,
     List.length (Dashboard.mockData e asset timeframe)
       = S (Dashboard.getDataPoints timeframe)) /\
  map (fun tf => S (Dashboard.getDataPoints tf)) ["1H"; "24H"; "7D"; "30D"]
    = [61; 25; 169; 721]%nat /\
  (span "1H" == day / inject_Z 24)%Q /\ (span "24H" == day)%Q /\
  (span "7D" == inject_Z 168 * day)%Q /\ (span "30D" == inject_Z 5040 * day)%Q.
Proof.
  unfold Dashboard.mockData, Dashboard.generateMockData.
  split; [apply loop_length|]. split; [|split; [|split; [|split]]].
  - intros k Hk. eexists. split; [now apply loop_lookup|]. reflexivity.
  - eexists. split; [now apply loop_lookup|]. cbn [Dashboard.point Dashboard.timestamp].
    rewrite Nat.sub_diag. change (inject_Z (Z.of_nat 0)) with 0%Q. ring.
  - intros j k d d' Hjk Hj Hk.
    assert (Hk' : (k <= points)%nat).
    { apply lookup_lt_Some in Hk. rewrite loop_length in Hk. lia. }
    rewrite loop_lookup in Hj, Hk by lia. injection Hj as <-. injection Hk as <-.
    cbn [Dashboard.point Dashboard.timestamp].
    pose proof (interval_positive timeframe) as Hi.
    assert (Hlt : (inject_Z (Z.of_nat (points - k)) < inject_Z (Z.of_nat (points - j)))%Q).
    { rewrite <- Zlt_Qlt. lia. }
    assert (Hm : (inject_Z (Z.of_nat (points - k)) * Dashboard.interval timeframe
                  < inject_Z (Z.of_nat (points - j)) * Dashboard.interval timeframe)%Q).
    { now apply Qmult_lt_compat_r. }
    lra.
  - intros asset. apply loop_length.
  - repeat split.
Qed.

Lemma chart_has_one_point_more_than_asked_witness :
  exists d,
    Dashboard.generateMockData Cases.chart_env "24H" 24 (JsObject.finite 1) !! 0%nat = Some d /\
    Dashboard.timestamp d =
      (inject_Z 1700000000000 - inject_Z (Z.of_nat (24 - 0)) * Dashboard.interval "24H")%Q.
Proof.
  destruct (chart_has_one_point_more_than_asked Cases.chart_env "24H" 24 (JsObject.finite 1))
    as (_ & H & _).
  apply (H 0%nat). lia.
Defined.

Lemma nearest_millionth_is_near (x : Q) :
  (x - (1 # 2000000) < Dashboard.nearest_millionth x)%Q /\
  (Dashboard.nearest_millionth x <= x + (1 # 2000000))%Q.
Proof.
  unfold Dashboard.nearest_millionth.
  set (y := (x * inject_Z 1000000 + (1 # 2))%Q).
  pose proof (Qfloor_le y) as Hle. pose proof (Qlt_floor y) as Hlt.
  rewrite inject_Z_plus in Hlt. change (inject_Z 1) with 1%Q in Hlt.
  unfold Qdiv. change (/ inject_Z 1000000)%Q with (1 # 1000000)%Q.
  unfold y in *. change (inject_Z 1000000) with (1000000 # 1)%Q in *.
  split; lra.
Qed.

Lemma point_price (e : Dashboard.Env) (timeframe : string) (base : Q) (i draw : nat) :
  (0 < base)%Q ->
  Js.is_random (Dashboard.Math_random e draw) ->
  exists p,
    Dashboard.price (Dashboard.point e timeframe (JsObject.finite base) i draw)
      = JsObject.finite p /\
    (base * (99 # 100) - (1 # 2000000) < p)%Q /\
    (p <= base * (101 # 100) + (1 # 2000000))%Q.
Proof.
  intros Hb [H0 H1]. cbn [Dashboard.point Dashboard.price JsObject.scale Dashboard.toFixed_6].
  set (f := (1 + (Dashboard.Math_random e draw - (1 # 2)) * (2 # 100) *
                 (if Js.gt (Dashboard.Math_random e (S draw)) (1 # 2) then 1 else inject_Z (-1)))%Q).
  assert (Hf : (99 # 100 <= f)%Q /\ (f <= 101 # 100)%Q).
  { unfold f. destruct (Js.gt _ _); [|change (inject_Z (-1)) with (-1 # 1)%Q]; split; lra. }
  destruct Hf as [Hf0 Hf1].
  assert (Hx0 : (base * (99 # 100) <= base * f)%Q) by now apply Qmult_le_l.
  assert (Hx1 : (base * f <= base * (101 # 100))%Q) by now apply Qmult_le_l.
  assert (Hpos : Js.lt (base * f) 0 = false).
  { destruct (Js.lt (base * f) 0) eqn:E; [|reflexivity]. apply lt_iff in E. lra. }
  rewrite Hpos. eexists. split; [reflexivity|].
  destruct (nearest_millionth_is_near (base * f)) as [Hn0 Hn1]. split; lra.
Qed.

(** X15. For a positive base price every price of the chart is a number
    within one percent of the base price, up to the half millionth that the
    rounding to six decimals can add. *)
Theorem chart_prices_stay_within_one_percent
    (e : Dashboard.Env) (timeframe : string) (points : nat) (base : Q) :
  (0 < base)%Q ->
  (forall n, Js.is_random (Dashboard.Math_random e n)) ->
  forall d,
    In d (Dashboard.generateMockData e timeframe points (JsObject.finite base)) ->
    exists p,
      Dashboard.price d = JsObject.finite p /\
      (base * (99 # 100) - (1 # 2000000) < p)%Q /\
      (p <= base * (101 # 100) + (1 # 2000000))%Q.
Proof.
  intros Hb Hr d Hd. apply loop_elements in Hd as (j & k & ->).
  now apply point_price.
Qed.

Lemma chart_prices_stay_within_one_percent_witness :
  exists p,
    Dashboard.price (Dashboard.point Cases.chart_env "24H" (JsObject.finite (10856 # 10000))
                       1 0)
      = JsObject.finite p /\
    ((10856 # 10000) * (99 # 100) - (1 # 2000000) < p)%Q /\
    (p <= (10856 # 10000) * (101 # 100) + (1 # 2000000))%Q.
Proof.
  apply (chart_prices_stay_within_one_percent Cases.chart_env "24H" 1 (10856 # 10000)).
  - reflexivity.
  - intros n. split; vm_compute; congruence.
  - left. reflexivity.
Defined.

(** ** The display of a public key *)

Lemma length_substring (s : string) (n m : nat) :
  String.length (String.substring n m s) = Nat.min m (String.length s - n).
Proof.
  revert n m. induction s as [|c s IH]; intros n m.
  - destruct n, m; cbn; lia.
  - destruct n, m; cbn [String.substring String.length]; rewrite ?IH; cbn; lia.
Qed.

Lemma length_append (a b : string) :
  String.length (a ++ b) = (String.length a + String.length b)%nat.
Proof. induction a as [|c a IH]; unfold_append; cbn; auto. Qed.

Lemma slice_first_six (s : string) :
  Wallet.slice s 0 (Some 6%Z) = String.substring 0 (Nat.min 6 (String.length s)) s.
Proof.
  unfold Wallet.slice. cbn [Z.ltb Z.compare].
  f_equal; lia.
Qed.

Lemma slice_last_six (s : string) :
  Wallet.slice s (-6) None =
    String.substring (String.length s - 6) (Nat.min 6 (String.length s)) s.
Proof.
  unfold Wallet.slice. cbn [Z.ltb Z.compare].
  f_equal; lia.
Qed.

Lemma substring_whole (s : string) : String.substring 0 (String.length s) s = s.
Proof. induction s as [|c s IH]; cbn; [reflexivity|]. now rewrite IH. Qed.

(** X16. A key of at most 12 characters is displayed as it is; a longer one
    as its first six characters, three dots and its last six characters, 15
    characters in all (so that a key of 13 or 14 characters gets longer). The
    two pages leave out the test on the length: a key of at most six
    characters is displayed twice, around the dots. *)
Theorem displayed_key_has_at_most_fifteen_characters (key : string) :
  String.length (Wallet.formatPublicKey key) =
    (if (String.length key <=? 12)%nat then String.length key else 15%nat) /\
  ((12 < String.length key)%nat ->
   Wallet.formatPublicKey key =
     String.substring 0 6 key ++ "..." ++ String.substring (String.length key - 6) 6 key) /\
  ((String.length key <= 6)%nat -> Wallet.page_display key = key ++ "..." ++ key) /\
  ((12 < String.length key)%nat -> Wallet.page_display key = Wallet.formatPublicKey key) /\
  (String.length (Wallet.page_display key) <= 15)%nat.
Proof.
  unfold Wallet.formatPublicKey, Wallet.page_display.
  rewrite slice_first_six, slice_last_six.
  split; [|split; [|split; [|split]]].
  - destruct (String.length key <=? 12)%nat eqn:E; [reflexivity|].
    apply Nat.leb_gt in E. rewrite !length_append, !length_substring.
    cbn [String.length]. lia.
  - intros H. destruct (String.length key <=? 12)%nat eqn:E; [apply Nat.leb_le in E; lia|].
    replace (Nat.min 6 (String.length key)) with 6%nat by lia. reflexivity.
  - intros H. replace (Nat.min 6 (String.length key)) with (String.length key) by lia.
    replace (String.length key - 6)%nat with 0%nat by lia.
    now rewrite substring_whole.
  - intros H. destruct (String.length key <=? 12)%nat eqn:E; [apply Nat.leb_le in E; lia|].
    reflexivity.
  - rewrite !length_append, !length_substring. cbn [String.length]. lia.
Qed.

Lemma displayed_key_has_at_most_fifteen_characters_witness :
  Wallet.formatPublicKey Cases.public_key = "GBZXN7...DNMADI" /\
  Wallet.page_display "GM" = "GM...GM".
Proof.
  destruct (displayed_key_has_at_most_fifteen_characters Cases.public_key) as (_ & H & _).
  destruct (displayed_key_has_at_most_fifteen_characters "GM") as (_ & _ & H' & _).
  split.
  - rewrite H; [reflexivity|]. vm_compute. lia.
  - apply H'. vm_compute. lia.
Defined.

(** ** From the prediction form to the preparation endpoint *)

(** Whatever the user does, the form holds an integer percentage. *)
Lemma handle_keeps_integer (p : PredictionForm.Props) (s : PredictionForm.State)
    (ev : PredictionForm.Event) :
  (exists z, PredictionForm.stakePercentage (PredictionForm.formData s) = inject_Z z) ->
  exists z,
    PredictionForm.stakePercentage (PredictionForm.formData (PredictionForm.handle p s ev))
      = inject_Z z.
Proof.
  intros [z Hz]. destruct ev as [value|up|[parsed|]|parsed|]; cbn; eauto.
Qed.

Lemma after_holds_integer (p : PredictionForm.Props) (events : list PredictionForm.Event) :
  exists z,
    PredictionForm.stakePercentage (PredictionForm.formData (PredictionForm.after p events))
      = inject_Z z.
Proof.
  unfold PredictionForm.after.
  assert (H : exists z, PredictionForm.stakePercentage
                          (PredictionForm.formData (PredictionForm.initial p)) = inject_Z z)
    by now exists 0%Z.
  revert H. generalize (PredictionForm.initial p) as s.
  induction events as [|ev events IH]; intros s H; [exact H|].
  cbn [fold_left]. apply IH. now apply handle_keeps_integer.
Qed.

(** X17. Every state of the prediction form that the user can reach holds
    an integer stake percentage, and what the form submits for a member of a
    team, with a limit of at most 100, is a request that the preparation
    endpoint does not turn down for its content: the fields are there, the
    percentage is an integer from 1 to 100 and the stake is ten million units
    per percent, so that the endpoint goes on to build the contract
    operation. *)
Theorem submitted_form_passes_the_checks_of_the_endpoint
    (p : PredictionForm.Props) (events : list PredictionForm.Event)
    (publicKey : string) data body :
  (PredictionForm.maxStakePercentage p <= inject_Z 100)%Q ->
  PredictionForm.handleSubmit p (PredictionForm.after p events)
    = PredictionForm.submitted data ->
  DaoPage.prepare_request publicKey data = inr body ->
  exists team pct prediction,
    PredictionForm.userTeam p = Some team /\ team <> EmptyString /\
    publicKey <> EmptyString /\
    Prepare.publicKey body = Some publicKey /\
    Prepare.teamName body = Some team /\
    Prepare.stakePercentage body = Some (inject_Z pct) /\ (1 <= pct <= 100)%Z /\
    Prepare.prediction body = Some prediction /\
    Prepare.asset prediction <> EmptyString /\
    forall e,
      Prepare.Keypair_fromPublicKey e publicKey = Return tt ->
      Prepare.DAO_CONTRACT_ID e <> EmptyString ->
      Prepare.KALE_CONTRACT_ID e <> EmptyString ->
      Prepare.loadAccount e publicKey = Return tt ->
      Prepare.new_Contract e (Prepare.DAO_CONTRACT_ID e) = Return tt ->
      Prepare.new_Contract e (Prepare.KALE_CONTRACT_ID e) = Return tt ->
      Prepare.POST e (Return body) =
        try_catch
          (Prepare.build_operation e publicKey team prediction (10000000 * pct) pct
             (Prepare.make_predictionId team (Prepare.Date_now e)
                (Prepare.Math_random_toString_36 e)))
          (fun m => Return (Prepare.json_error 500 ("Contract operation failed: " ++ m))).
Proof.
  intros Hmax Hsubmit Hrequest.
  destruct (after_holds_integer p events) as [pct Hpct].
  unfold PredictionForm.handleSubmit in Hsubmit.
  destruct (negb (PredictionForm.isConnected p)); [discriminate|].
  destruct (Js.missing (PredictionForm.userTeam p)) eqn:Hteam; [discriminate|].
  unfold PredictionForm.validateForm in Hsubmit. rewrite Hteam in Hsubmit.
  cbn [fst snd] in Hsubmit. unfold PredictionForm.no_keys in Hsubmit.
  cbn [PredictionForm.asset_error PredictionForm.direction_error
       PredictionForm.stakePercentage_error] in Hsubmit.
  destruct (String.eqb (PredictionForm.asset _) EmptyString) eqn:Hasset;
    [discriminate|].
  destruct (String.eqb (PredictionForm.direction _) EmptyString) eqn:Hdir;
    [discriminate|].
  destruct (Js.le _ 0 || Js.gt _ _) eqn:Hrange; [discriminate|].
  cbn [negb] in Hsubmit. injection Hsubmit as <-.
  apply orb_false_iff in Hrange as [Hlow Hhigh].
  destruct (PredictionForm.userTeam p) as [team|] eqn:Hp; [|discriminate].
  cbn [Js.missing] in Hteam. apply String.eqb_neq in Hteam, Hasset.
  unfold DaoPage.prepare_request in Hrequest.
  cbn [PredictionForm.submit_direction PredictionForm.submit_teamName
       PredictionForm.submit_asset PredictionForm.submit_stakePercentage] in Hrequest.
  destruct (String.eqb publicKey EmptyString) eqn:Hpk; [discriminate|].
  rewrite Hdir in Hrequest. injection Hrequest as <-. apply String.eqb_neq in Hpk.
  rewrite Hpct in *.
  assert (Hrange : (1 <= pct <= 100)%Z).
  { split.
    - destruct (Js.le (inject_Z pct) 0) eqn:E; [discriminate|].
      assert (H : (0 < inject_Z pct)%Q).
      { apply Qnot_le_lt. intros Hle. apply le_iff in Hle. congruence. }
      change 0%Q with (inject_Z 0) in H. rewrite <- Zlt_Qlt in H. lia.
    - apply gt_false_iff in Hhigh.
      assert (H : (inject_Z pct <= inject_Z 100)%Q) by (eapply Qle_trans; eauto).
      now rewrite <- Zle_Qle in H. }
  eexists team, pct, _. cbn [default from_option Datatypes.id].
  repeat (split; [first [reflexivity | assumption]|]).
  intros e Hkey Hdao Hkale Hacc Hc1 Hc2.
  assert (Hready : ready e
    {| Prepare.publicKey := Some publicKey;
       Prepare.teamName := Some team;
       Prepare.stakePercentage := Some (inject_Z pct);
       Prepare.prediction :=
         Some {| Prepare.asset :=
                   PredictionForm.asset (PredictionForm.formData (PredictionForm.after p events));
                 Prepare.direction :=
                   String.eqb (PredictionForm.direction
                                 (PredictionForm.formData (PredictionForm.after p events)))
                              "up" |} |}
    publicKey team
    {| Prepare.asset :=
         PredictionForm.asset (PredictionForm.formData (PredictionForm.after p events));
       Prepare.direction :=
         String.eqb (PredictionForm.direction
                       (PredictionForm.formData (PredictionForm.after p events))) "up" |}).
  { repeat split; auto. }
  assert (Hrange' : (0 <= pct <= 100)%Z) by lia.
  destruct (range_flags (inject_Z pct) pct (Qeq_refl _) Hrange') as [Hb Ha].
  rewrite (POST_ready e _ publicKey team _ pct Hready Hb Ha
             (BigInt_integer (inject_Z pct) pct (Qeq_refl _))).
  rewrite stake_amount_kaleBalance.
  assert (Hpos : (10000000 * pct <=? 0)%Z = false) by (apply Z.leb_gt; lia).
  now rewrite Hpos.
Qed.

Lemma submitted_form_passes_the_checks_of_the_endpoint_witness :
  Prepare.POST (Sample.prepare_env 1700000000000 "0.4fzyo82mvyr" true)
    (Return Cases.form_request) =
    Return (Prepare.json_prepared
      {| Prepare.xdr :=
           Prepare.make_prediction "alpha_1700000000000_82mvyr" "alpha" "BTC/USD" false
             400000000 40 "GALICE";
         Prepare.networkPassphrase := "Test SDF Network ; September 2015";
         Prepare.predictionId := "alpha_1700000000000_82mvyr";
         Prepare.operationType := "make_prediction" |}).
Proof.
  destruct (submitted_form_passes_the_checks_of_the_endpoint Cases.form_props
              [PredictionForm.select_asset "BTC/USD"; PredictionForm.click_direction false;
               PredictionForm.type_percentage None; PredictionForm.slide_percentage 40]
              "GALICE" Cases.form_data Cases.form_request)
    as (team & pct & prediction & _ & _ & _ & _ & Ht & Hr & _ & Hp & _ & H).
  - vm_compute. congruence.
  - reflexivity.
  - reflexivity.
  - injection Ht as <-. injection Hr as <-. injection Hp as <-.
    rewrite (H (Sample.prepare_env 1700000000000 "0.4fzyo82mvyr" true));
      try reflexivity; discriminate.
Defined.

(** ** The asset of a stored prediction *)

(** X18. The price a stored prediction is resolved at is the one the
    Reflector client returns for EUR/USD, whatever asset the prediction
    names; the answer names the stored asset beside it. With the oracle
    failing, a prediction on BTC/USD is resolved at a price between 1.0692
    and 1.0908. *)
Theorem every_asset_is_resolved_at_the_EUR_USD_price
    (e : Resolve.Env) (id : string) (p : Resolve.Parsed) :
  reaches_oracle e id p ->
  exists body data,
    Resolve.GET e (Some id) = Return (Resolve.json_resolved body) /\
    Reflector.getLastPrice (Resolve.oracle e) "EUR/USD" = Return data /\
    Resolve.currentPrice body = Reflector.price data /\
    (Resolve.od_asset <$> Resolve.oracleData body) = Some "EUR/USD" /\
    (Resolve.cd_asset <$> Resolve.contractData body) = Some (Resolve.asset p) /\
    (fetch_fails_or_invalid (Resolve.oracle e) ->
     Resolve.currentPrice body =
       Reflector.generateMockPrice "EUR/USD" (Reflector.Math_random (Resolve.oracle e)) /\
     (10692 # 10000 <= Resolve.currentPrice body)%Q /\
     (Resolve.currentPrice body < 10908 # 10000)%Q).
Proof.
  intros Hreach. destruct (GET_oracle_path e id p Hreach) as (data & Hd & _ & HGET).
  destruct Hreach as (_ & _ & _ & _ & _ & _ & Hr & _).
  exists (Resolve.resolution_body id p data), data. split; [exact HGET|].
  destruct (getLastPrice_total (Resolve.oracle e) "EUR/USD" Hr) as (data' & Hd' & _).
  unfold Resolve.current_price in Hd. rewrite Hd' in Hd. cbn in Hd. injection Hd as ->.
  split; [exact Hd'|]. split; [reflexivity|]. split; [reflexivity|]. split; [reflexivity|].
  intros Hfail. rewrite (getLastPrice_fallback _ "EUR/USD" Hfail) in Hd'.
  injection Hd' as <-. split; [reflexivity|].
  apply (generateMockPrice_EUR_range _ Hr).
Qed.

Lemma every_asset_is_resolved_at_the_EUR_USD_price_witness :
  exists body data,
    Resolve.GET (Cases.resolve_env (Return tt) (Return Cases.stored_BTC)) (Some "p1")
      = Return (Resolve.json_resolved body) /\
    Reflector.getLastPrice Sample.oracle_down "EUR/USD" = Return data /\
    Resolve.currentPrice body = Reflector.price data /\
    (Resolve.cd_asset <$> Resolve.contractData body) = Some "BTC/USD" /\
    (10692 # 10000 <= Resolve.currentPrice body)%Q /\
    (Resolve.currentPrice body < 10908 # 10000)%Q.
Proof.
  destruct (every_asset_is_resolved_at_the_EUR_USD_price
              (Cases.resolve_env (Return tt) (Return Cases.stored_BTC)) "p1" Cases.parsed_BTC)
    as (body & data & HGET & Hd & Hc & _ & Ha & Hfail).
  - repeat split; try (vm_compute; congruence).
    eexists. split; vm_compute; reflexivity.
  - exists body, data. split; [exact HGET|]. split; [exact Hd|]. split; [exact Hc|].
    split; [exact Ha|]. apply Hfail. left. exists "fetch failed". reflexivity.
Defined.

(** ** The list of recent predictions of the prediction page *)

Lemma GET_resolved_id (e : Resolve.Env) (id : string) body :
  Resolve.GET e (Some id) = Return (Resolve.json_resolved body) ->
  Resolve.predictionId body = id.
Proof.
  intros H. destruct (GET_resolved_inv e (Some id) body H) as (id' & Hid & Hfrom).
  injection Hid as <-.
  destruct Hfrom as [[m Hm]|(r & p & data & _ & _ & _ & ->)].
  - unfold Resolve.GET_catch in Hm. injection Hm as ->. reflexivity.
  - unfold Resolve.resolution_body.
    destruct (Resolve.resolution_logic _ _ _). reflexivity.
Qed.

Lemma GET_error_is_not_ok (e : Resolve.Env) (pid : option string) status error :
  Resolve.GET e pid = Return (Resolve.json_error status error) -> Fetch.ok status = false.
Proof.
  intros H. destruct (GET_answers e pid) as (r & Hr & Hcases).
  rewrite Hr in H. apply Return_inj in H. subst r.
  destruct Hcases as [H|[H|[[m H]|[[id H]|[body H]]]]]; try discriminate;
    injection H as -> _; reflexivity.
Qed.

(** X19. What the prediction page makes of each answer of the resolution
    endpoint, two seconds after a submission. An error leaves the list of
    recent predictions as it was and shows the error. A resolution is put
    first in the list and drawn with the label of its outcome, its price to
    four decimals and the link to the transaction. The
    [PredictionNotSubmitted] answer comes with status 200 and is put first
    in the list like a resolution, with an [info] toast; it carries no
    price, so the list can no longer be drawn: reading [toFixed] of the
    missing price throws. *)
Theorem answer_without_price_cannot_be_listed
    (e : Resolve.Env) (pid : option string) (r : Resolve.Response)
    (hash : string) (prev : list DaoPage.PredictionResult) :
  Resolve.GET e pid = Return r ->
  let shown :=
    DaoPage.show_resolution hash (Return (DaoPage.resolve_response r)) prev in
  match r with
  | Resolve.json_error _ error =>
      shown = (prev, DaoPage.error_toast ("Failed to resolve prediction: " ++ error))
  | Resolve.json_not_submitted id =>
      length (fst shown) = S (length prev) /\
      DaoPage.toast_type (snd shown) = "info" /\
      DaoPage.render (fst shown)
        = Throw "Cannot read properties of undefined (reading 'toFixed')"
  | Resolve.json_resolved body =>
      DaoPage.toast_type (snd shown) = (if Resolve.outcome body then "success" else "info") /\
      forall cards,
        DaoPage.render prev = Return cards ->
        DaoPage.render (fst shown) = Return
          ({| DaoPage.card_id :=
                Wallet.slice (Resolve.predictionId body) 0 (Some 20%Z) ++ "...";
              DaoPage.card_label :=
                if Resolve.outcome body then "Correct" else "Incorrect";
              DaoPage.card_message := Fetch.present (Resolve.message body);
              DaoPage.card_price := DaoPage.toFixed_4 (Resolve.currentPrice body);
              DaoPage.card_link :=
                if String.eqb hash EmptyString then None
                else Some ("https://stellar.expert/explorer/testnet/tx/" ++ hash) |}
           :: cards)
  end.
Proof.
  intros H. destruct r as [status error|id|body]; cbv zeta.
  - unfold DaoPage.show_resolution, DaoPage.resolve_response.
    rewrite (GET_error_is_not_ok e pid status error H). reflexivity.
  - repeat split.
  - split; [reflexivity|]. intros cards Hcards.
    cbn [DaoPage.show_resolution DaoPage.resolve_response Fetch.ok Z.leb Z.compare
         Pos.compare Pos.compare_cont andb fst DaoPage.render].
    unfold DaoPage.render_card.
    cbn [DaoPage.predictionId DaoPage.currentPrice DaoPage.outcome DaoPage.message
         DaoPage.transactionHash DaoPage.outcome_truthy bind].
    rewrite Hcards. reflexivity.
Qed.

Lemma answer_without_price_cannot_be_listed_witness :
  DaoPage.render
    (fst (DaoPage.show_resolution "9f2c"
            (Return (DaoPage.resolve_response (Resolve.json_not_submitted "p1")))
            [Cases.listed]))
  = Throw "Cannot read properties of undefined (reading 'toFixed')".
Proof.
  exact (proj2 (proj2 (answer_without_price_cannot_be_listed
    (Cases.resolve_env (Return tt)
       (Return (Resolve.simSuccess (Some Cases.with_null_element))))
    (Some "p1") (Resolve.json_not_submitted "p1") "9f2c" [Cases.listed] eq_refl))).
Defined.

Lemma findIndex_middle (id : string) (before after : list DaoPage.PredictionResult)
    (old : DaoPage.PredictionResult) :
  DaoPage.findIndex id before = None ->
  DaoPage.predictionId old = Fetch.present id ->
  DaoPage.findIndex id (before ++ old :: after)%list = Some (length before).
Proof.
  intros Hb Hold. induction before as [|p before IH]; cbn [app DaoPage.findIndex length].
  - rewrite Hold, String.eqb_refl. reflexivity.
  - cbn [DaoPage.findIndex] in Hb.
    destruct (DaoPage.predictionId p) as [| |s].
    + destruct (DaoPage.findIndex id before); [discriminate|]. now rewrite IH.
    + destruct (DaoPage.findIndex id before); [discriminate|]. now rewrite IH.
    + destruct (String.eqb s id); [discriminate|].
      destruct (DaoPage.findIndex id before); [discriminate|]. now rewrite IH.
Qed.

Lemma manual_resolve_in_place (id : string) (before after prev : list DaoPage.PredictionResult)
    (old result : DaoPage.PredictionResult) :
  DaoPage.findIndex id before = None ->
  DaoPage.predictionId old = Fetch.present id ->
  fst (DaoPage.handleManualResolve id (Return (true, result)) (before ++ old :: after)%list prev)
    = (before ++ DaoPage.merge old result :: after)%list.
Proof.
  intros Hb Hold. unfold DaoPage.handleManualResolve. cbn [fst].
  rewrite (findIndex_middle id before after old Hb Hold).
  rewrite list_lookup_middle by reflexivity.
  rewrite <- (Nat.add_0_r (length before)), insert_app_r. reflexivity.
Qed.

(** X20. Resolving a listed prediction again changes its entry in place and
    keeps the link to its transaction, whatever was added to the list
    since. A new resolution replaces label, message and price. The
    [PredictionNotSubmitted] answer replaces label and message only: the
    entry now reads [Incorrect] beside the price of the earlier
    resolution. An error changes nothing. *)
Theorem resolving_again_keeps_the_link_and_may_keep_the_price
    (e : Resolve.Env) (id : string) (r : Resolve.Response)
    (before after prev : list DaoPage.PredictionResult)
    (old : DaoPage.PredictionResult) (card : DaoPage.Card) :
  DaoPage.findIndex id before = None ->
  DaoPage.predictionId old = Fetch.present id ->
  DaoPage.render_card old = Return card ->
  Resolve.GET e (Some id) = Return r ->
  let shown :=
    fst (DaoPage.handleManualResolve id (Return (DaoPage.resolve_response r))
           (before ++ old :: after)%list prev) in
  match r with
  | Resolve.json_error _ _ => shown = prev
  | Resolve.json_not_submitted _ =>
      exists merged,
        shown = (before ++ merged :: after)%list /\
        DaoPage.render_card merged = Return
          {| DaoPage.card_id := DaoPage.card_id card;
             DaoPage.card_label := "Incorrect";
             DaoPage.card_message := Fetch.present
               "Prediction not found in contract. Please ensure the prediction transaction has been signed and submitted to the blockchain.";
             DaoPage.card_price := DaoPage.card_price card;
             DaoPage.card_link := DaoPage.card_link card |}
  | Resolve.json_resolved body =>
      exists merged,
        shown = (before ++ merged :: after)%list /\
        DaoPage.render_card merged = Return
          {| DaoPage.card_id := DaoPage.card_id card;
             DaoPage.card_label :=
               if Resolve.outcome body then "Correct" else "Incorrect";
             DaoPage.card_message := Fetch.present (Resolve.message body);
             DaoPage.card_price := DaoPage.toFixed_4 (Resolve.currentPrice body);
             DaoPage.card_link := DaoPage.card_link card |}
  end.
Proof.
  intros Hb Hold Hcard H. destruct r as [status error|id'|body]; cbv zeta.
  - unfold DaoPage.resolve_response.
    rewrite (GET_error_is_not_ok e (Some id) status error H). reflexivity.
  - assert (id' = id) as ->.
    { revert H.
      unfold Resolve.GET. cbn [Js.missing default from_option Datatypes.id].
      destruct (String.eqb id EmptyString); cbn [try_catch]; [discriminate|].
      destruct (_ || _); cbn [try_catch]; [discriminate|].
      destruct (Resolve.new_Contract e) as [[]|m]; cbn [bind try_catch]; [|discriminate].
      destruct (Resolve.GET_try e id) as [r'|m] eqn:Htry; cbn [try_catch].
      - intros Hr'. apply Return_inj in Hr'. subst r'.
        destruct (GET_try_answers e id _ Htry) as [Heq|[body Heq]]; congruence.
      - unfold Resolve.GET_catch. discriminate. }
    unfold DaoPage.resolve_response. cbn [Fetch.ok Z.leb Z.compare Pos.compare
      Pos.compare_cont andb].
    rewrite (manual_resolve_in_place id before after prev old _ Hb Hold).
    eexists. split; [reflexivity|].
    revert Hcard. unfold DaoPage.render_card, DaoPage.merge.
    cbn [DaoPage.predictionId DaoPage.currentPrice DaoPage.outcome DaoPage.message
         DaoPage.transactionHash Fetch.spread DaoPage.outcome_truthy].
    rewrite Hold.
    destruct (DaoPage.currentPrice old) as [| |price]; try discriminate.
    intros Hc. apply Return_inj in Hc. subst card. reflexivity.
  - pose proof (GET_resolved_id e id body H) as Hid.
    unfold DaoPage.resolve_response. cbn [Fetch.ok Z.leb Z.compare Pos.compare
      Pos.compare_cont andb].
    rewrite (manual_resolve_in_place id before after prev old _ Hb Hold).
    eexists. split; [reflexivity|].
    revert Hcard. unfold DaoPage.render_card, DaoPage.merge.
    cbn [DaoPage.predictionId DaoPage.currentPrice DaoPage.outcome DaoPage.message
         DaoPage.transactionHash Fetch.spread DaoPage.outcome_truthy].
    rewrite Hold, Hid.
    destruct (DaoPage.currentPrice old) as [| |price]; try discriminate.
    intros Hc. apply Return_inj in Hc. subst card. reflexivity.
Qed.

Lemma resolving_again_keeps_the_link_and_may_keep_the_price_witness :
  exists merged,
    fst (DaoPage.handleManualResolve "alpha_1700000000000_k3j9x2"
           (Return (DaoPage.resolve_response
                      (Resolve.json_not_submitted "alpha_1700000000000_k3j9x2")))
           ([] ++ Cases.listed :: [])%list [])
      = ([] ++ merged :: [])%list /\
    DaoPage.render_card merged = Return
      {| DaoPage.card_id := "alpha_1700000000000_...";
         DaoPage.card_label := "Incorrect";
         DaoPage.card_message := Fetch.present
           "Prediction not found in contract. Please ensure the prediction transaction has been signed and submitted to the blockchain.";
         DaoPage.card_price := DaoPage.toFixed_4 (10861 # 10000);
         DaoPage.card_link := Some "https://stellar.expert/explorer/testnet/tx/9f2c" |}.
Proof.
  exact (resolving_again_keeps_the_link_and_may_keep_the_price
    (Cases.resolve_env (Return tt)
       (Return (Resolve.simSuccess (Some Cases.with_null_element))))
    "alpha_1700000000000_k3j9x2"
    (Resolve.json_not_submitted "alpha_1700000000000_k3j9x2")
    [] [] [] Cases.listed
    {| DaoPage.card_id := "alpha_1700000000000_...";
       DaoPage.card_label := "Correct";
       DaoPage.card_message := Fetch.present "Prediction succeeded";
       DaoPage.card_price := DaoPage.toFixed_4 (10861 # 10000);
       DaoPage.card_link := Some "https://stellar.expert/explorer/testnet/tx/9f2c" |}
    eq_refl eq_refl eq_refl eq_refl).
Defined.

(** ** The team of the wallet on the two pages *)

Lemma getUserTeam_team {Ledger} (e : UserTeam.Env Ledger) (l : Ledger) (a : string) :
  a <> EmptyString ->
  UserTeam.Keypair_fromPublicKey e a = Return tt ->
  UserTeam.DAO_CONTRACT_ID e <> EmptyString ->
  exists body,
    fst (UserTeam.getUserTeam e l (Some a)) = UserTeam.json_team body /\
    UserTeam.teamName body <> Some EmptyString /\
    ((exists m, UserTeam.simulateTransaction e l a = Throw m) \/
     UserTeam.simulateTransaction e l a = Return {| UserTeam.retval := None |} ->
     UserTeam.teamName body = None).
Proof.
  intros Ha Hkey Hdao. unfold UserTeam.getUserTeam.
  cbn [Js.missing default from_option Datatypes.id].
  rewrite (eqb_false_of_ne _ _ Ha), Hkey, (eqb_false_of_ne _ _ Hdao).
  unfold UserTeam.call_contract, UserTeam.no_team.
  destruct (UserTeam.new_Contract e) as [[]|m0].
  - destruct (UserTeam.simulateTransaction e l a) as [[[cv|]]|m] eqn:Hsim;
      cbn [bind UserTeam.retval fst].
    + destruct (String.eqb (UserTeam.switch_name cv) "scvVoid"); cbn [fst].
      * eexists. split; [reflexivity|]. cbn. split; [discriminate|reflexivity].
      * eexists. split; [reflexivity|]. cbn. split.
        -- intros H. injection H as H. exact (or_unknown_is_a_name _ H).
        -- intros [[m H]|H]; discriminate.
    + eexists. split; [reflexivity|]. cbn. split; [discriminate|reflexivity].
    + eexists. split; [reflexivity|]. cbn. split; [discriminate|reflexivity].
  - eexists. split; [reflexivity|]. cbn. split; [discriminate|reflexivity].
Qed.

(** X21. The team the two pages show for a wallet, from the answer of the
    lookup endpoint. When the endpoint answers the lookup, the pages agree:
    the team page holds the name the prediction page holds, the empty
    string for none, and a name is never empty. When the contract cannot be
    asked (the simulation is rejected or has no return value) a member is
    shown as having no team: the prediction form refuses every submission
    with the request to join a team, and the team page lets the creation
    of a team start. When the endpoint answers an error the prediction page
    clears the team, and the team page keeps the one it showed before. *)
Theorem failed_lookup_shows_no_team_on_both_pages
    {Ledger} (e : UserTeam.Env Ledger) (l : Ledger)
    (fetch : string -> Result UserTeam.Response) (publicKey previous : string) :
  asks_lookup fetch e l ->
  publicKey <> EmptyString ->
  let dao := DaoPage.loadUserTeam true publicKey fetch in
  let teams := TeamsPage.initialize true publicKey fetch previous in
  (UserTeam.Keypair_fromPublicKey e publicKey = Return tt ->
   UserTeam.DAO_CONTRACT_ID e <> EmptyString ->
   teams = default EmptyString dao /\ dao <> Some EmptyString) /\
  (UserTeam.Keypair_fromPublicKey e publicKey = Return tt ->
   UserTeam.DAO_CONTRACT_ID e <> EmptyString ->
   (exists m, UserTeam.simulateTransaction e l publicKey = Throw m) \/
   UserTeam.simulateTransaction e l publicKey = Return {| UserTeam.retval := None |} ->
   dao = None /\ teams = EmptyString /\
   (forall props state,
      PredictionForm.userTeam props = dao ->
      PredictionForm.isConnected props = true ->
      PredictionForm.handleSubmit props state = PredictionForm.alerted
        "You must be part of a team to make predictions. Please join or create a team first.") /\
   (forall env s,
      TeamsPage.userTeam s = teams ->
      Teams.trim (TeamsPage.newTeamName s) <> EmptyString ->
      exists rest,
        TeamsPage.handleCreateTeam env publicKey s =
          TeamsPage.setIsLoading true :: TeamsPage.addToast "Creating team..." "info" :: rest)) /\
  ((exists m, UserTeam.Keypair_fromPublicKey e publicKey = Throw m) \/
   (UserTeam.Keypair_fromPublicKey e publicKey = Return tt /\
    UserTeam.DAO_CONTRACT_ID e = EmptyString) ->
   dao = None /\ teams = previous).
Proof.
  intros Hfetch Hpk. cbv zeta.
  unfold DaoPage.loadUserTeam, TeamsPage.initialize, TeamsPage.loadUserTeam.
  rewrite (eqb_false_of_ne _ _ Hpk), (Hfetch publicKey). cbn [negb orb].
  unfold UserTeam.GET. split; [|split].
  - intros Hkey Hdao.
    destruct (getUserTeam_team e l publicKey Hpk Hkey Hdao) as (body & -> & Hname & _).
    split; [reflexivity|exact Hname].
  - intros Hkey Hdao Hsim.
    destruct (getUserTeam_team e l publicKey Hpk Hkey Hdao) as (body & -> & _ & Hnone).
    rewrite (Hnone Hsim). cbn [default from_option Datatypes.id].
    split; [reflexivity|]. split; [reflexivity|]. split.
    + intros props state Hteam Hconn. unfold PredictionForm.handleSubmit.
      rewrite Hconn, Hteam. reflexivity.
    + intros env s Hteam Hname. unfold TeamsPage.handleCreateTeam.
      rewrite (eqb_false_of_ne _ _ Hpk), (eqb_false_of_ne _ _ Hname), Hteam.
      cbn [orb negb String.eqb app]. eexists. reflexivity.
  - unfold UserTeam.getUserTeam. cbn [Js.missing default from_option Datatypes.id].
    rewrite (eqb_false_of_ne _ _ Hpk).
    intros [[m ->]|[-> ->]]; cbn; split; reflexivity.
Qed.

Lemma failed_lookup_shows_no_team_on_both_pages_witness :
  DaoPage.loadUserTeam true "GM"
    (fun a => Return (fst (UserTeam.GET Cases.lookup_env_down tt (Some a)))) = None /\
  TeamsPage.initialize true "GM"
    (fun a => Return (fst (UserTeam.GET Cases.lookup_env_down tt (Some a)))) "alpha"
    = EmptyString.
Proof.
  destruct (failed_lookup_shows_no_team_on_both_pages Cases.lookup_env_down tt
              (fun a => Return (fst (UserTeam.GET Cases.lookup_env_down tt (Some a))))
              "GM" "alpha") as (_ & H & _).
  - intros a. reflexivity.
  - discriminate.
  - destruct H as (Hd & Ht & _).
    + reflexivity.
    + cbn. discriminate.
    + left. exists "fetch failed". reflexivity.
    + split; [exact Hd|exact Ht].
Defined.

(** ** The team page in front of the team routes *)

Lemma trim_start_clean (s : string) : starts_clean (Teams.trim_start s) = true.
Proof.
  induction s as [|c s IH]; [reflexivity|]. cbn [Teams.trim_start].
  destruct (Teams.is_space c) eqn:Hc; [exact IH|]. cbn [starts_clean]. now rewrite Hc.
Qed.

Lemma trim_start_of_clean (s : string) :
  starts_clean s = true -> Teams.trim_start s = s.
Proof.
  destruct s as [|c s]; [reflexivity|]. cbn [starts_clean Teams.trim_start].
  intros H. apply negb_true_iff in H. now rewrite H.
Qed.

Lemma trim_start_split (s : string) :
  exists pad, forall_chars Teams.is_space pad = true /\ s = pad ++ Teams.trim_start s.
Proof.
  induction s as [|c s (pad & Hpad & IH)].
  - exists EmptyString. split; reflexivity.
  - cbn [Teams.trim_start]. destruct (Teams.is_space c) eqn:Hc.
    + exists (String c pad). cbn [forall_chars]. rewrite Hc, Hpad. split; [reflexivity|].
      unfold_append. now rewrite <- IH.
    + exists EmptyString. split; reflexivity.
Qed.

Lemma rev_string_rev_string (a acc b : string) :
  Teams.rev_string (Teams.rev_string a acc) b = Teams.rev_string acc (a ++ b).
Proof.
  revert acc b. induction a as [|c a IH]; intros acc b; cbn [Teams.rev_string].
  - now unfold_append.
  - rewrite IH. cbn [Teams.rev_string]. now unfold_append.
Qed.

Lemma rev_string_involutive (s : string) :
  Teams.rev_string (Teams.rev_string s EmptyString) EmptyString = s.
Proof.
  rewrite rev_string_rev_string. cbn [Teams.rev_string].
  induction s as [|c s IH]; [reflexivity|]. unfold_append. now rewrite IH.
Qed.

Lemma starts_clean_prefix (a b : string) :
  starts_clean (a ++ b) = true -> starts_clean a = true.
Proof. destruct a as [|c a]; [reflexivity|]. unfold_append. exact id. Qed.

(** Trimming a trimmed string changes nothing. *)
Lemma trim_trim (s : string) : Teams.trim (Teams.trim s) = Teams.trim s.
Proof.
  unfold Teams.trim.
  set (t := Teams.trim_start s).
  set (u := Teams.trim_start (Teams.rev_string t EmptyString)).
  assert (Hu : starts_clean u = true) by apply trim_start_clean.
  assert (Hr : starts_clean (Teams.rev_string u EmptyString) = true).
  { destruct (trim_start_split (Teams.rev_string t EmptyString)) as (pad & _ & Hsplit).
    fold u in Hsplit.
    assert (Ht : t = Teams.rev_string u EmptyString ++ Teams.rev_string pad EmptyString).
    { rewrite <- (rev_string_involutive t), Hsplit, rev_string_append.
      apply rev_string_acc. }
    apply (starts_clean_prefix _ (Teams.rev_string pad EmptyString)).
    rewrite <- Ht. apply trim_start_clean. }
  rewrite (trim_start_of_clean _ Hr), rev_string_involutive, (trim_start_of_clean _ Hu).
  reflexivity.
Qed.

Lemma append_cons_not_empty (c : ascii) (a b : string) : String c a ++ b <> EmptyString.
Proof. unfold_append. discriminate. Qed.

(** An error of the create route is no success for [fetch], and names its
    reason. *)
Lemma create_error_is_refused (e : Teams.Env) (publicKey teamName : option string)
    status error :
  Teams.create e publicKey teamName = Return (Teams.json_error status error) ->
  Fetch.ok status = false /\ error <> EmptyString.
Proof.
  assert (Hinj : forall status' error',
    error' <> EmptyString -> Fetch.ok status' = false ->
    Return (Teams.json_error status' error') = Return (Teams.json_error status error) ->
    Fetch.ok status = false /\ error <> EmptyString).
  { intros status' error' Hne Hok H. apply Return_inj in H. injection H as <- <-. auto. }
  unfold Teams.create.
  destruct (_ || _); cbn [try_catch]; [apply Hinj; [discriminate|reflexivity]|].
  cbv zeta. destruct (_ || _); [apply Hinj; [discriminate|reflexivity]|].
  destruct (Teams.Keypair_fromPublicKey e _) as [[]|m];
    [|apply Hinj; [discriminate|reflexivity]].
  destruct (String.eqb _ _); [apply Hinj; [discriminate|reflexivity]|].
  destruct (Teams.loadAccount e _) as [[]|m];
    [|apply Hinj; [apply append_cons_not_empty|reflexivity]].
  destruct (Teams.new_Contract e) as [[]|m]; cbn [bind try_catch];
    [|apply Hinj; [apply append_cons_not_empty|reflexivity]].
  destruct (match Teams.get_team e _ with Return _ => _ | Throw _ => _ end);
    [apply Hinj; [apply append_cons_not_empty|reflexivity]|].
  unfold Teams.check_user_and_prepare.
  destruct (match Teams.get_user_team e _ with Return _ => _ | Throw _ => _ end);
    [apply Hinj; [discriminate|reflexivity]|].
  destruct (Teams.prepareTransaction e _) as [[]|m]; cbn [bind try_catch];
    [discriminate|apply Hinj; [apply append_cons_not_empty|reflexivity]].
Qed.

Lemma sign_prepared_inv (e : TeamsPage.Env) (response : Result Teams.Response)
    (fallback : string) :
  TeamsPage.sign_prepared e response fallback = Return tt ->
  exists xdr passphrase status,
    TeamsPage.sign_and_send e xdr passphrase = Return status /\ accepted status.
Proof.
  assert (Hacc : forall status,
    String.eqb status "PENDING" || String.eqb status "DUPLICATE" = true -> accepted status).
  { intros status H. apply orb_true_iff in H as [H|H]; apply String.eqb_eq in H;
      [now left|now right]. }
  unfold TeamsPage.sign_prepared.
  destruct response as [[status error|body]|m]; cbn [bind]; [| |discriminate].
  - destruct (negb (Fetch.ok status)); [discriminate|].
    destruct (TeamsPage.sign_and_send e None None) as [st|m] eqn:Hs; cbn [bind];
      [|discriminate].
    destruct (_ || _) eqn:Hst; [|discriminate]. intros _. eauto 6.
  - destruct (TeamsPage.sign_and_send e _ _) as [st|m] eqn:Hs; cbn [bind]; [|discriminate].
    destruct (_ || _) eqn:Hst; [|discriminate]. intros _. eauto 6.
Qed.

(** X22. What the team page sends to the create route is what the route
    works on: the page sends the trimmed name, and trimming it again
    changes nothing. An error of the route (a name of one character passes
    the page and is refused by the route) ends the handler with one error
    toast, which shows the error of the route unless it contains [User
    rejected]. A prepared transaction is for the trimmed name; once the
    network accepts it the page records the name as it was typed, spaces
    included, clears the field and hides the form. *)
Theorem team_page_sends_what_the_create_route_works_on
    (route : Teams.Env) (e : TeamsPage.Env) (publicKey : string) (s : TeamsPage.State) :
  asks_routes e route ->
  publicKey <> EmptyString ->
  Teams.trim (TeamsPage.newTeamName s) <> EmptyString ->
  TeamsPage.userTeam s = EmptyString ->
  let name := Teams.trim (TeamsPage.newTeamName s) in
  let answer := Teams.create route (Some publicKey) (Some name) in
  let actions := TeamsPage.handleCreateTeam e publicKey s in
  Teams.trim name = name /\
  (String.length name = 1%nat ->
   answer = Return (Teams.json_error 400 "Team name must be between 2 and 32 characters")) /\
  (forall status error,
     answer = Return (Teams.json_error status error) ->
     actions =
       [TeamsPage.setIsLoading true;
        TeamsPage.addToast "Creating team..." "info";
        TeamsPage.failure "Failed to create team: " error;
        TeamsPage.setIsLoading false]) /\
  (forall body,
     answer = Return (Teams.json_prepared body) ->
     Teams.teamName body = name /\
     Teams.xdr body = Teams.form_team name [publicKey] /\
     forall status,
       TeamsPage.sign_and_send e (Some (Teams.xdr body)) (Some (Teams.networkPassphrase body))
         = Return status ->
       accepted status ->
       TeamsPage.after s actions =
         {| TeamsPage.userTeam := TeamsPage.newTeamName s;
            TeamsPage.newTeamName := EmptyString;
            TeamsPage.showCreateForm := false;
            TeamsPage.isLoading := false |}).
Proof.
  intros [Hcreate _] Hpk Hname Hteam. cbv zeta.
  pose proof (trim_trim (TeamsPage.newTeamName s)) as Htrim.
  unfold TeamsPage.handleCreateTeam.
  rewrite (eqb_false_of_ne _ _ Hpk), (eqb_false_of_ne _ _ Hname), Hteam, Hcreate.
  cbn [orb negb String.eqb].
  split; [exact Htrim|]. split; [|split].
  - intros Hlen. unfold Teams.create. cbn [Js.missing default from_option Datatypes.id].
    rewrite (eqb_false_of_ne _ _ Hpk), (eqb_false_of_ne _ _ Hname). cbn [orb]. cbv zeta.
    rewrite Htrim, Hlen. reflexivity.
  - intros status error Hanswer.
    destruct (create_error_is_refused _ _ _ _ _ Hanswer) as [Hok Herror].
    rewrite Hanswer. unfold TeamsPage.sign_prepared. cbn [bind].
    rewrite Hok, (eqb_false_of_ne _ _ Herror). reflexivity.
  - intros body Hanswer.
    destruct (create_prepared_inv _ _ _ _ Hanswer) as (pk & n & Hpk' & Hn & Hxdr & Hbody & _).
    injection Hpk' as <-. injection Hn as <-. rewrite Htrim in Hxdr, Hbody.
    split; [exact Hbody|]. split; [exact Hxdr|].
    intros status Hsend [-> | ->]; rewrite Hanswer; unfold TeamsPage.sign_prepared;
      cbn [bind]; rewrite Hsend; reflexivity.
Qed.

Lemma team_page_sends_what_the_create_route_works_on_witness :
  TeamsPage.after (Cases.typed "  alpha ")
    (TeamsPage.handleCreateTeam
       (Cases.teams_page_env (Cases.teams_env (Throw "fetch failed")) (Return "PENDING"))
       "GM" (Cases.typed "  alpha "))
  = {| TeamsPage.userTeam := "  alpha ";
       TeamsPage.newTeamName := EmptyString;
       TeamsPage.showCreateForm := false;
       TeamsPage.isLoading := false |}.
Proof.
  destruct (team_page_sends_what_the_create_route_works_on
              (Cases.teams_env (Throw "fetch failed"))
              (Cases.teams_page_env (Cases.teams_env (Throw "fetch failed")) (Return "PENDING"))
              "GM" (Cases.typed "  alpha ")) as (_ & _ & _ & H).
  - split; intros pk name; reflexivity.
  - discriminate.
  - vm_compute. discriminate.
  - reflexivity.
  - refine (proj2 (proj2 (H {| Teams.xdr := Teams.form_team "alpha" ["GM"];
                               Teams.networkPassphrase := "Test SDF Network ; September 2015";
                               Teams.teamName := "alpha";
                               Teams.message := _ |} _)) "PENDING" eq_refl _).
    + vm_compute. reflexivity.
    + left. reflexivity.
Defined.

(** X23. Neither handler of the team page leaves the page loading, and the
    page records a team only for a submission the network accepted: after
    [handleCreateTeam] or [handleJoinTeam] has run on a page that was not
    loading, the page is not loading, whatever the route, the wallet or
    the network answered; and when the team of the page has changed, the
    submission returned [PENDING] or [DUPLICATE], the page had no team
    before, and the team is now the name typed, or the name joined. *)
Theorem team_page_ends_idle_and_records_accepted_teams
    (e : TeamsPage.Env) (publicKey teamName : string) (s : TeamsPage.State) :
  TeamsPage.isLoading s = false ->
  let created := TeamsPage.after s (TeamsPage.handleCreateTeam e publicKey s) in
  let joined := TeamsPage.after s (TeamsPage.handleJoinTeam e publicKey s teamName) in
  TeamsPage.isLoading created = false /\
  TeamsPage.isLoading joined = false /\
  (TeamsPage.userTeam created <> TeamsPage.userTeam s ->
   TeamsPage.userTeam s = EmptyString /\
   TeamsPage.userTeam created = TeamsPage.newTeamName s /\
   exists xdr passphrase status,
     TeamsPage.sign_and_send e xdr passphrase = Return status /\ accepted status) /\
  (TeamsPage.userTeam joined <> TeamsPage.userTeam s ->
   TeamsPage.userTeam s = EmptyString /\
   TeamsPage.userTeam joined = teamName /\
   exists xdr passphrase status,
     TeamsPage.sign_and_send e xdr passphrase = Return status /\ accepted status).
Proof.
  intros Hidle. cbv zeta. unfold TeamsPage.handleCreateTeam, TeamsPage.handleJoinTeam.
  assert (Hfail : forall what m, TeamsPage.apply s (TeamsPage.failure what m) = s).
  { intros what m. unfold TeamsPage.failure. destruct (Js.includes m _); reflexivity. }
  repeat split.
  - destruct (_ || _); [exact Hidle|].
    destruct (negb _); [exact Hidle|].
    destruct (TeamsPage.sign_prepared e _ _) as [[]|m]; [reflexivity|].
    unfold TeamsPage.after. cbn [app fold_left TeamsPage.apply].
    unfold TeamsPage.failure. destruct (Js.includes m _); reflexivity.
  - destruct (String.eqb publicKey EmptyString); [exact Hidle|].
    destruct (negb _); [exact Hidle|].
    destruct (TeamsPage.sign_prepared e _ _) as [[]|m]; [reflexivity|].
    unfold TeamsPage.after. cbn [app fold_left TeamsPage.apply].
    unfold TeamsPage.failure. destruct (Js.includes m _); reflexivity.
  - revert H. destruct (_ || _); [intros H; now contradiction H|].
    destruct (String.eqb (TeamsPage.userTeam s) EmptyString) eqn:Hteam;
      [|intros H; now contradiction H].
    intros _. now apply String.eqb_eq.
  - revert H. destruct (_ || _); [intros H; now contradiction H|].
    destruct (negb _); [intros H; now contradiction H|].
    destruct (TeamsPage.sign_prepared e _ _) as [[]|m]; [reflexivity|].
    unfold TeamsPage.after. cbn [app fold_left TeamsPage.apply].
    unfold TeamsPage.failure. destruct (Js.includes m _); intros H; now contradiction H.
  - revert H. destruct (_ || _); [intros H; now contradiction H|].
    destruct (negb _); [intros H; now contradiction H|].
    destruct (TeamsPage.sign_prepared e _ _) as [[]|m] eqn:Hsign.
    + intros _. exact (sign_prepared_inv _ _ _ Hsign).
    + unfold TeamsPage.after. cbn [app fold_left TeamsPage.apply].
      unfold TeamsPage.failure. destruct (Js.includes m _); intros H; now contradiction H.
  - revert H. destruct (String.eqb publicKey EmptyString); [intros H; now contradiction H|].
    destruct (String.eqb (TeamsPage.userTeam s) EmptyString) eqn:Hteam;
      [|intros H; now contradiction H].
    intros _. now apply String.eqb_eq.
  - revert H. destruct (String.eqb publicKey EmptyString); [intros H; now contradiction H|].
    destruct (negb _); [intros H; now contradiction H|].
    destruct (TeamsPage.sign_prepared e _ _) as [[]|m]; [reflexivity|].
    unfold TeamsPage.after. cbn [app fold_left TeamsPage.apply].
    unfold TeamsPage.failure. destruct (Js.includes m _); intros H; now contradiction H.
  - revert H. destruct (String.eqb publicKey EmptyString); [intros H; now contradiction H|].
    destruct (negb _); [intros H; now contradiction H|].
    destruct (TeamsPage.sign_prepared e _ _) as [[]|m] eqn:Hsign.
    + intros _. exact (sign_prepared_inv _ _ _ Hsign).
    + unfold TeamsPage.after. cbn [app fold_left TeamsPage.apply].
      unfold TeamsPage.failure. destruct (Js.includes m _); intros H; now contradiction H.
Qed.

Lemma team_page_ends_idle_and_records_accepted_teams_witness :
  TeamsPage.isLoading
    (TeamsPage.after (Cases.typed "alpha")
       (TeamsPage.handleJoinTeam
          (Cases.teams_page_env (Cases.teams_env (Throw "fetch failed")) (Return "PENDING"))
          "GM" (Cases.typed "alpha") "beta")) = false.
Proof.
  exact (proj1 (proj2 (team_page_ends_idle_and_records_accepted_teams
    (Cases.teams_page_env (Cases.teams_env (Throw "fetch failed")) (Return "PENDING"))
    "GM" "beta" (Cases.typed "alpha") eq_refl))).
Defined.

(** ** The prediction page from the prepared transaction to the timer *)

(** An error of the preparation endpoint is no success for [fetch]. *)
Lemma POST_error_is_not_ok (e : Prepare.Env) request status error :
  Prepare.POST e request = Return (Prepare.json_error status error) ->
  Fetch.ok status = false.
Proof.
  assert (Hinj : forall status' error',
    Fetch.ok status' = false ->
    Return (Prepare.json_error status' error') = Return (Prepare.json_error status error) ->
    Fetch.ok status = false).
  { intros status' error' Hok H. apply Return_inj in H. now injection H as <- _. }
  assert (Hcatch : forall m,
    Return (Prepare.POST_catch m) = Return (Prepare.json_error status error) ->
    Fetch.ok status = false).
  { intros m. unfold Prepare.POST_catch.
    repeat destruct (Js.includes m _); now apply Hinj. }
  unfold Prepare.POST, Prepare.POST_try.
  destruct request as [body|m]; cbn [bind try_catch]; [|apply Hcatch].
  destruct (Prepare.publicKey body) as [pk|]; [|now apply Hinj].
  destruct (Prepare.teamName body) as [team|]; [|now apply Hinj].
  destruct (Prepare.prediction body) as [p|]; [|now apply Hinj].
  destruct (_ || _); [now apply Hinj|].
  destruct (Prepare.Keypair_fromPublicKey e pk) as [[]|m]; [|now apply Hinj].
  destruct (_ || _); [now apply Hinj|].
  destruct (_ || _); [now apply Hinj|].
  destruct (Prepare.loadAccount e pk) as [[]|m]; [|now apply Hinj].
  destruct (Prepare.new_Contract e (Prepare.DAO_CONTRACT_ID e)) as [[]|m];
    cbn [bind try_catch]; [|apply Hcatch].
  destruct (Prepare.new_Contract e (Prepare.KALE_CONTRACT_ID e)) as [[]|m];
    cbn [bind try_catch]; [|apply Hcatch].
  destruct (Prepare.BigInt _) as [pct|m]; cbn [bind try_catch]; [|apply Hcatch].
  destruct (_ <=? 0)%Z; [now apply Hinj|].
  unfold Prepare.build_operation.
  destruct (Prepare.prepareTransaction e _) as [[]|m]; cbn [bind try_catch];
    [discriminate|now apply Hinj].
Qed.

Lemma prepare_and_sign_inv (route : Prepare.Env) (e : DaoPage.Env)
    (request : Prepare.PrepareTransactionRequest) id signedXdr :
  asks_prepare e route ->
  DaoPage.prepare_and_sign e request = Return (id, signedXdr) ->
  exists body,
    Prepare.POST route (Return request) = Return (Prepare.json_prepared body) /\
    id = Fetch.present (Prepare.predictionId body) /\
    DaoPage.signTransaction e (Some (Prepare.xdr body))
      (Some (Prepare.networkPassphrase body)) = Return signedXdr.
Proof.
  intros Hfetch. unfold DaoPage.prepare_and_sign. rewrite Hfetch.
  destruct (Prepare.POST route (Return request)) as [[status error|body]|m] eqn:Hpost;
    cbn [bind]; [| |discriminate].
  - rewrite (POST_error_is_not_ok _ _ _ _ Hpost). discriminate.
  - destruct (DaoPage.signTransaction e _ _) as [signed|m] eqn:Hsign; cbn [bind];
      [|discriminate].
    intros H. apply Return_inj in H. injection H as <- <-. eauto.
Qed.

Lemma submit_resolves_accepted (e : DaoPage.Env) (predictionId id : Fetch.Property string)
    (signedXdr hash : string) :
  In (DaoPage.resolve_later id hash) (DaoPage.submit e predictionId signedXdr) ->
  id = predictionId /\
  exists status, DaoPage.sendTransaction e signedXdr = Return (hash, status) /\ accepted status.
Proof.
  unfold DaoPage.submit.
  destruct (DaoPage.sendTransaction e signedXdr) as [[h status]|m].
  - destruct (String.eqb status "PENDING") eqn:Hp.
    + apply String.eqb_eq in Hp. subst status.
      intros [H|[H|[H|[]]]]; try discriminate. injection H as <- <-.
      split; [reflexivity|]. exists "PENDING". split; [reflexivity|now left].
    + destruct (String.eqb status "DUPLICATE") eqn:Hd.
      * apply String.eqb_eq in Hd. subst status.
        intros [H|[H|[H|[]]]]; try discriminate. injection H as <- <-.
        split; [reflexivity|]. exists "DUPLICATE". split; [reflexivity|now right].
      * intros [H|[H|[]]]; discriminate.
  - intros [H|[H|[]]]; discriminate.
Qed.

Lemma submit_keeps_loading (e : DaoPage.Env) (predictionId : Fetch.Property string)
    (signedXdr : string) (loading : bool) :
  DaoPage.isLoading_after loading (DaoPage.submit e predictionId signedXdr) = loading.
Proof.
  unfold DaoPage.submit. destruct (DaoPage.sendTransaction e signedXdr) as [[h status]|m];
    [|reflexivity].
  repeat destruct (String.eqb status _); reflexivity.
Qed.

(** X24. The prediction page asks for the resolution of a prediction only
    after the network accepted the submission: when [handlePredictionSubmit]
    sets the timer of the resolution, the preparation endpoint has answered
    a prepared transaction, the wallet has signed it, the network has
    answered [PENDING] or [DUPLICATE] with the hash the entry will link to,
    and the prediction asked for is the one of the prepared transaction,
    made of the team name of the form, the time and the random suffix of
    the endpoint. The operation signed is the staking of the prediction or
    the forming of the team; the page treats both alike. Whatever
    happens, the page is not left loading. *)
Theorem resolution_is_asked_after_an_accepted_submission
    (route : Prepare.Env) (e : DaoPage.Env) (publicKey : string)
    (formData : PredictionForm.PredictionFormDataSubmit) :
  asks_prepare e route ->
  let actions := DaoPage.handlePredictionSubmit e publicKey formData in
  DaoPage.isLoading_after false actions = false /\
  forall id hash,
    In (DaoPage.resolve_later id hash) actions ->
    exists request body signedXdr status,
      DaoPage.prepare_request publicKey formData = inr request /\
      Prepare.POST route (Return request) = Return (Prepare.json_prepared body) /\
      id = Fetch.present
             (Prepare.make_predictionId (PredictionForm.submit_teamName formData)
                (Prepare.Date_now route) (Prepare.Math_random_toString_36 route)) /\
      (Prepare.xdr body =
         Prepare.form_team (PredictionForm.submit_teamName formData) [publicKey] \/
       exists stakeAmount percentage,
         Prepare.xdr body =
           Prepare.make_prediction (Prepare.predictionId body)
             (PredictionForm.submit_teamName formData)
             (PredictionForm.submit_asset formData)
             (String.eqb (PredictionForm.submit_direction formData) "up")
             stakeAmount percentage publicKey) /\
      DaoPage.signTransaction e (Some (Prepare.xdr body))
        (Some (Prepare.networkPassphrase body)) = Return signedXdr /\
      DaoPage.sendTransaction e signedXdr = Return (hash, status) /\
      accepted status.
Proof.
  intros Hfetch. cbv zeta. unfold DaoPage.handlePredictionSubmit.
  destruct (DaoPage.prepare_request publicKey formData) as [message|request] eqn:Hrequest.
  - split; [reflexivity|]. intros id hash [H|[]]. discriminate.
  - split.
    + unfold DaoPage.isLoading_after. rewrite !fold_left_app. reflexivity.
    + intros id hash Hin.
      apply in_app_or in Hin as [[H|[H|[]]]|Hin]; try discriminate.
      apply in_app_or in Hin as [Hin|[H|[]]]; [|discriminate].
      destruct (DaoPage.prepare_and_sign e request) as [[predictionId signedXdr]|m] eqn:Hsign;
        [|destruct Hin as [H|[]]; discriminate].
      destruct (submit_resolves_accepted _ _ _ _ _ Hin) as (-> & status & Hsend & Hacc).
      destruct (prepare_and_sign_inv route e request _ _ Hfetch Hsign)
        as (body & Hpost & -> & Hsigned).
      destruct (POST_prepared_inv _ _ _ Hpost)
        as (body' & pk & team & p & pct & Hbody & Hpk & Hteam & Hp & _ & _ & _ & _ & Hid & Hxdr).
      apply Return_inj in Hbody. subst body'.
      revert Hrequest. unfold DaoPage.prepare_request.
      destruct (String.eqb publicKey EmptyString); [discriminate|].
      destruct (String.eqb (PredictionForm.submit_direction formData) EmptyString);
        [discriminate|].
      intros Hrequest. injection Hrequest as <-. cbn in Hpk, Hteam, Hp.
      injection Hpk as <-. injection Hteam as <-. injection Hp as <-.
      eexists _, body, signedXdr, status.
      split; [reflexivity|]. split; [exact Hpost|]. split; [now rewrite Hid|].
      split; [|auto].
      destruct Hxdr as [Hxdr|Hxdr]; [right|left; exact Hxdr].
      eexists _, _. exact Hxdr.
Qed.

Lemma resolution_is_asked_after_an_accepted_submission_witness :
  DaoPage.isLoading_after false
    (DaoPage.handlePredictionSubmit
       (Cases.dao_page_env (Sample.prepare_env 1700000000000 "0.k3j9x2m1p" true)
          (Return ("9f2c", "PENDING")))
       "GALICE" Cases.form_data) = false.
Proof.
  exact (proj1 (resolution_is_asked_after_an_accepted_submission
    (Sample.prepare_env 1700000000000 "0.k3j9x2m1p" true)
    (Cases.dao_page_env (Sample.prepare_env 1700000000000 "0.k3j9x2m1p" true)
       (Return ("9f2c", "PENDING")))
    "GALICE" Cases.form_data (fun request => eq_refl))).
Defined.

(** ** The wallet session *)

(** X25. Disconnecting by hand does not outlast a page load while the
    Freighter extension still allows the site. [disconnectWallet] leaves
    the wallet disconnected, without a key, and flags the disconnection in
    the state and in the local storage; the effect of the wallet button
    then connects nothing, before and after a reload. The effect of the
    header does not look at the flag: on the state a reload starts from it
    connects the wallet to the address of the extension and clears the
    flag and the stored item, and it does the same right after the
    disconnection. *)
Theorem disconnecting_does_not_outlast_a_page_load
    (f : Freighter.Answers) (s : ClientLayout.State) (local : ConnectWallet.Local)
    (address : string) :
  Freighter.isConnected f = Return true ->
  Freighter.getAddress f = Return address ->
  let left := fst (ConnectWallet.disconnectWallet s local) in
  let reloaded := ClientLayout.initial (ClientLayout.walletManuallyDisconnected left) in
  let connected :=
    {| ClientLayout.isWalletConnected := true;
       ClientLayout.publicKey := address;
       ClientLayout.hasManuallyDisconnected := false;
       ClientLayout.walletManuallyDisconnected := None |} in
  left = {| ClientLayout.isWalletConnected := false;
            ClientLayout.publicKey := EmptyString;
            ClientLayout.hasManuallyDisconnected := true;
            ClientLayout.walletManuallyDisconnected := Some "true" |} /\
  reloaded = left /\
  ConnectWallet.checkConnectionOnMount f left = left /\
  Header.checkWalletConnection f left = connected /\
  Header.checkWalletConnection f (ConnectWallet.checkConnectionOnMount f reloaded)
    = connected.
Proof.
  intros Hc Ha. cbv zeta. split; [reflexivity|]. split; [reflexivity|].
  split; [reflexivity|].
  unfold Header.checkWalletConnection. rewrite Hc, Ha. split; reflexivity.
Qed.

Lemma disconnecting_does_not_outlast_a_page_load_witness :
  Header.checkWalletConnection Cases.freighter_allowed
    (ConnectWallet.checkConnectionOnMount Cases.freighter_allowed
       (ClientLayout.initial (Some "true")))
  = {| ClientLayout.isWalletConnected := true;
       ClientLayout.publicKey := Cases.public_key;
       ClientLayout.hasManuallyDisconnected := false;
       ClientLayout.walletManuallyDisconnected := None |}.
Proof.
  exact (proj2 (proj2 (proj2 (proj2 (disconnecting_does_not_outlast_a_page_load
    Cases.freighter_allowed (ClientLayout.initial None)
    {| ConnectWallet.isLoading := false; ConnectWallet.error := EmptyString |}
    Cases.public_key eq_refl eq_refl))))).
Defined.

Lemma initial_holds_together (stored : option string) :
  session_holds_together (ClientLayout.initial stored).
Proof.
  unfold session_holds_together, ClientLayout.initial. cbn. repeat split; try congruence.
  - destruct stored as [item|]; [|discriminate]. intros H. apply String.eqb_eq in H. now subst.
  - intros ->. reflexivity.
Qed.

Lemma connected_holds_together (address : string) (s : ClientLayout.State) :
  session_holds_together (ClientLayout.handleWalletConnected address s).
Proof. unfold session_holds_together. cbn. repeat split; congruence. Qed.

Lemma step_holds_together (toLowerCase : string -> string) (s : Session.State)
    (ev : Session.Event) :
  session_holds_together (fst s) ->
  session_holds_together (fst (Session.step toLowerCase s ev)).
Proof.
  intros Hs. destruct ev as [f|f|f|]; cbn [Session.step fst].
  - unfold Header.checkWalletConnection.
    destruct (Freighter.isConnected f) as [[|]|m]; try exact Hs.
    destruct (Freighter.getAddress f) as [a|m]; [apply connected_holds_together|exact Hs].
  - unfold ConnectWallet.checkConnectionOnMount.
    destruct (ClientLayout.hasManuallyDisconnected (fst s)); [exact Hs|].
    destruct (Freighter.isConnected f) as [[|]|m]; try exact Hs.
    destruct (Freighter.getAddress f) as [a|m]; [apply connected_holds_together|exact Hs].
  - unfold ConnectWallet.connectWallet.
    destruct (ConnectWallet.request_address f) as [a|m]; cbn [fst];
      [apply connected_holds_together|].
    destruct Hs as (Hkey & _ & _). unfold session_holds_together. cbn.
    repeat split; try congruence. exact Hkey.
  - unfold session_holds_together. cbn. repeat split; congruence.
Qed.

(** X26. Whatever the wallet button, the header and the extension do, in
    any order and from any stored item, the wallet session holds together:
    a key is there for a connected wallet only, a connected wallet is
    never flagged as disconnected by hand, and the flag is set exactly
    when the browser stores [true] for it. *)
Theorem wallet_session_always_holds_together
    (toLowerCase : string -> string) (stored : option string)
    (events : list Session.Event) :
  session_holds_together (fst (Session.after toLowerCase stored events)).
Proof.
  unfold Session.after.
  assert (H : session_holds_together (fst (Session.loaded stored)))
    by apply initial_holds_together.
  revert H. generalize (Session.loaded stored) as s.
  induction events as [|ev events IH]; intros s H; [exact H|].
  cbn [fold_left]. apply IH. now apply step_holds_together.
Qed.
